(** * mergechallan: merging certificate PDFs with their challan PDFs

    A shallow embedding of [merge_pdfs_logic] (src/mergechallan.py) and the
    properties of the matching-and-merge pipeline.

    The embedding follows the Python text line by line.  What the source
    delegates to the outside world is made explicit:
    - Python strings are [string]s of code points below 256;
    - the value of [pd.read_excel] is a [DataFrame] (or a failure);
    - the documents the run touches (certificates, challans, combined
      documents) form one shared store [gmap string File], keyed by path,
      read by [os.path.exists] and [PdfWriter.append] and written by
      [open(.., 'wb')] / [PdfWriter.write];
    - the logging calls append to an event list; the text file and the
      queue that the handlers of [setup_logging] feed from it are not part
      of the store. *)

From Stdlib Require Import ZArith Ascii String List Bool Lia DecimalString.
From stdpp Require Import base option list strings gmap fin_maps.

Local Open Scope list_scope.
Local Open Scope string_scope.

(* ===================================================================== *)
(** ** Python string operations used by the source *)
(* ===================================================================== *)

Module PyStr.

(** [str.isspace] on one code point (CPython's table below 256). *)
Definition isspace (c : ascii) : bool :=
  let n := nat_of_ascii c in
  (((9 <=? n) && (n <=? 13)) || ((28 <=? n) && (n <=? 32))
   || (n =? 133) || (n =? 160))%nat.

(** [s.lstrip()], [s.rstrip()], [s.strip()] with no argument. *)
Fixpoint lstrip (s : string) : string :=
  match s with
  | EmptyString => EmptyString
  | String c r => if isspace c then lstrip r else s
  end.

Fixpoint rstrip (s : string) : string :=
  match s with
  | EmptyString => EmptyString
  | String c r =>
      match rstrip r with
      | EmptyString => if isspace c then EmptyString else String c EmptyString
      | r' => String c r'
      end
  end.

Definition strip (s : string) : string := rstrip (lstrip s).

(** [s.lower()], one code point at a time (below 256 no code point changes
    the length of the string). *)
Definition lower_char (c : ascii) : ascii :=
  let n := nat_of_ascii c in
  if (((65 <=? n) && (n <=? 90))
      || ((192 <=? n) && (n <=? 222) && negb (n =? 215)))%nat
  then ascii_of_nat (n + 32) else c.

Fixpoint lower (s : string) : string :=
  match s with
  | EmptyString => EmptyString
  | String c r => String (lower_char c) (lower r)
  end.

(** [s.startswith(p)] and [s.endswith(p)]. *)
Definition startswith (s p : string) : bool := String.prefix p s.

Definition endswith (s p : string) : bool :=
  (String.length p <=? String.length s)%nat
  && String.eqb (substring (String.length s - String.length p)
                           (String.length p) s) p.

(** [s.rfind(c)] for a one-character needle: the last index, or -1. *)
Fixpoint rfind_from (c : ascii) (s : string) (i : Z) (last : Z) : Z :=
  match s with
  | EmptyString => last
  | String d r =>
      rfind_from c r (i + 1) (if Ascii.eqb c d then i else last)
  end.

Definition rfind (c : ascii) (s : string) : Z := rfind_from c s 0 (-1).

(** [f"{n}"] for a non-negative [int] and [str(z)] for an [int]. *)
Definition str_of_nat (n : nat) : string :=
  NilZero.string_of_uint (Nat.to_uint n).

Definition str_of_Z (z : Z) : string :=
  NilZero.string_of_int (Z.to_int z).

(** [repr(s)] for a [str]: CPython's [unicode_repr], restricted to code
    points below 256. *)
Fixpoint contains_char (c : ascii) (s : string) : bool :=
  match s with
  | EmptyString => false
  | String d r => Ascii.eqb c d || contains_char c r
  end.

Definition hex_digit (n : nat) : ascii :=
  if (n <? 10)%nat then ascii_of_nat (48 + n) else ascii_of_nat (87 + n).

Definition hex_escape (n : nat) : string :=
  String "\" (String "x" (String (hex_digit (n / 16))
                           (String (hex_digit (n mod 16)) EmptyString))).

Definition repr_char (quote : ascii) (c : ascii) : string :=
  let n := nat_of_ascii c in
  if Ascii.eqb c quote || Ascii.eqb c "\" then String "\" (String c EmptyString)
  else if (n =? 9)%nat then "\t"
  else if (n =? 10)%nat then "\n"
  else if (n =? 13)%nat then "\r"
  else if ((n <? 32) || (n =? 127))%nat then hex_escape n
  else if (n <? 127)%nat then String c EmptyString
  else if ((n <=? 160) || (n =? 173))%nat then hex_escape n
  else String c EmptyString.

Fixpoint repr_body (quote : ascii) (s : string) : string :=
  match s with
  | EmptyString => EmptyString
  | String c r => repr_char quote c ++ repr_body quote r
  end.

Definition apostrophe : ascii := ascii_of_nat 39.
Definition dquote : ascii := ascii_of_nat 34.

Definition repr (s : string) : string :=
  let quote :=
    if contains_char apostrophe s && negb (contains_char dquote s)
    then dquote else apostrophe in
  String quote (repr_body quote s ++ String quote EmptyString).

(** [repr] of a list of [str], as an f-string prints [df.columns.tolist()]. *)
Fixpoint join_with (sep : string) (l : list string) : string :=
  match l with
  | [] => EmptyString
  | [x] => x
  | x :: r => x ++ sep ++ join_with sep r
  end.

Definition repr_list (l : list string) : string :=
  "[" ++ join_with ", " (map repr l) ++ "]".

End PyStr.

(* ===================================================================== *)
(** ** os.path (the POSIX flavour, posixpath) *)
(* ===================================================================== *)

Module OsPath.
Import PyStr.

(** [os.path.join(a, b)]. *)
Definition join (a b : string) : string :=
  if startswith b "/" then b
  else if String.eqb a EmptyString || endswith a "/" then a ++ b
  else a ++ "/" ++ b.

(** The [while] loop of [genericpath._splitext]: is there a character
    other than the dot in [p[filenameIndex:dotIndex]]? *)
Fixpoint splitext_scan (p : string) (filenameIndex : nat) (n : nat) : bool :=
  match n with
  | O => false
  | S n' =>
      if negb (String.eqb (substring filenameIndex 1 p) ".")
      then true
      else splitext_scan p (S filenameIndex) n'
  end.

(** [os.path.splitext(p)]. *)
Definition splitext (p : string) : string * string :=
  let sepIndex := rfind "/" p in
  let dotIndex := rfind "." p in
  if (sepIndex <? dotIndex)%Z
     && splitext_scan p (Z.to_nat (sepIndex + 1))
                      (Z.to_nat (dotIndex - (sepIndex + 1)))
  then (substring 0 (Z.to_nat dotIndex) p,
        substring (Z.to_nat dotIndex)
                  (String.length p - Z.to_nat dotIndex) p)
  else (p, EmptyString).

End OsPath.

(* ===================================================================== *)
(** ** Data model *)
(* ===================================================================== *)

(** A value held by a spreadsheet cell or a column label, as pandas hands it
    to the program.  Floating-point cells other than NaN are outside the
    model. *)
Inductive Cell :=
| CStr (s : string)
| CInt (z : Z)
| CNaN.

#[global] Instance Cell_eq_dec : EqDecision Cell.
Proof. solve_decision. Defined.

(** [str(x)] for a cell value. *)
Definition py_str (c : Cell) : string :=
  match c with
  | CStr s => s
  | CInt z => PyStr.str_of_Z z
  | CNaN => "nan"
  end.

(** A pandas [DataFrame]: the column labels and the rows, each row holding
    one cell per column. *)
Record DataFrame := {
  df_columns : list Cell;
  df_rows : list (list Cell)
}.

(** The exceptions the run can meet. *)
Inductive Exn :=
| KeyError (label : string)
| AttributeError (what : string)
| FileNotFoundError (path : string)
| PdfReadError (path : string)
| OSError (path : string).

Definition is_FileNotFoundError (e : Exn) : bool :=
  match e with FileNotFoundError _ => true | _ => false end.

(** A document is the sequence of its pages; a file is a document or
    something [PdfWriter.append] cannot read (an empty or truncated file, a
    directory, a damaged document). *)
Definition Page := string.

Inductive File :=
| Pdf (pages : list Page)
| NotPdf.

#[global] Instance File_eq_dec : EqDecision File.
Proof. solve_decision. Defined.

(** The four locations of [paths]. *)
Record Paths := {
  cert_dir : string;
  challan_dir : string;
  output_dir : string;
  excel_file : string
}.

(** What the run asks of its surroundings, other than the file store:
    - [read_excel p] is [pd.read_excel(p, engine='openpyxl')];
    - [listdir d] is [os.listdir(d)];
    - [open_wb p] tells whether [open(p, 'wb')] is refused;
    - [pdf_write p] tells whether [merger.write] to the opened [p] fails;
    - [exn_str e] is [str(e)];
    - [series_str cs] is [str(x)] for the pandas [Series] that
      [row[label]] yields when [label] names several columns.
    The listing is asked of the surroundings and is not computed from the
    store: a statement about two runs says what each run is answered
    ([same_surroundings]). *)
Record World := {
  read_excel : string -> Exn + DataFrame;
  listdir : string -> Exn + list string;
  open_wb : string -> option Exn;
  pdf_write : string -> option Exn;
  exn_str : Exn -> string;
  series_str : list Cell -> string
}.

(** Severity of a log record. *)
Inductive Level := INFO | WARNING | ERROR.

#[global] Instance Level_eq_dec : EqDecision Level.
Proof. solve_decision. Defined.

(** What a run does that can be observed: a [logging] call, or the file at
    [path] taking a new content. *)
Inductive Action :=
| Log (lvl : Level) (msg : string)
| Store (path : string) (f : File).

#[global] Instance Action_eq_dec : EqDecision Action.
Proof. solve_decision. Defined.

(* ===================================================================== *)
(** ** The monad of the run: file store, trace, exceptions *)
(* ===================================================================== *)

Definition M (A : Type) : Type :=
  gmap string File -> list Action * gmap string File * (Exn + A).

Definition ret {A} (a : A) : M A := fun fs => ([], fs, inr a).

Definition bind {A B} (m : M A) (k : A -> M B) : M B :=
  fun fs =>
    match m fs with
    | (t1, fs1, inl e) => (t1, fs1, inl e)
    | (t1, fs1, inr a) =>
        match k a fs1 with
        | (t2, fs2, r) => ((t1 ++ t2)%list, fs2, r)
        end
    end.

(** [try: m except Exception as e: h e]. *)
Definition try_except {A} (m : M A) (h : Exn -> M A) : M A :=
  fun fs =>
    match m fs with
    | (t1, fs1, inl e) =>
        match h e fs1 with
        | (t2, fs2, r) => ((t1 ++ t2)%list, fs2, r)
        end
    | (t1, fs1, inr a) => (t1, fs1, inr a)
    end.

Definition lift {A} (r : Exn + A) : M A := fun fs => ([], fs, r).

Declare Scope run_scope.
Delimit Scope run_scope with run.
Notation "x <- m ;; k" := (bind m (fun x => k))
  (at level 100, m at next level, right associativity) : run_scope.
Notation "m ;;; k" := (bind m (fun _ => k))
  (at level 100, right associativity) : run_scope.
Local Open Scope run_scope.

(** [logging.info], [logging.warning], [logging.error]. *)
Definition logging (lvl : Level) (msg : string) : M unit :=
  fun fs => ([Log lvl msg], fs, inr tt).

(** [os.path.exists(path)]. *)
Definition path_exists (path : string) : M bool :=
  fun fs => ([], fs, inr (bool_decide (is_Some (fs !! path)))).

(** [merger.append(path)]: the pages of the document at [path] go after
    those already in [merger]. *)
Definition pdf_append (merger : list Page) (path : string) : M (list Page) :=
  fun fs =>
    match fs !! path with
    | None => ([], fs, inl (FileNotFoundError path))
    | Some NotPdf => ([], fs, inl (PdfReadError path))
    | Some (Pdf pages) => ([], fs, inr ((merger ++ pages)%list))
    end.

(* ===================================================================== *)
(** ** The pandas operations of the source *)
(* ===================================================================== *)

(** The positions at which [label] occurs among the column labels. *)
Fixpoint label_positions_from (cols : list Cell) (label : string) (i : nat)
  : list nat :=
  match cols with
  | [] => []
  | c :: cols' =>
      if bool_decide (c = CStr label)
      then i :: label_positions_from cols' label (S i)
      else label_positions_from cols' label (S i)
  end.

Definition label_positions (cols : list Cell) (label : string) : list nat :=
  label_positions_from cols label 0.

(** [label in df.columns]. *)
Definition has_column (df : DataFrame) (label : string) : bool :=
  bool_decide (CStr label ∈ df_columns df).

(** The cell of [row] in column [i]; a row too short reads as NaN. *)
Definition cell_at (row : list Cell) (i : nat) : Cell := nth i row CNaN.

(** Line 74: [df.columns = [str(col).strip() for col in df.columns]]. *)
Definition strip_columns (df : DataFrame) : DataFrame :=
  {| df_columns := map (fun col => CStr (PyStr.strip (py_str col))) (df_columns df);
     df_rows := df_rows df |}.

(** [df.columns.tolist()] once the labels are strings. *)
Definition columns_tolist (df : DataFrame) : list string :=
  map py_str (df_columns df).

(** Line 101:
    [df[df[label].astype(str).str.strip() == employee_name.strip()]].
    [df[label]] is a [Series] when [label] names one column, and a
    [DataFrame], which has no [.str], when it names several. *)
Definition select_rows (df : DataFrame) (label : string) (employee_name : string)
  : Exn + DataFrame :=
  match label_positions (df_columns df) label with
  | [] => inl (KeyError label)
  | [i] =>
      inr {| df_columns := df_columns df;
             df_rows :=
               List.filter
                 (fun row => String.eqb (PyStr.strip (py_str (cell_at row i)))
                                        (PyStr.strip employee_name))
                 (df_rows df) |}
  | _ => inl (AttributeError "'DataFrame' object has no attribute 'str'")
  end.

(** [df.empty]. *)
Definition df_empty (df : DataFrame) : bool :=
  match df_columns df, df_rows df with
  | [], _ => true
  | _, [] => true
  | _, _ => false
  end.

(** [str(row[label])] for a row of [iterrows()]. *)
Definition row_item_str (w : World) (cols : list Cell) (row : list Cell)
    (label : string) : Exn + string :=
  match label_positions cols label with
  | [] => inl (KeyError label)
  | [i] => inr (py_str (cell_at row i))
  | ps => inr (series_str w (map (cell_at row) ps))
  end.

(* ===================================================================== *)
(** ** merge_pdfs_logic *)
(* ===================================================================== *)

Definition employee_col_name : string := "Employee Name".
Definition challan_col_name : string := "Challan Number".

Section Logic.

Variable w : World.
Variable paths : Paths.

(** [with open(output_path, 'wb') as output_file: merger.write(output_file)].
    Opening truncates the file; a write that fails leaves it unreadable. *)
Definition open_truncate (output_path : string) : M unit :=
  fun fs =>
    match open_wb w output_path with
    | Some e => ([], fs, inl e)
    | None => ([Store output_path NotPdf], <[output_path := NotPdf]> fs, inr tt)
    end.

Definition merger_write (output_path : string) (merger : list Page) : M unit :=
  fun fs =>
    match pdf_write w output_path with
    | Some e => ([], fs, inl e)
    | None =>
        ([Store output_path (Pdf merger)], <[output_path := Pdf merger]> fs, inr tt)
    end.

(** Lines 114-125, the body of [for _, row in employee_challans.iterrows()]. *)
Definition append_challan (cols : list Cell) (row : list Cell)
    (merger : list Page) : M (list Page) :=
  s <- lift (row_item_str w cols row challan_col_name) ;;
  let challan_num := PyStr.strip s in
  let challan_filename := challan_num ++ ".pdf" in
  let challan_path := OsPath.join (challan_dir paths) challan_filename in
  found <- path_exists challan_path ;;
  if found : bool then
    try_except
      (merger' <- pdf_append merger challan_path ;;
       logging INFO ("  + Added challan: " ++ challan_filename) ;;;
       ret merger')
      (fun e =>
         logging WARNING ("  - Could not merge challan file " ++ challan_path
                          ++ ". Skipping. Error: " ++ exn_str w e) ;;;
         ret merger)
  else
    logging WARNING ("  - Challan file not found: " ++ challan_path
                     ++ ". Skipping.") ;;;
    ret merger.

(** Lines 113-125. *)
Fixpoint append_challans (cols : list Cell) (rows : list (list Cell))
    (merger : list Page) : M (list Page) :=
  match rows with
  | [] => ret merger
  | row :: rows' =>
      merger' <- append_challan cols row merger ;;
      append_challans cols rows' merger'
  end.

(** Lines 101-134, the body of the [try] for one certificate; the value is
    the new [processed_files]. *)
Definition merge_one (df : DataFrame) (cert_filename employee_name : string)
    (processed_files : nat) : M nat :=
  employee_challans <- lift (select_rows df employee_col_name employee_name) ;;
  if df_empty employee_challans then
    logging WARNING ("No challan entries found for '" ++ employee_name
                     ++ "' in the Excel file. Skipping.") ;;;
    ret processed_files
  else
    let cert_path := OsPath.join (cert_dir paths) cert_filename in
    merger <- pdf_append [] cert_path ;;
    logging INFO ("Added certificate: " ++ cert_filename) ;;;
    merger <- append_challans (df_columns employee_challans)
                              (df_rows employee_challans) merger ;;
    let output_filename := employee_name ++ "_combined.pdf" in
    let output_path := OsPath.join (output_dir paths) output_filename in
    open_truncate output_path ;;;
    merger_write output_path merger ;;;
    logging INFO ("Successfully created merged file: " ++ output_path) ;;;
    ret (processed_files + 1).

(** Lines 97-138, one turn of [for cert_filename in total_certs]. *)
Definition process_certificate (df : DataFrame) (cert_filename : string)
    (processed_files : nat) : M nat :=
  let employee_name := fst (OsPath.splitext cert_filename) in
  logging INFO ("--- Processing certificate for: " ++ employee_name ++ " ---") ;;;
  try_except
    (merge_one df cert_filename employee_name processed_files)
    (fun e =>
       logging ERROR ("A critical error occurred while processing "
                      ++ employee_name ++ ". Skipping. Error: " ++ exn_str w e) ;;;
       ret processed_files).

(** Lines 96-138. *)
Fixpoint process_all (df : DataFrame) (certs : list string)
    (processed_files : nat) : M nat :=
  match certs with
  | [] => ret processed_files
  | cert_filename :: certs' =>
      processed_files' <- process_certificate df cert_filename processed_files ;;
      process_all df certs' processed_files'
  end.

(** Lines 72-90: the value is the validated frame, or [None] where the
    source returns. *)
Definition load_mapping : M (option DataFrame) :=
  match read_excel w (excel_file paths) with
  | inr df0 =>
      let df := strip_columns df0 in
      if negb (has_column df employee_col_name)
         || negb (has_column df challan_col_name)
      then
        logging ERROR ("Excel file must contain columns named '"
                       ++ employee_col_name ++ "' and '" ++ challan_col_name
                       ++ "'.") ;;;
        logging ERROR ("Found columns: "
                       ++ PyStr.repr_list (columns_tolist df)) ;;;
        ret None
      else
        logging INFO "Successfully loaded and validated the Excel file." ;;;
        ret (Some df)
  | inl e =>
      if is_FileNotFoundError e then
        logging ERROR ("The Excel file was not found at " ++ excel_file paths) ;;;
        ret None
      else
        logging ERROR ("An error occurred while reading the Excel file: "
                       ++ exn_str w e) ;;;
        ret None
  end.

(** Line 93: [[f for f in os.listdir(cert_dir) if f.lower().endswith('.pdf')]]. *)
Definition pdf_names (names : list string) : list string :=
  List.filter (fun f => PyStr.endswith (PyStr.lower f) ".pdf") names.

(** The last record of a completed run. *)
Definition summary (processed_files total : nat) : string :=
  "Successfully processed and merged PDFs for " ++ PyStr.str_of_nat processed_files
  ++ " out of " ++ PyStr.str_of_nat total ++ " employees.".

(** Lines 62-141.  The value [inr tt] is a return; [inl e] is an exception
    leaving the function. *)
Definition merge_pdfs_logic : M unit :=
  logging INFO "Starting the PDF merging process..." ;;;
  logging INFO ("Certificate Directory: " ++ cert_dir paths) ;;;
  logging INFO ("Challan Directory: " ++ challan_dir paths) ;;;
  logging INFO ("Output Directory: " ++ output_dir paths) ;;;
  logging INFO ("Excel File: " ++ excel_file paths) ;;;
  loaded <- load_mapping ;;
  match loaded with
  | None => ret tt
  | Some df =>
      let processed_files := 0 in
      names <- lift (listdir w (cert_dir paths)) ;;
      let total_certs := pdf_names names in
      logging INFO ("Found " ++ PyStr.str_of_nat (length total_certs)
                    ++ " PDF files in the certificate directory.") ;;;
      processed_files <- process_all df total_certs processed_files ;;
      logging INFO "--- Process Complete ---" ;;;
      logging INFO (summary processed_files (length total_certs)) ;;;
      ret tt
  end.

End Logic.

(* ===================================================================== *)
(** ** Views of the run used to state its properties *)
(* ===================================================================== *)

(** Lines 113-114: the successive values of [challan_num] as the loop goes
    through [rows]. *)
Fixpoint challan_nums (w : World) (cols : list Cell) (rows : list (list Cell))
  : Exn + list string :=
  match rows with
  | [] => inr []
  | row :: rows' =>
      match row_item_str w cols row challan_col_name with
      | inl e => inl e
      | inr s =>
          match challan_nums w cols rows' with
          | inl e => inl e
          | inr l => inr (PyStr.strip s :: l)
          end
      end
  end.

(** Lines 101 and 113-114 together: the receipt ids the run looks up for the
    person [employee_name]. *)
Definition lookup_challans (w : World) (df : DataFrame) (employee_name : string)
  : Exn + list string :=
  match select_rows df employee_col_name employee_name with
  | inl e => inl e
  | inr employee_challans =>
      challan_nums w (df_columns employee_challans) (df_rows employee_challans)
  end.

(** Lines 115-116 and 127-128: the paths the run builds. *)
Definition challan_path (paths : Paths) (challan_num : string) : string :=
  OsPath.join (challan_dir paths) (challan_num ++ ".pdf").

Definition employee_of (cert_filename : string) : string :=
  fst (OsPath.splitext cert_filename).

Definition output_path_of (paths : Paths) (cert_filename : string) : string :=
  OsPath.join (output_dir paths) (employee_of cert_filename ++ "_combined.pdf").

(** The documents a trace completed writing, oldest first. *)
Fixpoint written_docs (t : list Action) : list (string * list Page) :=
  match t with
  | [] => []
  | Store path (Pdf pages) :: t' => (path, pages) :: written_docs t'
  | _ :: t' => written_docs t'
  end.

(** The log records of a trace, and those of one severity. *)
Fixpoint log_records (t : list Action) : list (Level * string) :=
  match t with
  | [] => []
  | Log lvl msg :: t' => (lvl, msg) :: log_records t'
  | Store _ _ :: t' => log_records t'
  end.

Definition messages_at (lvl : Level) (t : list Action) : list string :=
  map snd (List.filter (fun r => bool_decide (fst r = lvl)) (log_records t)).

(** The file store after the [Store] actions of a trace. *)
Fixpoint replay (t : list Action) (fs : gmap string File) : gmap string File :=
  match t with
  | [] => fs
  | Store path f :: t' => replay t' (<[path := f]> fs)
  | Log _ _ :: t' => replay t' fs
  end.

(** The last content a trace stores at [path], if it stores any. *)
Fixpoint last_store (t : list Action) (path : string) : option File :=
  match t with
  | [] => None
  | Store p f :: t' =>
      match last_store t' path with
      | Some f' => Some f'
      | None => if bool_decide (p = path) then Some f else None
      end
  | Log _ _ :: t' => last_store t' path
  end.

(** The pages of the document at [path] (none when there is no readable
    document), and whether a file is there. *)
Definition pages_at (fs : gmap string File) (path : string) : list Page :=
  match fs !! path with
  | Some (Pdf pages) => pages
  | _ => []
  end.

Definition file_exists (fs : gmap string File) (path : string) : bool :=
  bool_decide (is_Some (fs !! path)).

(** The record the run logs for the challan [challan_num] (lines 118-125). *)
Definition challan_record (w : World) (paths : Paths) (fs : gmap string File)
    (challan_num : string) : Action :=
  match fs !! challan_path paths challan_num with
  | None =>
      Log WARNING ("  - Challan file not found: "
                   ++ challan_path paths challan_num ++ ". Skipping.")
  | Some NotPdf =>
      Log WARNING ("  - Could not merge challan file "
                   ++ challan_path paths challan_num ++ ". Skipping. Error: "
                   ++ exn_str w (PdfReadError (challan_path paths challan_num)))
  | Some (Pdf _) => Log INFO ("  + Added challan: " ++ challan_num ++ ".pdf")
  end.

(** The messages of lines 98, 104 and 137. *)
Definition processing_msg (employee_name : string) : string :=
  "--- Processing certificate for: " ++ employee_name ++ " ---".

Definition no_entries_msg (employee_name : string) : string :=
  "No challan entries found for '" ++ employee_name
  ++ "' in the Excel file. Skipping.".

Definition critical_msg (w : World) (employee_name : string) (e : Exn) : string :=
  "A critical error occurred while processing " ++ employee_name
  ++ ". Skipping. Error: " ++ exn_str w e.

Definition not_found_msg (paths : Paths) (challan_num : string) : string :=
  "  - Challan file not found: " ++ challan_path paths challan_num
  ++ ". Skipping.".

(** The records that open every run (lines 66-70). *)
Definition prelude (paths : Paths) : list Action :=
  [Log INFO "Starting the PDF merging process...";
   Log INFO ("Certificate Directory: " ++ cert_dir paths);
   Log INFO ("Challan Directory: " ++ challan_dir paths);
   Log INFO ("Output Directory: " ++ output_dir paths);
   Log INFO ("Excel File: " ++ excel_file paths)].

(** The paths a run reads documents from: every certificate of the work
    list and the challan of every row of the mapping. *)
Definition row_challan_paths (w : World) (paths : Paths) (cols : list Cell)
    (row : list Cell) : list string :=
  match row_item_str w cols row challan_col_name with
  | inr s => [challan_path paths (PyStr.strip s)]
  | inl _ => []
  end.

Definition input_paths (w : World) (paths : Paths) : list string :=
  match read_excel w (excel_file paths), listdir w (cert_dir paths) with
  | inr df0, inr names =>
      (map (OsPath.join (cert_dir paths)) (pdf_names names)
       ++ flat_map (row_challan_paths w paths (df_columns (strip_columns df0)))
                   (df_rows df0))%list
  | _, _ => []
  end.

(** A trace that only logs. *)
Definition is_log (a : Action) : Prop :=
  match a with Log _ _ => True | Store _ _ => False end.

(** Lines 109 and 127-128 for the person [employee_name]. *)
Definition cert_path_of (paths : Paths) (cert_filename : string) : string :=
  OsPath.join (cert_dir paths) cert_filename.

Definition combined_path (paths : Paths) (employee_name : string) : string :=
  OsPath.join (output_dir paths) (employee_name ++ "_combined.pdf").

(** The messages of lines 111 and 133. *)
Definition added_cert_msg (cert_filename : string) : string :=
  "Added certificate: " ++ cert_filename.

Definition created_msg (output_path : string) : string :=
  "Successfully created merged file: " ++ output_path.

(** The combined document: the certificate, then the pages of each challan
    in turn. *)
Definition combined_doc (paths : Paths) (fs : gmap string File)
    (cert : list Page) (ids : list string) : list Page :=
  (cert ++ concat (map (fun id => pages_at fs (challan_path paths id)) ids))%list.

(** Every way the body of the [try] (lines 101-134) can end for one
    certificate, with the trace it leaves. *)
Inductive merge_one_result (w : World) (paths : Paths) (df : DataFrame)
    (cert_filename employee_name : string) (processed_files : nat)
    (fs : gmap string File)
  : list Action * gmap string File * (Exn + nat) -> Prop :=
| MO_select_raises e :
    select_rows df employee_col_name employee_name = inl e ->
    merge_one_result w paths df cert_filename employee_name processed_files fs
      ([], fs, inl e)
| MO_skipped sel :
    select_rows df employee_col_name employee_name = inr sel ->
    df_empty sel = true ->
    merge_one_result w paths df cert_filename employee_name processed_files fs
      ([Log WARNING (no_entries_msg employee_name)], fs, inr processed_files)
| MO_cert_missing sel :
    select_rows df employee_col_name employee_name = inr sel ->
    df_empty sel = false ->
    fs !! cert_path_of paths cert_filename = None ->
    merge_one_result w paths df cert_filename employee_name processed_files fs
      ([], fs, inl (FileNotFoundError (cert_path_of paths cert_filename)))
| MO_cert_unreadable sel :
    select_rows df employee_col_name employee_name = inr sel ->
    df_empty sel = false ->
    fs !! cert_path_of paths cert_filename = Some NotPdf ->
    merge_one_result w paths df cert_filename employee_name processed_files fs
      ([], fs, inl (PdfReadError (cert_path_of paths cert_filename)))
| MO_challan_raises sel cert e0 t e :
    select_rows df employee_col_name employee_name = inr sel ->
    df_empty sel = false ->
    fs !! cert_path_of paths cert_filename = Some (Pdf cert) ->
    challan_nums w (df_columns sel) (df_rows sel) = inl e0 ->
    Forall is_log t ->
    merge_one_result w paths df cert_filename employee_name processed_files fs
      (Log INFO (added_cert_msg cert_filename) :: t, fs, inl e)
| MO_open_refused sel cert ids e :
    select_rows df employee_col_name employee_name = inr sel ->
    df_empty sel = false ->
    fs !! cert_path_of paths cert_filename = Some (Pdf cert) ->
    challan_nums w (df_columns sel) (df_rows sel) = inr ids ->
    open_wb w (combined_path paths employee_name) = Some e ->
    merge_one_result w paths df cert_filename employee_name processed_files fs
      (Log INFO (added_cert_msg cert_filename)
         :: map (challan_record w paths fs) ids, fs, inl e)
| MO_write_fails sel cert ids e :
    select_rows df employee_col_name employee_name = inr sel ->
    df_empty sel = false ->
    fs !! cert_path_of paths cert_filename = Some (Pdf cert) ->
    challan_nums w (df_columns sel) (df_rows sel) = inr ids ->
    open_wb w (combined_path paths employee_name) = None ->
    pdf_write w (combined_path paths employee_name) = Some e ->
    merge_one_result w paths df cert_filename employee_name processed_files fs
      (Log INFO (added_cert_msg cert_filename)
         :: map (challan_record w paths fs) ids
         ++ [Store (combined_path paths employee_name) NotPdf],
       <[combined_path paths employee_name := NotPdf]> fs, inl e)
| MO_merged sel cert ids :
    select_rows df employee_col_name employee_name = inr sel ->
    df_empty sel = false ->
    fs !! cert_path_of paths cert_filename = Some (Pdf cert) ->
    challan_nums w (df_columns sel) (df_rows sel) = inr ids ->
    open_wb w (combined_path paths employee_name) = None ->
    pdf_write w (combined_path paths employee_name) = None ->
    merge_one_result w paths df cert_filename employee_name processed_files fs
      (Log INFO (added_cert_msg cert_filename)
         :: map (challan_record w paths fs) ids
         ++ [Store (combined_path paths employee_name) NotPdf;
             Store (combined_path paths employee_name)
                   (Pdf (combined_doc paths fs cert ids));
             Log INFO (created_msg (combined_path paths employee_name))],
       <[combined_path paths employee_name := Pdf (combined_doc paths fs cert ids)]> fs,
       inr (processed_files + 1)).

(** The conditions under which the turn for [cert_filename] merges: the
    person has rows, the certificate is a readable document, every row
    yields its challan number, the output file opens and the write goes
    through. *)
Definition turn_merges (w : World) (paths : Paths) (df : DataFrame)
    (cert_filename : string) (fs : gmap string File)
    (cert : list Page) (ids : list string) : Prop :=
  exists sel,
    select_rows df employee_col_name (employee_of cert_filename) = inr sel
    /\ df_empty sel = false
    /\ fs !! cert_path_of paths cert_filename = Some (Pdf cert)
    /\ challan_nums w (df_columns sel) (df_rows sel) = inr ids
    /\ open_wb w (output_path_of paths cert_filename) = None
    /\ pdf_write w (output_path_of paths cert_filename) = None.

(** The trace of a turn that merges. *)
Definition merged_trace (w : World) (paths : Paths) (cert_filename : string)
    (fs : gmap string File) (cert : list Page) (ids : list string)
  : list Action :=
  (Log INFO (processing_msg (employee_of cert_filename))
   :: Log INFO (added_cert_msg cert_filename)
   :: map (challan_record w paths fs) ids
   ++ [Store (output_path_of paths cert_filename) NotPdf;
       Store (output_path_of paths cert_filename)
             (Pdf (combined_doc paths fs cert ids));
       Log INFO (created_msg (output_path_of paths cert_filename))])%list.

(** The challan numbers whose file is there. *)
Definition found_ids (paths : Paths) (fs : gmap string File)
    (ids : list string) : list string :=
  List.filter (fun id => file_exists fs (challan_path paths id)) ids.

(** [msg] contains [part]. *)
Definition mentions (msg part : string) : Prop :=
  exists pre post, msg = pre ++ part ++ post.

(** Line 78 on the frame as [pd.read_excel] gives it: both required labels
    are among the stripped labels. *)
Definition validated (df0 : DataFrame) : bool :=
  has_column (strip_columns df0) employee_col_name
  && has_column (strip_columns df0) challan_col_name.

(** The messages of lines 79-80, 83 and 94. *)
Definition missing_columns_msg : string :=
  "Excel file must contain columns named '" ++ employee_col_name
  ++ "' and '" ++ challan_col_name ++ "'.".

Definition found_columns_msg (labels : list string) : string :=
  "Found columns: " ++ PyStr.repr_list labels.

Definition loaded_msg : string :=
  "Successfully loaded and validated the Excel file.".

Definition found_msg (total : nat) : string :=
  "Found " ++ PyStr.str_of_nat total ++ " PDF files in the certificate directory.".

(** The messages of lines 86 and 89. *)
Definition excel_not_found_msg (paths : Paths) : string :=
  "The Excel file was not found at " ++ excel_file paths.

Definition excel_error_msg (w : World) (e : Exn) : string :=
  "An error occurred while reading the Excel file: " ++ exn_str w e.

(** Two file stores hold the same files at the paths of [P]. *)
Definition agree (P : list string) (fs fs' : gmap string File) : Prop :=
  forall p, p ∈ P -> fs !! p = fs' !! p.

(** A computation that reads the store only at paths of [P]: from stores
    that agree on [P] it leaves the same trace and the same value, and its
    effect on the store is the replay of that trace. *)
Definition reads_within {A} (P : list string) (m : M A) : Prop :=
  forall fs fs', agree P fs fs' ->
    exists t r, m fs = (t, replay t fs, r) /\ m fs' = (t, replay t fs', r).

(* ===================================================================== *)
(** ** A worked batch *)
(* ===================================================================== *)

(** The scenario of the specification: rows (Alice, 101), (Alice, 102),
    (Bob, 201); certificates Alice.pdf, Bob.pdf, Carol.pdf; challans 101.pdf
    and 201.pdf.  The labels and some cells carry surrounding whitespace,
    one challan number is a number, and a last row has a blank challan. *)
Module Scenario.

Definition frame : DataFrame :=
  {| df_columns := [CStr " Employee Name"; CStr "Challan Number "; CStr "Amount"];
     df_rows :=
       [[CStr "Alice"; CInt 101; CInt 500];
        [CStr " Alice "; CStr "102 "; CInt 250];
        [CStr "Bob"; CStr " 201"; CNaN];
        [CStr "Dan"; CStr "   "; CInt 10]] |}.

(** A frame without the 'Challan Number' label. *)
Definition frame_without_challan : DataFrame :=
  {| df_columns := [CStr "Employee Name"; CStr "Challan No"];
     df_rows := [[CStr "Alice"; CInt 101]] |}.

Definition paths : Paths :=
  {| cert_dir := "/certs";
     challan_dir := "/challans";
     output_dir := "/out";
     excel_file := "/mapping.xlsx" |}.

Definition text_of (e : Exn) : string :=
  match e with
  | KeyError label => "'" ++ label ++ "'"
  | AttributeError what => what
  | FileNotFoundError path => "No such file or directory: '" ++ path ++ "'"
  | PdfReadError path => "Cannot read " ++ path
  | OSError path => "Cannot open " ++ path
  end.

Definition world : World :=
  {| read_excel := fun _ => inr frame;
     listdir := fun _ => inr ["Alice.pdf"; "Bob.pdf"; "Carol.pdf"; "notes.txt"];
     open_wb := fun _ => None;
     pdf_write := fun _ => None;
     exn_str := text_of;
     series_str := fun _ => "Series" |}.

(** The same surroundings with a mapping that lacks a required label, with
    a certificate directory that cannot be listed, and with two certificates
    whose names differ in the case of the extension. *)
Definition world_without_challan : World :=
  {| read_excel := fun _ => inr frame_without_challan;
     listdir := listdir world;
     open_wb := open_wb world;
     pdf_write := pdf_write world;
     exn_str := text_of;
     series_str := series_str world |}.

Definition world_unlistable : World :=
  {| read_excel := read_excel world;
     listdir := fun d => inl (FileNotFoundError d);
     open_wb := open_wb world;
     pdf_write := pdf_write world;
     exn_str := text_of;
     series_str := series_str world |}.

Definition world_two_cases : World :=
  {| read_excel := read_excel world;
     listdir := fun _ => inr ["Alice.pdf"; "Alice.PDF"];
     open_wb := open_wb world;
     pdf_write := pdf_write world;
     exn_str := text_of;
     series_str := series_str world |}.

Definition store : gmap string File :=
  list_to_map
    [("/certs/Alice.pdf", Pdf ["Alice p1"]);
     ("/certs/Alice.PDF", Pdf ["Alice (scan) p1"]);
     ("/certs/Bob.pdf", Pdf ["Bob p1"; "Bob p2"]);
     ("/certs/Carol.pdf", Pdf ["Carol p1"]);
     ("/challans/101.pdf", Pdf ["challan 101"]);
     ("/challans/201.pdf", Pdf ["challan 201"])].

(** The certificates alone, no challan file at all. *)
Definition store_without_challans : gmap string File :=
  list_to_map
    [("/certs/Alice.pdf", Pdf ["Alice p1"]);
     ("/certs/Bob.pdf", Pdf ["Bob p1"; "Bob p2"]);
     ("/certs/Carol.pdf", Pdf ["Carol p1"])].

(** Challan 101 is there but is not a readable document. *)
Definition store_damaged_challan : gmap string File :=
  <["/challans/101.pdf" := NotPdf]> store.

(** A file named [.pdf] in the challan directory. *)
Definition store_with_dot_pdf : gmap string File :=
  <["/challans/.pdf" := Pdf ["stray page"]]> store.

Definition first_run : list Action * gmap string File * (Exn + unit) :=
  merge_pdfs_logic world paths store.

(** The surroundings as a later run finds them: the same mapping and the
    same certificate directory; the output directory now lists the combined
    documents, and the mapping is the one spreadsheet there is. *)
Definition world_later : World :=
  {| read_excel := fun p => if String.eqb p "/mapping.xlsx" then inr frame
                            else inl (FileNotFoundError p);
     listdir := fun d => if String.eqb d "/out"
                         then inr ["Alice_combined.pdf"; "Bob_combined.pdf"]
                         else listdir world d;
     open_wb := fun _ => None;
     pdf_write := fun _ => None;
     exn_str := text_of;
     series_str := fun _ => "Series" |}.

End Scenario.

(** A batch whose output directory is also its challan directory, and in
    which a challan number of Alice names the combined document of Bob. *)
Module Feedback.

Definition frame : DataFrame :=
  {| df_columns := [CStr "Employee Name"; CStr "Challan Number"];
     df_rows := [[CStr "Alice"; CStr "Bob_combined"]; [CStr "Bob"; CInt 201]] |}.

Definition paths : Paths :=
  {| cert_dir := "/certs";
     challan_dir := "/out";
     output_dir := "/out";
     excel_file := "/mapping.xlsx" |}.

Definition world : World :=
  {| read_excel := fun _ => inr frame;
     listdir := fun _ => inr ["Alice.pdf"; "Bob.pdf"];
     open_wb := fun _ => None;
     pdf_write := fun _ => None;
     exn_str := Scenario.text_of;
     series_str := fun _ => "Series" |}.

Definition store : gmap string File :=
  list_to_map
    [("/certs/Alice.pdf", Pdf ["Alice p1"]);
     ("/certs/Bob.pdf", Pdf ["Bob p1"]);
     ("/out/201.pdf", Pdf ["challan 201"])].

End Feedback.

(** A batch whose output directory is also its certificate directory: after
    a run the directory lists the combined document as well. *)
Module SharedDir.

Definition frame : DataFrame :=
  {| df_columns := [CStr "Employee Name"; CStr "Challan Number"];
     df_rows := [[CStr "Alice"; CInt 101]] |}.

Definition paths : Paths :=
  {| cert_dir := "/work";
     challan_dir := "/challans";
     output_dir := "/work";
     excel_file := "/mapping.xlsx" |}.

Definition world : World :=
  {| read_excel := fun _ => inr frame;
     listdir := fun _ => inr ["Alice.pdf"];
     open_wb := fun _ => None;
     pdf_write := fun _ => None;
     exn_str := Scenario.text_of;
     series_str := fun _ => "Series" |}.

Definition world_later : World :=
  {| read_excel := read_excel world;
     listdir := fun _ => inr ["Alice.pdf"; "Alice_combined.pdf"];
     open_wb := open_wb world;
     pdf_write := pdf_write world;
     exn_str := Scenario.text_of;
     series_str := series_str world |}.

Definition store : gmap string File :=
  list_to_map
    [("/work/Alice.pdf", Pdf ["Alice p1"]);
     ("/challans/101.pdf", Pdf ["challan 101"])].

End SharedDir.

(* ===================================================================== *)
(** ** Further views of the run *)
(* ===================================================================== *)

(** The paths at which a trace stores anything (a truncation counts). *)
Fixpoint stored_paths (t : list Action) : list string :=
  match t with
  | [] => []
  | Store path _ :: t' => path :: stored_paths t'
  | Log _ _ :: t' => stored_paths t'
  end.

(** The message of line 123. *)
Definition could_not_merge_msg (w : World) (paths : Paths) (challan_num : string)
  : string :=
  "  - Could not merge challan file " ++ challan_path paths challan_num
  ++ ". Skipping. Error: "
  ++ exn_str w (PdfReadError (challan_path paths challan_num)).

(** The message of line 121. *)
Definition added_challan_msg (challan_num : string) : string :=
  "  + Added challan: " ++ challan_num ++ ".pdf".

(** The warning, if any, that the challan loop logs for one id. *)
Definition challan_warning (w : World) (paths : Paths) (fs : gmap string File)
    (challan_num : string) : list string :=
  match fs !! challan_path paths challan_num with
  | None => [not_found_msg paths challan_num]
  | Some NotPdf => [could_not_merge_msg w paths challan_num]
  | Some (Pdf _) => []
  end.

(** The exception [merger.append(cert_path)] raises on a store that holds
    no readable document there. *)
Definition cert_error (paths : Paths) (fs : gmap string File)
    (cert_filename : string) : Exn :=
  match fs !! cert_path_of paths cert_filename with
  | Some NotPdf => PdfReadError (cert_path_of paths cert_filename)
  | _ => FileNotFoundError (cert_path_of paths cert_filename)
  end.

(** The exception of line 101 when the label names several columns. *)
Definition no_str_accessor : Exn :=
  AttributeError "'DataFrame' object has no attribute 'str'".

(** Whether a string holds a character other than the dot, and whether it
    holds only whitespace. *)
Fixpoint has_non_dot (s : string) : bool :=
  match s with
  | EmptyString => false
  | String c r => negb (Ascii.eqb c ".") || has_non_dot r
  end.

Fixpoint all_space (s : string) : bool :=
  match s with
  | EmptyString => true
  | String c r => PyStr.isspace c && all_space r
  end.


(** The surroundings answer a second run as they answered the first: the
    same mapping is read, the certificate directory lists the same names,
    and opening, writing, [str(e)] and [str] of a [Series] behave alike. *)
Definition same_surroundings (paths : Paths) (w1 w2 : World) : Prop :=
  read_excel w2 (excel_file paths) = read_excel w1 (excel_file paths)
  /\ listdir w2 (cert_dir paths) = listdir w1 (cert_dir paths)
  /\ (forall p, open_wb w2 p = open_wb w1 p)
  /\ (forall p, pdf_write w2 p = pdf_write w1 p)
  /\ (forall e, exn_str w2 e = exn_str w1 e)
  /\ (forall cs, series_str w2 cs = series_str w1 cs).

(* ===================================================================== *)
(** ** LogRedirector (lines 49-59) *)
(* ===================================================================== *)

Module Redirect.

Record LogRedirector := { level : Level }.

(** Lines 54-56; [logging.log(self.level, ..)] is the [logging] of the run. *)
Definition write (self : LogRedirector) (message : string) : M unit :=
  if negb (String.eqb (PyStr.rstrip message) EmptyString)
  then logging (level self) (PyStr.rstrip message)
  else ret tt.

(** Lines 58-59. *)
Definition flush (self : LogRedirector) : M unit := ret tt.

(** The line feed, and what [print(text, file=self)] does: it writes the
    text, then the line end, in two calls of [write]. *)
Definition newline : string := String (ascii_of_nat 10) EmptyString.

Definition print_to (self : LogRedirector) (text : string) : M unit :=
  bind (write self text) (fun _ => write self newline).

End Redirect.

(* ===================================================================== *)
(** ** setup_logging (lines 23-47) *)
(* ===================================================================== *)

Module LoggingSetup.

Definition log_format : string := "%(asctime)s - %(levelname)s - %(message)s".
Definition log_filename : string := "pdf_merger.log".

(** A handler of the root logger, with the format string of its formatter
    when it has one. *)
Inductive Handler :=
| FileHandler (filename mode : string) (formatter : option string)
| QueueHandler (queue : nat) (formatter : option string)
| OtherHandler (formatter : option string).

Definition formatter_of (h : Handler) : option string :=
  match h with
  | FileHandler _ _ fmt => fmt
  | QueueHandler _ fmt => fmt
  | OtherHandler fmt => fmt
  end.

(** [h.setFormatter(logging.Formatter(fmt))]. *)
Definition setFormatter (h : Handler) (fmt : string) : Handler :=
  match h with
  | FileHandler filename mode _ => FileHandler filename mode (Some fmt)
  | QueueHandler queue _ => QueueHandler queue (Some fmt)
  | OtherHandler _ => OtherHandler (Some fmt)
  end.

(** Where [sys.stdout] and [sys.stderr] point. *)
Inductive Stream :=
| Console
| Redirected (r : Redirect.LogRedirector).

(** The part of the process [setup_logging] acts on: the root logger, the
    two standard streams and the text files by name. *)
Record Process := {
  root_level : Level;
  root_handlers : list Handler;
  sys_stdout : Stream;
  sys_stderr : Stream;
  text_files : gmap string string
}.

(** [logger.hasHandlers()] for the root logger. *)
Definition hasHandlers (p : Process) : bool :=
  match root_handlers p with [] => false | _ => true end.

(** Lines 23-47.  [open_w name] tells whether opening [name] for writing is
    refused; [FileHandler(.., mode='w')] opens, and so empties, the file when
    it is built.  The process is returned as the function leaves it, also
    when it raises. *)
Definition setup_logging (open_w : string -> option Exn) (log_queue : nat)
    (p : Process) : Process * (Exn + unit) :=
  let p1 := {| root_level := INFO;
               root_handlers := root_handlers p;
               sys_stdout := sys_stdout p;
               sys_stderr := sys_stderr p;
               text_files := text_files p |} in
  let p2 := if hasHandlers p1
            then {| root_level := root_level p1;
                    root_handlers := [];
                    sys_stdout := sys_stdout p1;
                    sys_stderr := sys_stderr p1;
                    text_files := text_files p1 |}
            else p1 in
  match open_w log_filename with
  | Some e => (p2, inl e)
  | None =>
      let file_handler := setFormatter (FileHandler log_filename "w" None) log_format in
      let queue_handler := setFormatter (QueueHandler log_queue None) log_format in
      ({| root_level := root_level p2;
          root_handlers := (root_handlers p2 ++ [file_handler]) ++ [queue_handler];
          sys_stdout := Redirected {| Redirect.level := INFO |};
          sys_stderr := Redirected {| Redirect.level := ERROR |};
          text_files := <[log_filename := EmptyString]> (text_files p2) |},
       inr tt)
  end.

End LoggingSetup.

(* ===================================================================== *)
(** ** The application (lines 145-231) *)
(* ===================================================================== *)

Module Gui.
Import LoggingSetup.

Inductive WidgetState := normal | disabled.

(** The log text area: tk ignores an insertion while the widget is
    disabled. *)
Record TextWidget := {
  text_state : WidgetState;
  text_content : string
}.

Definition text_config (wd : TextWidget) (st : WidgetState) : TextWidget :=
  {| text_state := st; text_content := text_content wd |}.

Definition text_insert_end (wd : TextWidget) (s : string) : TextWidget :=
  match text_state wd with
  | normal => {| text_state := normal; text_content := text_content wd ++ s |}
  | disabled => wd
  end.

(** What [process_log_queue] can raise: [handlers[1]] out of range, or a
    handler without a formatter ([None.format]). *)
Inductive DisplayExn :=
| IndexError
| NoFormatter.

Section Display.

Context {LogRecord : Type}.

(** [logging.Formatter(fmt).format(record)]. *)
Variable format : string -> LogRecord -> string.

(** Lines 224-230, the [while] loop: the queue left, the text area, and the
    exception if one is raised. *)
Fixpoint drain_queue (handlers : list Handler) (queue : list LogRecord)
    (wd : TextWidget) : list LogRecord * TextWidget * (DisplayExn + unit) :=
  match queue with
  | [] => (queue, wd, inr tt)
  | record :: queue' =>
      match nth_error handlers 1 with
      | None => (queue', wd, inl IndexError)
      | Some h =>
          match formatter_of h with
          | None => (queue', wd, inl NoFormatter)
          | Some fmt =>
              let msg := format fmt record in
              let wd1 := text_config wd normal in
              let wd2 := text_insert_end wd1 (msg ++ Redirect.newline) in
              let wd3 := text_config wd2 disabled in
              drain_queue handlers queue' wd3
          end
      end
  end.

(** The queue, the text area and the delays of the calls [self.after] has
    pending for [process_log_queue]. *)
Record LogView := {
  log_queue : list LogRecord;
  log_text : TextWidget;
  pending_after : list nat
}.

(** Lines 222-231. *)
Definition process_log_queue (handlers : list Handler) (v : LogView)
  : LogView * (DisplayExn + unit) :=
  match drain_queue handlers (log_queue v) (log_text v) with
  | (queue, wd, inr _) =>
      ({| log_queue := queue; log_text := wd;
          pending_after := (pending_after v ++ [100])%list |}, inr tt)
  | (queue, wd, inl e) =>
      ({| log_queue := queue; log_text := wd;
          pending_after := pending_after v |}, inl e)
  end.

End Display.

(** The four [StringVar]s of [self.paths] and the start button. *)
Record PathVars := {
  var_cert : string;
  var_challan : string;
  var_output : string;
  var_excel : string
}.

Record Button := {
  button_state : WidgetState;
  button_text : string
}.

Record App := {
  app_paths : PathVars;
  start_button : Button
}.

(** What the application logs: the records of the pipeline, and the
    critical record of line 217. *)
Inductive AppAction :=
| Core (a : Action)
| LogCritical (msg : string).

(** [all(var.get() for var in self.paths.values())]. *)
Definition all_selected (v : PathVars) : bool :=
  negb (String.eqb (var_cert v) EmptyString)
  && negb (String.eqb (var_challan v) EmptyString)
  && negb (String.eqb (var_output v) EmptyString)
  && negb (String.eqb (var_excel v) EmptyString).

(** Line 209 with line 64: the tuple handed to the thread, as
    [merge_pdfs_logic] unpacks it. *)
Definition paths_tuple (v : PathVars) : Paths :=
  {| cert_dir := var_cert v;
     challan_dir := var_challan v;
     output_dir := var_output v;
     excel_file := var_excel v |}.

(** Lines 200-211: the records logged, the application afterwards, and the
    argument of the thread started, if one is. *)
Definition start_processing (app : App) : list AppAction * App * option Paths :=
  if negb (all_selected (app_paths app)) then
    ([Core (Log ERROR "All paths must be selected before starting.")], app, None)
  else
    ([],
     {| app_paths := app_paths app;
        start_button := {| button_state := disabled; button_text := "Processing..." |} |},
     Some (paths_tuple (app_paths app))).

Definition unhandled_msg (w : World) (e : Exn) : string :=
  "An unhandled exception occurred in the processing thread: " ++ exn_str w e.

(** Lines 213-220. *)
Definition run_merger_thread (w : World) (paths : Paths) (app : App)
    (fs : gmap string File) : list AppAction * gmap string File * App :=
  let reenabled :=
    {| app_paths := app_paths app;
       start_button := {| button_state := normal; button_text := "Start Merging" |} |} in
  match merge_pdfs_logic w paths fs with
  | (t, fs', inr _) => (map Core t, fs', reenabled)
  | (t, fs', inl e) =>
      ((map Core t ++ [LogCritical (unhandled_msg w e)])%list, fs', reenabled)
  end.

(** Lines 190-198: a dialog that is cancelled returns the empty string. *)
Definition select_path (chosen : string) (var : string) : string :=
  if String.eqb chosen EmptyString then var else chosen.

End Gui.

(** Whether the store holds a readable document at [path]. *)
Definition has_document (fs : gmap string File) (path : string) : bool :=
  match fs !! path with
  | Some (Pdf _) => true
  | _ => false
  end.

(** Further batches: a mapping whose stripped labels name 'Employee Name'
    twice, surroundings that refuse to open or to write the output, a
    certificate directory without documents, and a challan number that is
    an absolute path. *)
Module EdgeCases.

Definition frame_repeated_label : DataFrame :=
  {| df_columns := [CStr "Employee Name"; CStr " Employee Name"; CStr "Challan Number"];
     df_rows := [[CStr "Alice"; CStr "Alice"; CInt 101]] |}.

Definition world_repeated_label : World :=
  {| read_excel := fun _ => inr frame_repeated_label;
     listdir := listdir Scenario.world;
     open_wb := open_wb Scenario.world;
     pdf_write := pdf_write Scenario.world;
     exn_str := Scenario.text_of;
     series_str := series_str Scenario.world |}.

Definition world_refusing_open : World :=
  {| read_excel := read_excel Scenario.world;
     listdir := listdir Scenario.world;
     open_wb := fun p => Some (OSError p);
     pdf_write := pdf_write Scenario.world;
     exn_str := Scenario.text_of;
     series_str := series_str Scenario.world |}.

Definition world_failing_write : World :=
  {| read_excel := read_excel Scenario.world;
     listdir := listdir Scenario.world;
     open_wb := open_wb Scenario.world;
     pdf_write := fun p => Some (OSError p);
     exn_str := Scenario.text_of;
     series_str := series_str Scenario.world |}.

Definition world_no_documents : World :=
  {| read_excel := read_excel Scenario.world;
     listdir := fun _ => inr ["notes.txt"; "pdf"];
     open_wb := open_wb Scenario.world;
     pdf_write := pdf_write Scenario.world;
     exn_str := Scenario.text_of;
     series_str := series_str Scenario.world |}.

(** The store of the scenario with an output of an earlier run. *)
Definition store_with_old_output : gmap string File :=
  <["/out/Alice_combined.pdf" := Pdf ["old page"]]> Scenario.store.

(** The store of the scenario with Alice's certificate damaged. *)
Definition store_damaged_cert : gmap string File :=
  <["/certs/Alice.pdf" := NotPdf]> Scenario.store.

(** A document outside the challan directory. *)
Definition store_with_outside_file : gmap string File :=
  <["/etc/secret.pdf" := Pdf ["secret page"]]> Scenario.store.

End EdgeCases.

(** What the log text area gains from a queue of records: one formatted
    line per record, each followed by a line feed. *)
Fixpoint display_lines {LogRecord : Type} (format : string -> LogRecord -> string)
    (fmt : string) (queue : list LogRecord) : string :=
  match queue with
  | [] => EmptyString
  | record :: queue' =>
      (format fmt record ++ Redirect.newline) ++ display_lines format fmt queue'
  end.

(** A process as Python starts it, an application with its four locations
    chosen, and a log view with two records waiting. *)
Module GuiCases.
Import LoggingSetup Gui.

Definition fresh_process : Process :=
  {| root_level := WARNING;
     root_handlers := [];
     sys_stdout := Console;
     sys_stderr := Console;
     text_files := {["pdf_merger.log" := "log of an earlier session"]} |}.

(** A process in which some other code has installed a handler. *)
Definition configured_process : Process :=
  {| root_level := WARNING;
     root_handlers := [OtherHandler None];
     sys_stdout := Console;
     sys_stderr := Console;
     text_files := ∅ |}.

Definition always_opens (name : string) : option Exn := None.
Definition never_opens (name : string) : option Exn := Some (OSError name).

(** Records are shown as their text after the format string. *)
Definition show (fmt : string) (record : string) : string :=
  fmt ++ " <- " ++ record.

Definition view : LogView :=
  {| log_queue := ["first"; "second"];
     log_text := {| text_state := disabled; text_content := "earlier line" |};
     pending_after := [] |}.

Definition vars : PathVars :=
  {| var_cert := "/certs";
     var_challan := "/challans";
     var_output := "/out";
     var_excel := "/mapping.xlsx" |}.

Definition vars_without_excel : PathVars :=
  {| var_cert := "/certs";
     var_challan := "/challans";
     var_output := "/out";
     var_excel := EmptyString |}.

Definition idle_button : Button :=
  {| button_state := normal; button_text := "Start Merging" |}.

Definition app : App := {| app_paths := vars; start_button := idle_button |}.

Definition app_without_excel : App :=
  {| app_paths := vars_without_excel; start_button := idle_button |}.

End GuiCases.

(* ===================================================================== *)
(** ** The mapping index as the specification words it *)
(* ===================================================================== *)

Module Spec.

(** One row of the spreadsheet per receipt, both fields trimmed. *)
Record MappingRow := {
  person_name : string;
  receipt_id : string
}.

(** The rows of a frame whose 'Employee Name' column is column [i] and whose
    'Challan Number' column is column [j]. *)
Definition mapping_rows (i j : nat) (rows : list (list Cell)) : list MappingRow :=
  map (fun row =>
         {| person_name := PyStr.strip (py_str (cell_at row i));
            receipt_id := PyStr.strip (py_str (cell_at row j)) |})
      rows.

(** The index: a multi-map from trimmed person name to the receipt ids found
    for that name, in insertion order. *)
Definition index_insert (ix : gmap string (list string)) (r : MappingRow)
  : gmap string (list string) :=
  <[person_name r := (default [] (ix !! person_name r) ++ [receipt_id r])%list]> ix.

Definition load (rs : list MappingRow) : gmap string (list string) :=
  fold_left index_insert rs ∅.

(** [receiptsFor(name)]: the empty sequence when the name is absent. *)
Definition receiptsFor (ix : gmap string (list string)) (name : string)
  : list string :=
  default [] (ix !! name).

End Spec.

(* ===================================================================== *)
(** ** Running the monad *)
(* ===================================================================== *)

Section RunLemmas.

Context {A B : Type}.

Lemma bind_inr (m : M A) (k : A -> M B) fs t1 fs1 a :
  m fs = (t1, fs1, inr a) ->
  bind m k fs =
    match k a fs1 with (t2, fs2, r) => ((t1 ++ t2)%list, fs2, r) end.
Proof. intros H. unfold bind. now rewrite H. Qed.

Lemma bind_inl (m : M A) (k : A -> M B) fs t1 fs1 e :
  m fs = (t1, fs1, inl e) -> bind m k fs = (t1, fs1, inl e).
Proof. intros H. unfold bind. now rewrite H. Qed.

Lemma try_except_inr (m : M A) (h : Exn -> M A) fs t1 fs1 a :
  m fs = (t1, fs1, inr a) -> try_except m h fs = (t1, fs1, inr a).
Proof. intros H. unfold try_except. now rewrite H. Qed.

Lemma try_except_inl (m : M A) (h : Exn -> M A) fs t1 fs1 e :
  m fs = (t1, fs1, inl e) ->
  try_except m h fs =
    match h e fs1 with (t2, fs2, r) => ((t1 ++ t2)%list, fs2, r) end.
Proof. intros H. unfold try_except. now rewrite H. Qed.

End RunLemmas.

Lemma written_docs_app t1 t2 :
  written_docs (t1 ++ t2) = (written_docs t1 ++ written_docs t2)%list.
Proof.
  induction t1 as [|a t1 IH]; [reflexivity|].
  destruct a as [l m|p [pages|]]; simpl; now rewrite ?IH.
Qed.

Lemma log_records_app t1 t2 :
  log_records (t1 ++ t2) = (log_records t1 ++ log_records t2)%list.
Proof.
  induction t1 as [|a t1 IH]; [reflexivity|].
  destruct a; simpl; now rewrite ?IH.
Qed.

Lemma messages_at_app lvl t1 t2 :
  messages_at lvl (t1 ++ t2) = (messages_at lvl t1 ++ messages_at lvl t2)%list.
Proof.
  unfold messages_at. now rewrite log_records_app, List.filter_app, List.map_app.
Qed.

Lemma replay_app t1 t2 fs : replay (t1 ++ t2) fs = replay t2 (replay t1 fs).
Proof.
  revert fs. induction t1 as [|a t1 IH]; intros fs; [reflexivity|].
  destruct a; simpl; apply IH.
Qed.

Lemma written_docs_logs t : Forall is_log t -> written_docs t = [].
Proof.
  induction 1 as [|a t Ha _ IH]; [reflexivity|].
  destruct a; simpl in *; [exact IH | contradiction].
Qed.

Lemma replay_logs t fs : Forall is_log t -> replay t fs = fs.
Proof.
  induction 1 as [|a t Ha _ IH]; [reflexivity|].
  destruct a; simpl in *; [exact IH | contradiction].
Qed.

(* ===================================================================== *)
(** ** The challan loop (lines 113-125) *)
(* ===================================================================== *)

Section ChallanLoop.

Variable w : World.
Variable paths : Paths.

Lemma challan_record_is_log fs id : is_log (challan_record w paths fs id).
Proof.
  unfold challan_record. destruct (fs !! _) as [[?|]|]; exact I.
Qed.

(** One turn of the loop reads the store and logs one record. *)
Lemma append_challan_run cols row merger fs s :
  row_item_str w cols row challan_col_name = inr s ->
  append_challan w paths cols row merger fs =
    ([challan_record w paths fs (PyStr.strip s)], fs,
     inr (merger ++ pages_at fs (challan_path paths (PyStr.strip s)))%list).
Proof.
  intros Hs. unfold append_challan, bind, lift. rewrite Hs. simpl.
  unfold path_exists, challan_record, pages_at, challan_path.
  destruct (fs !! OsPath.join (challan_dir paths) (PyStr.strip s ++ ".pdf"))
    as [[pages|]|] eqn:Hfs; simpl.
  - unfold try_except, bind, pdf_append. rewrite Hfs. reflexivity.
  - unfold try_except, bind, pdf_append. rewrite Hfs. simpl.
    now rewrite app_nil_r.
  - now rewrite app_nil_r.
Qed.

Lemma append_challan_raises cols row merger fs e :
  row_item_str w cols row challan_col_name = inl e ->
  append_challan w paths cols row merger fs = ([], fs, inl e).
Proof. intros He. unfold append_challan, bind, lift. now rewrite He. Qed.

(** The whole loop, when every row yields its challan number. *)
Lemma append_challans_run cols rows merger fs ids :
  challan_nums w cols rows = inr ids ->
  append_challans w paths cols rows merger fs =
    (map (challan_record w paths fs) ids, fs,
     inr (merger ++ concat (map (fun id => pages_at fs (challan_path paths id)) ids))%list).
Proof.
  revert merger ids. induction rows as [|row rows IH]; intros merger ids H.
  - injection H as <-. simpl. unfold ret. now rewrite app_nil_r.
  - simpl in H.
    destruct (row_item_str w cols row challan_col_name) as [e|s] eqn:Hs;
      [discriminate|].
    destruct (challan_nums w cols rows) as [e|l] eqn:Hl; [discriminate|].
    injection H as <-. simpl.
    erewrite bind_inr by (apply append_challan_run; eassumption).
    rewrite (IH _ l eq_refl). simpl. now rewrite <- app_assoc.
Qed.

(** In every case the loop leaves the store alone and only logs. *)
Lemma append_challans_reads cols rows merger fs :
  exists t r,
    append_challans w paths cols rows merger fs = (t, fs, r)
    /\ Forall is_log t.
Proof.
  revert merger. induction rows as [|row rows IH]; intros merger.
  - exists [], (inr merger). split; [reflexivity | constructor].
  - simpl.
    destruct (row_item_str w cols row challan_col_name) as [e|s] eqn:Hs.
    + exists [], (inl e). split; [|constructor].
      erewrite bind_inl; [reflexivity|]. now apply append_challan_raises.
    + destruct (IH (merger ++ pages_at fs (challan_path paths (PyStr.strip s)))%list)
        as (t & r & Hrun & Hlog).
      exists (challan_record w paths fs (PyStr.strip s) :: t), r.
      split.
      * erewrite bind_inr by (apply append_challan_run; eassumption).
        now rewrite Hrun.
      * constructor; [apply challan_record_is_log | exact Hlog].
Qed.

(** When a row fails to yield a challan number the loop raises. *)
Lemma append_challans_raises cols rows merger fs e :
  challan_nums w cols rows = inl e ->
  exists t e', append_challans w paths cols rows merger fs = (t, fs, inl e')
               /\ Forall is_log t.
Proof.
  revert merger. induction rows as [|row rows IH]; intros merger H;
    [discriminate|].
  simpl in H. simpl.
  destruct (row_item_str w cols row challan_col_name) as [e1|s] eqn:Hs.
  - exists [], e1. split; [|constructor].
    erewrite bind_inl; [reflexivity|]. now apply append_challan_raises.
  - destruct (challan_nums w cols rows) as [e2|l] eqn:Hl; [|discriminate].
    destruct (IH (merger ++ pages_at fs (challan_path paths (PyStr.strip s)))%list H)
      as (t & e' & Hrun & Hlog).
    exists (challan_record w paths fs (PyStr.strip s) :: t), e'.
    split.
    + erewrite bind_inr by (apply append_challan_run; eassumption).
      now rewrite Hrun.
    + constructor; [apply challan_record_is_log | exact Hlog].
Qed.

End ChallanLoop.

(* ===================================================================== *)
(** ** One certificate (lines 97-138) *)
(* ===================================================================== *)

Lemma merge_one_inv w paths df cert_filename employee_name processed_files fs :
  merge_one_result w paths df cert_filename employee_name processed_files fs
    (merge_one w paths df cert_filename employee_name processed_files fs).
Proof.
  unfold merge_one.
  destruct (select_rows df employee_col_name employee_name) as [e|sel] eqn:Hsel.
  { unfold bind, lift. now apply MO_select_raises. }
  unfold bind at 1. unfold lift at 1.
  destruct (df_empty sel) eqn:Hempty.
  { simpl. unfold bind, logging, ret. simpl. eapply MO_skipped; eassumption. }
  fold (cert_path_of paths cert_filename).
  fold (combined_path paths employee_name).
  destruct (fs !! cert_path_of paths cert_filename) as [[cert|]|] eqn:Hcert.
  2:{ unfold bind at 1, pdf_append. rewrite Hcert. simpl.
      eapply MO_cert_unreadable; eassumption. }
  2:{ unfold bind at 1, pdf_append. rewrite Hcert. simpl.
      eapply MO_cert_missing; eassumption. }
  unfold bind at 1. unfold pdf_append at 1. rewrite Hcert. simpl.
  unfold bind at 1. unfold logging at 1. simpl.
  destruct (challan_nums w (df_columns sel) (df_rows sel)) as [e0|ids] eqn:Hids.
  { destruct (append_challans_raises w paths _ _ cert fs e0 Hids)
      as (t & e & Hrun & Hlog).
    erewrite bind_inl by exact Hrun. simpl.
    eapply MO_challan_raises; eassumption. }
  erewrite bind_inr by (apply append_challans_run; exact Hids).
  unfold open_truncate, merger_write, bind, logging, ret.
  destruct (open_wb w (combined_path paths employee_name)) as [e|] eqn:Hopen.
  { simpl. rewrite app_nil_r. eapply MO_open_refused; eassumption. }
  destruct (pdf_write w (combined_path paths employee_name)) as [e|] eqn:Hwrite.
  { simpl. eapply MO_write_fails; eassumption. }
  simpl. rewrite insert_insert_eq.
  eapply MO_merged; eassumption.
Qed.

Section Turn.

Variable w : World.
Variable paths : Paths.
Variable df : DataFrame.

(** The [try] body returned: the turn is its trace after the opening record. *)
Lemma process_certificate_returns f n fs t fs1 n' :
  merge_one w paths df f (employee_of f) n fs = (t, fs1, inr n') ->
  process_certificate w paths df f n fs =
    (Log INFO (processing_msg (employee_of f)) :: t, fs1, inr n').
Proof.
  intros H. unfold process_certificate. fold (employee_of f).
  unfold bind at 1. unfold logging at 1.
  erewrite try_except_inr by exact H. reflexivity.
Qed.

(** The [try] body raised: line 137 logs the error and the count stays. *)
Lemma process_certificate_catches f n fs t fs1 e :
  merge_one w paths df f (employee_of f) n fs = (t, fs1, inl e) ->
  process_certificate w paths df f n fs =
    (Log INFO (processing_msg (employee_of f))
       :: t ++ [Log ERROR (critical_msg w (employee_of f) e)],
     fs1, inr n).
Proof.
  intros H. unfold process_certificate. fold (employee_of f).
  unfold bind at 1. unfold logging at 1.
  erewrite try_except_inl by exact H. reflexivity.
Qed.

Lemma challan_records_log fs ids :
  Forall is_log (map (challan_record w paths fs) ids).
Proof.
  induction ids; constructor; [apply challan_record_is_log | assumption].
Qed.

(** A turn never raises.  Either it writes no document and the count
    stays, or it is a merge: the count grows by one and the trace, the
    document and the store are those of [merged_trace]. *)
Lemma process_certificate_outcome f n fs :
  exists t fs' n',
    process_certificate w paths df f n fs = (t, fs', inr n')
    /\ fs' = replay t fs
    /\ ((n' = n /\ written_docs t = [])
        \/ (exists cert ids,
              turn_merges w paths df f fs cert ids
              /\ n' = n + 1
              /\ t = merged_trace w paths f fs cert ids
              /\ fs' = <[output_path_of paths f :=
                           Pdf (combined_doc paths fs cert ids)]> fs)).
Proof.
  pose proof (merge_one_inv w paths df f (employee_of f) n fs) as Hinv.
  destruct (merge_one w paths df f (employee_of f) n fs) as [[t fs1] r] eqn:Hrun.
  inversion Hinv; subst.
  - eexists _, _, _. split; [eapply process_certificate_catches; eassumption|].
    split; [reflexivity | left; split; reflexivity].
  - eexists _, _, _. split; [eapply process_certificate_returns; eassumption|].
    split; [reflexivity | left; split; reflexivity].
  - eexists _, _, _. split; [eapply process_certificate_catches; eassumption|].
    split; [reflexivity | left; split; reflexivity].
  - eexists _, _, _. split; [eapply process_certificate_catches; eassumption|].
    split; [reflexivity | left; split; reflexivity].
  - eexists _, _, _. split; [eapply process_certificate_catches; eassumption|].
    assert (Hl : Forall is_log
              (Log INFO (processing_msg (employee_of f))
                 :: (Log INFO (added_cert_msg f) :: t0)
                 ++ [Log ERROR (critical_msg w (employee_of f) e)])).
    { constructor; [exact I|]. simpl. constructor; [exact I|].
      apply Forall_app. split; [assumption|]. constructor; [exact I|constructor]. }
    split; [now rewrite replay_logs | left; split; [reflexivity|]].
    now apply written_docs_logs.
  - eexists _, _, _. split; [eapply process_certificate_catches; eassumption|].
    assert (Hl : Forall is_log
              (Log INFO (processing_msg (employee_of f))
                 :: (Log INFO (added_cert_msg f)
                       :: map (challan_record w paths fs1) ids)
                 ++ [Log ERROR (critical_msg w (employee_of f) e)])).
    { constructor; [exact I|]. simpl. constructor; [exact I|].
      apply Forall_app. split; [apply challan_records_log|].
      constructor; [exact I|constructor]. }
    split; [now rewrite replay_logs | left; split; [reflexivity|]].
    now apply written_docs_logs.
  - eexists _, _, _. split; [eapply process_certificate_catches; eassumption|].
    split.
    + simpl. rewrite <- app_assoc, replay_app.
      rewrite (replay_logs _ _ (challan_records_log fs ids)). reflexivity.
    + left. split; [reflexivity|]. simpl.
      rewrite <- app_assoc, written_docs_app.
      now rewrite (written_docs_logs _ (challan_records_log fs ids)).
  - eexists _, _, _. split; [eapply process_certificate_returns; eassumption|].
    split.
    + simpl. rewrite replay_app.
      rewrite (replay_logs _ _ (challan_records_log fs ids)). simpl.
      now rewrite insert_insert_eq.
    + right. exists cert, ids.
      split; [exists sel; repeat split; assumption|].
      repeat split; reflexivity.
Qed.

Lemma written_docs_merged_trace f fs cert ids :
  written_docs (merged_trace w paths f fs cert ids) =
    [(output_path_of paths f, combined_doc paths fs cert ids)].
Proof.
  unfold merged_trace. simpl. rewrite written_docs_app.
  now rewrite (written_docs_logs _ (challan_records_log fs ids)).
Qed.

(** A turn writes at most one document, at the output path of its
    certificate, and counts exactly the documents it writes. *)
Lemma process_certificate_count f n fs :
  exists t fs' n',
    process_certificate w paths df f n fs = (t, fs', inr n')
    /\ fs' = replay t fs
    /\ ((n' = n /\ written_docs t = [])
        \/ (n' = n + 1
            /\ exists doc, written_docs t = [(output_path_of paths f, doc)])).
Proof.
  destruct (process_certificate_outcome f n fs)
    as (t & fs' & n' & Hrun & Hfs & [Hskip|(cert & ids & _ & Hn & Ht & _)]).
  - exists t, fs', n'. auto.
  - exists t, fs', n'. split; [exact Hrun|]. split; [exact Hfs|]. right.
    split; [exact Hn|]. eexists. rewrite Ht. apply written_docs_merged_trace.
Qed.

(** The loop over the work list never raises, counts the documents it
    writes, and writes them at output paths of certificates of the list. *)
Lemma process_all_count certs : forall n fs,
  exists t fs' n',
    process_all w paths df certs n fs = (t, fs', inr n')
    /\ fs' = replay t fs
    /\ n' = n + length (written_docs t)
    /\ length (written_docs t) <= length certs
    /\ Forall (fun pd => exists f, f ∈ certs /\ fst pd = output_path_of paths f)
              (written_docs t).
Proof.
  induction certs as [|f certs IH]; intros n fs.
  - exists [], fs, n. simpl. repeat split; auto; lia.
  - destruct (process_certificate_count f n fs) as (t1 & fs1 & n1 & H1 & Hfs1 & Hc).
    destruct (IH n1 fs1) as (t2 & fs2 & n2 & H2 & Hfs2 & Hn2 & Hlen & Hall).
    exists (t1 ++ t2)%list, fs2, n2. simpl.
    split; [erewrite bind_inr by exact H1; now rewrite H2|].
    split; [rewrite replay_app; congruence|].
    rewrite written_docs_app, length_app.
    assert (Hall' : Forall (fun pd => exists f0, f0 ∈ f :: certs
                                      /\ fst pd = output_path_of paths f0)
                           (written_docs t2)).
    { eapply Forall_impl; [exact Hall|].
      intros pd (f0 & Hin & Hp). exists f0.
      split; [apply elem_of_cons; now right | exact Hp]. }
    destruct Hc as [[-> Hw]|[-> [doc Hw]]]; rewrite Hw; simpl.
    + repeat split; [lia | lia | exact Hall'].
    + repeat split; [lia | lia |].
      constructor; [|exact Hall']. exists f.
      split; [apply elem_of_cons; now left | reflexivity].
Qed.

End Turn.

(* ===================================================================== *)
(** ** The whole run (lines 62-141) *)
(* ===================================================================== *)

Section WholeRun.

Variable w : World.
Variable paths : Paths.

Lemma load_mapping_ok df0 fs :
  read_excel w (excel_file paths) = inr df0 ->
  validated df0 = true ->
  load_mapping w paths fs = ([Log INFO loaded_msg], fs, inr (Some (strip_columns df0))).
Proof.
  intros Hread Hval. unfold load_mapping. rewrite Hread.
  unfold validated in Hval. apply andb_true_iff in Hval as [-> ->]. reflexivity.
Qed.

(** A run whose mapping loads and whose certificate directory lists. *)
Lemma merge_pdfs_logic_completed df0 names fs t fs' n :
  read_excel w (excel_file paths) = inr df0 ->
  validated df0 = true ->
  listdir w (cert_dir paths) = inr names ->
  process_all w paths (strip_columns df0) (pdf_names names) 0 fs = (t, fs', inr n) ->
  merge_pdfs_logic w paths fs =
    (prelude paths
       ++ [Log INFO loaded_msg; Log INFO (found_msg (length (pdf_names names)))]
       ++ t
       ++ [Log INFO "--- Process Complete ---";
           Log INFO (summary n (length (pdf_names names)))],
     fs', inr tt)%list.
Proof.
  intros Hread Hval Hlist Hall. unfold merge_pdfs_logic.
  do 5 (erewrite bind_inr by reflexivity; cbv beta).
  erewrite bind_inr by (eapply load_mapping_ok; eassumption). cbv beta iota.
  erewrite bind_inr by (unfold lift; rewrite Hlist; reflexivity). cbv beta zeta.
  erewrite bind_inr by reflexivity. cbv beta.
  erewrite bind_inr by exact Hall. cbv beta.
  reflexivity.
Qed.

End WholeRun.

(* ===================================================================== *)
(** ** The lookup of receipt ids (lines 101, 113-114) *)
(* ===================================================================== *)

Section Lookup.

Variable w : World.

Lemma challan_nums_unique cols rows j :
  label_positions cols challan_col_name = [j] ->
  challan_nums w cols rows =
    inr (map (fun row => PyStr.strip (py_str (cell_at row j))) rows).
Proof.
  intros Hj. induction rows as [|row rows IH]; [reflexivity|].
  simpl. unfold row_item_str. rewrite Hj, IH. reflexivity.
Qed.

Lemma lookup_challans_unique df name i j :
  label_positions (df_columns df) employee_col_name = [i] ->
  label_positions (df_columns df) challan_col_name = [j] ->
  lookup_challans w df name =
    inr (map (fun row => PyStr.strip (py_str (cell_at row j)))
             (List.filter
                (fun row => String.eqb (PyStr.strip (py_str (cell_at row i)))
                                       (PyStr.strip name))
                (df_rows df))).
Proof.
  intros Hi Hj. unfold lookup_challans, select_rows. rewrite Hi. simpl.
  now apply challan_nums_unique.
Qed.

End Lookup.

Lemma filter_mapping_rows i j nm rows :
  map Spec.receipt_id
      (List.filter (fun r => String.eqb (Spec.person_name r) nm)
                   (Spec.mapping_rows i j rows))
  = map (fun row => PyStr.strip (py_str (cell_at row j)))
        (List.filter
           (fun row => String.eqb (PyStr.strip (py_str (cell_at row i))) nm)
           rows).
Proof.
  induction rows as [|row rows IH]; [reflexivity|].
  simpl. destruct (String.eqb _ nm); simpl; now rewrite IH.
Qed.

(** Looking a name up after one more insertion. *)
Lemma receiptsFor_insert ix r nm :
  Spec.receiptsFor (Spec.index_insert ix r) nm =
    if String.eqb (Spec.person_name r) nm
    then (Spec.receiptsFor ix nm ++ [Spec.receipt_id r])%list
    else Spec.receiptsFor ix nm.
Proof.
  unfold Spec.receiptsFor, Spec.index_insert.
  destruct (String.eqb_spec (Spec.person_name r) nm) as [->|Hne].
  - now rewrite lookup_insert_eq.
  - now rewrite lookup_insert_ne.
Qed.

Lemma receiptsFor_fold rs : forall ix nm,
  Spec.receiptsFor (fold_left Spec.index_insert rs ix) nm =
    (Spec.receiptsFor ix nm
     ++ map Spec.receipt_id
            (List.filter (fun r => String.eqb (Spec.person_name r) nm) rs))%list.
Proof.
  induction rs as [|r rs IH]; intros ix nm; simpl.
  - now rewrite app_nil_r.
  - rewrite IH, receiptsFor_insert.
    destruct (String.eqb (Spec.person_name r) nm); simpl;
      [now rewrite <- app_assoc | reflexivity].
Qed.

Lemma receiptsFor_load rs nm :
  Spec.receiptsFor (Spec.load rs) nm =
    map Spec.receipt_id
        (List.filter (fun r => String.eqb (Spec.person_name r) nm) rs).
Proof.
  unfold Spec.load. rewrite receiptsFor_fold.
  unfold Spec.receiptsFor at 1. now rewrite lookup_empty.
Qed.

(** C1.  In a frame whose stripped labels name the 'Employee Name' column
    once (column [i]) and the 'Challan Number' column once (column [j]), and
    which holds [N] rows whose trimmed name equals the trimmed [name], the
    lookup does not raise and returns exactly the trimmed challan numbers of
    those [N] rows, in row order: it is [receiptsFor] of the index built from
    the rows, the comparison being equality of the trimmed strings; with no
    such row it returns the empty sequence. *)
Theorem C1_lookup_returns_matching_ids_in_row_order
    (w : World) (df : DataFrame) (name : string) (i j N : nat) :
  label_positions (df_columns df) employee_col_name = [i] ->
  label_positions (df_columns df) challan_col_name = [j] ->
  length (List.filter
            (fun r => String.eqb (Spec.person_name r) (PyStr.strip name))
            (Spec.mapping_rows i j (df_rows df))) = N ->
  exists ids,
    lookup_challans w df name = inr ids
    /\ ids = Spec.receiptsFor (Spec.load (Spec.mapping_rows i j (df_rows df)))
                              (PyStr.strip name)
    /\ ids = map Spec.receipt_id
                 (List.filter
                    (fun r => String.eqb (Spec.person_name r) (PyStr.strip name))
                    (Spec.mapping_rows i j (df_rows df)))
    /\ length ids = N
    /\ (N = 0 -> ids = []).
Proof.
  intros Hi Hj HN.
  eexists. split; [now apply lookup_challans_unique with (i := i) (j := j)|].
  rewrite receiptsFor_load, filter_mapping_rows.
  split; [reflexivity|]. split; [reflexivity|].
  assert (Hlen : length
            (map (fun row => PyStr.strip (py_str (cell_at row j)))
                 (List.filter
                    (fun row => String.eqb (PyStr.strip (py_str (cell_at row i)))
                                           (PyStr.strip name))
                    (df_rows df))) = N).
  { rewrite <- filter_mapping_rows, length_map. exact HN. }
  split; [exact Hlen|].
  intros ->. now apply length_zero_iff_nil.
Qed.

(* ===================================================================== *)
(** ** The combined document (lines 107-134) *)
(* ===================================================================== *)

Lemma elem_of_written_docs t p doc :
  Store p (Pdf doc) ∈ t <-> (p, doc) ∈ written_docs t.
Proof.
  induction t as [|a t IH].
  - split; intros H; inversion H.
  - destruct a as [l m|q [pages|]]; simpl.
    + rewrite elem_of_cons, IH. split; [intros [H|H]; [discriminate|exact H] | auto].
    + rewrite !elem_of_cons, IH.
      split; (intros [H|H]; [left; congruence | right; exact H]).
    + rewrite elem_of_cons, IH. split; [intros [H|H]; [discriminate|exact H] | auto].
Qed.

(** A person with at least one id has rows, and every row yields its id. *)
Lemma lookup_challans_rows w df name ids :
  lookup_challans w df name = inr ids ->
  ids <> [] ->
  exists sel,
    select_rows df employee_col_name name = inr sel
    /\ df_empty sel = false
    /\ challan_nums w (df_columns sel) (df_rows sel) = inr ids.
Proof.
  unfold lookup_challans. intros H Hne.
  destruct (select_rows df employee_col_name name) as [e|sel] eqn:Hsel;
    [discriminate|].
  exists sel. split; [reflexivity|]. split; [|exact H].
  unfold df_empty.
  destruct (df_rows sel) as [|row rows] eqn:Hrows.
  { simpl in H. congruence. }
  destruct (df_columns sel) as [|c cols] eqn:Hcols; [|reflexivity].
  simpl in H. discriminate.
Qed.

(** A challan that is not there brings no page. *)
Lemma combined_doc_found paths fs cert ids :
  combined_doc paths fs cert ids =
    (cert ++ concat (map (fun id => pages_at fs (challan_path paths id))
                         (found_ids paths fs ids)))%list.
Proof.
  unfold combined_doc. f_equal.
  induction ids as [|id ids IH]; [reflexivity|].
  simpl. unfold file_exists at 1.
  destruct (fs !! challan_path paths id) as [file|] eqn:Hid.
  - rewrite bool_decide_eq_true_2 by eauto. simpl. now rewrite IH.
  - rewrite bool_decide_eq_false_2 by (intros [? ?]; discriminate).
    unfold pages_at at 1. rewrite Hid. simpl. exact IH.
Qed.

(** The conditions of a merge do lead to the merge. *)
Lemma process_certificate_merged w paths df f n fs cert ids :
  turn_merges w paths df f fs cert ids ->
  process_certificate w paths df f n fs =
    (merged_trace w paths f fs cert ids,
     <[output_path_of paths f := Pdf (combined_doc paths fs cert ids)]> fs,
     inr (n + 1)).
Proof.
  intros (sel & Hsel & Hempty & Hcert & Hids & Hopen & Hwrite).
  pose proof (merge_one_inv w paths df f (employee_of f) n fs) as Hinv.
  unfold output_path_of in Hopen, Hwrite.
  fold (combined_path paths (employee_of f)) in Hopen, Hwrite.
  destruct (merge_one w paths df f (employee_of f) n fs) as [[t1 fs1] r] eqn:Hm.
  inversion Hinv; subst; try congruence.
  assert (sel0 = sel) by congruence. subst.
  assert (cert0 = cert) by congruence. assert (ids0 = ids) by congruence.
  subst. erewrite process_certificate_returns by exact Hm. reflexivity.
Qed.

(** C2.  For a certificate whose person has at least one mapping row
    ([ids] is what the lookup returns, and is not empty), a document the
    turn writes is written at [output_dir/"{employee_name}_combined.pdf"];
    it is the certificate document followed by the documents of the challans
    that are there, in the order of [ids], the missing ones left out; after
    the turn that path holds this document, whatever it held before.  And
    the turn does write it when the certificate is a readable document and
    the output file can be opened and written. *)
Theorem C2_combined_document_is_certificate_then_found_receipts
    (w : World) (paths : Paths) (df : DataFrame) (f : string) (n : nat)
    (fs : gmap string File) (ids : list string) :
  lookup_challans w df (employee_of f) = inr ids ->
  ids <> [] ->
  exists t fs' n',
    process_certificate w paths df f n fs = (t, fs', inr n')
    /\ (forall p doc,
          Store p (Pdf doc) ∈ t ->
          p = OsPath.join (output_dir paths) (employee_of f ++ "_combined.pdf")
          /\ (exists cert,
                fs !! OsPath.join (cert_dir paths) f = Some (Pdf cert)
                /\ doc = (cert ++ concat (map (fun id => pages_at fs (challan_path paths id))
                                              (found_ids paths fs ids)))%list)
          /\ fs' !! p = Some (Pdf doc))
    /\ (forall cert,
          fs !! OsPath.join (cert_dir paths) f = Some (Pdf cert) ->
          open_wb w (OsPath.join (output_dir paths)
                                 (employee_of f ++ "_combined.pdf")) = None ->
          pdf_write w (OsPath.join (output_dir paths)
                                   (employee_of f ++ "_combined.pdf")) = None ->
          Store (OsPath.join (output_dir paths) (employee_of f ++ "_combined.pdf"))
                (Pdf (cert ++ concat (map (fun id => pages_at fs (challan_path paths id))
                                          (found_ids paths fs ids)))%list) ∈ t
          /\ n' = n + 1).
Proof.
  intros Hlook Hne.
  destruct (lookup_challans_rows w df _ ids Hlook Hne)
    as (sel & Hsel & Hempty & Hids).
  destruct (process_certificate_outcome w paths df f n fs)
    as (t & fs' & n' & Hrun & Hfs & Hcase).
  exists t, fs', n'. split; [exact Hrun|]. split.
  - intros p doc Hin. apply elem_of_written_docs in Hin.
    destruct Hcase as [[_ Hnone]|(cert & ids' & Hm & Hn & Ht & Hfs')].
    { rewrite Hnone in Hin. inversion Hin. }
    rewrite Ht, written_docs_merged_trace in Hin.
    apply list_elem_of_singleton in Hin. injection Hin as -> ->.
    destruct Hm as (sel' & Hsel' & _ & Hcert & Hids' & _).
    assert (sel' = sel) by congruence. subst sel'.
    assert (ids' = ids) by congruence. subst ids'.
    split; [reflexivity|]. split.
    + exists cert. split; [exact Hcert | apply combined_doc_found].
    + rewrite Hfs'. apply lookup_insert_eq.
  - intros cert Hcert Hopen Hwrite.
    assert (Hm : turn_merges w paths df f fs cert ids).
    { exists sel. repeat split; assumption. }
    rewrite (process_certificate_merged w paths df f n fs cert ids Hm) in Hrun.
    injection Hrun as <- <- <-. split; [|reflexivity].
    rewrite <- combined_doc_found.
    apply elem_of_written_docs. rewrite written_docs_merged_trace.
    apply list_elem_of_singleton. reflexivity.
Qed.

(* ===================================================================== *)
(** ** Missing challans (lines 118-125) *)
(* ===================================================================== *)

Lemma append_cons x (a b : string) : String x a ++ b = String x (a ++ b).
Proof. reflexivity. Qed.

Lemma append_assoc (a b c : string) : (a ++ b) ++ c = a ++ (b ++ c).
Proof.
  induction a as [|x a IH]; [reflexivity|].
  rewrite !append_cons. now rewrite IH.
Qed.

(** [os.path.join(a, b)] ends with [b]. *)
Lemma join_suffix a b : exists pre, OsPath.join a b = pre ++ b.
Proof.
  unfold OsPath.join.
  destruct (PyStr.startswith b "/"); [exists EmptyString; reflexivity|].
  destruct (String.eqb a EmptyString || PyStr.endswith a "/").
  - exists a. reflexivity.
  - exists (a ++ "/"). now rewrite append_assoc.
Qed.

(** The warning of line 125 names the file it looked for. *)
Lemma not_found_msg_mentions paths id :
  mentions (not_found_msg paths id) (id ++ ".pdf").
Proof.
  unfold mentions, not_found_msg, challan_path.
  destruct (join_suffix (challan_dir paths) (id ++ ".pdf")) as [pre ->].
  exists ("  - Challan file not found: " ++ pre), ". Skipping.".
  now rewrite !append_assoc.
Qed.

Section AllMissing.

Variable w : World.
Variable paths : Paths.
Variable fs : gmap string File.
Variable ids : list string.
Hypothesis Hmissing : forall id, id ∈ ids -> fs !! challan_path paths id = None.

Lemma challan_records_missing :
  map (challan_record w paths fs) ids
  = map (fun id => Log WARNING (not_found_msg paths id)) ids.
Proof.
  apply map_ext_in. intros id Hin. unfold challan_record.
  rewrite Hmissing by (now apply list_elem_of_In). reflexivity.
Qed.

Lemma combined_doc_missing cert : combined_doc paths fs cert ids = cert.
Proof.
  unfold combined_doc.
  assert (H : concat (map (fun id => pages_at fs (challan_path paths id)) ids) = []).
  { clear w. induction ids as [|id l IH]; [reflexivity|].
    simpl. unfold pages_at at 1.
    rewrite Hmissing by (apply elem_of_cons; now left). simpl.
    apply IH. intros id' Hin. apply Hmissing. apply elem_of_cons. now right. }
  rewrite H. apply app_nil_r.
Qed.

Lemma messages_at_warnings_only l :
  messages_at WARNING (map (fun id => Log WARNING (not_found_msg paths id)) l)
  = map (not_found_msg paths) l.
Proof.
  unfold messages_at. induction l as [|id l IH]; [reflexivity|].
  simpl. now rewrite IH.
Qed.

End AllMissing.

Lemma messages_at_log_other lvl l m t :
  l <> lvl -> messages_at lvl (Log l m :: t) = messages_at lvl t.
Proof.
  intros Hne. unfold messages_at. simpl.
  now rewrite bool_decide_eq_false_2.
Qed.

(** C3.  For a certificate whose person has mapping rows ([ids], not empty)
    and none of whose challan files is there, the certificate being a
    readable document and the output file opening and writing: the turn
    writes one document, at the output path, holding the certificate's pages
    only; its warnings are exactly one 'Challan file not found' record per
    id, in order, each naming the file [id.pdf] it looked for; and the count
    of processed files grows by one. *)
Theorem C3_all_receipts_missing_still_merges_certificate
    (w : World) (paths : Paths) (df : DataFrame) (f : string) (n : nat)
    (fs : gmap string File) (ids : list string) (cert : list Page) :
  lookup_challans w df (employee_of f) = inr ids ->
  ids <> [] ->
  (forall id, id ∈ ids -> fs !! challan_path paths id = None) ->
  fs !! OsPath.join (cert_dir paths) f = Some (Pdf cert) ->
  open_wb w (output_path_of paths f) = None ->
  pdf_write w (output_path_of paths f) = None ->
  exists t fs',
    process_certificate w paths df f n fs = (t, fs', inr (n + 1))
    /\ written_docs t = [(output_path_of paths f, cert)]
    /\ fs' !! output_path_of paths f = Some (Pdf cert)
    /\ messages_at WARNING t = map (not_found_msg paths) ids
    /\ (forall id, id ∈ ids -> mentions (not_found_msg paths id) (id ++ ".pdf"))
    /\ messages_at ERROR t = [].
Proof.
  intros Hlook Hne Hmissing Hcert Hopen Hwrite.
  destruct (lookup_challans_rows w df _ ids Hlook Hne)
    as (sel & Hsel & Hempty & Hids).
  assert (Hm : turn_merges w paths df f fs cert ids).
  { exists sel. repeat split; assumption. }
  eexists _, _. split; [apply process_certificate_merged; exact Hm|].
  rewrite written_docs_merged_trace, (combined_doc_missing paths fs ids Hmissing).
  split; [reflexivity|]. split; [apply lookup_insert_eq|].
  unfold merged_trace.
  rewrite (challan_records_missing w paths fs ids Hmissing).
  rewrite !messages_at_log_other by discriminate.
  rewrite !messages_at_app, messages_at_warnings_only.
  split; [|split].
  - unfold messages_at. simpl. apply app_nil_r.
  - intros id _. apply not_found_msg_mentions.
  - unfold messages_at at 2. simpl. rewrite app_nil_r.
    clear. induction ids as [|id l IH]; [reflexivity | exact IH].
Qed.

(* ===================================================================== *)
(** ** The final summary (lines 92, 134, 140-141) *)
(* ===================================================================== *)




(* ===================================================================== *)
(** ** A person without mapping rows (lines 101-105) *)
(* ===================================================================== *)

Lemma filter_none {A} (p : A -> bool) (l : list A) :
  (forall x, x ∈ l -> p x = false) -> List.filter p l = [].
Proof.
  induction l as [|x l IH]; intros H; [reflexivity|].
  simpl. rewrite (H x) by (apply elem_of_cons; now left).
  apply IH. intros y Hy. apply H. apply elem_of_cons. now right.
Qed.

Section Skip.

Variable w : World.
Variable paths : Paths.
Variable df : DataFrame.
Variable f : string.
Variable i : nat.
Hypothesis Hlabel : label_positions (df_columns df) employee_col_name = [i].
Hypothesis Hnone :
  forall row, row ∈ df_rows df ->
    PyStr.strip (py_str (cell_at row i)) <> PyStr.strip (employee_of f).

Lemma select_rows_none :
  exists sel, select_rows df employee_col_name (employee_of f) = inr sel
              /\ df_empty sel = true.
Proof.
  unfold select_rows. rewrite Hlabel. eexists. split; [reflexivity|].
  unfold df_empty. simpl. rewrite filter_none.
  - now destruct (df_columns df).
  - intros row Hrow. apply String.eqb_neq. now apply Hnone.
Qed.

(** The turn of a person without rows: two records, nothing else. *)
Lemma process_certificate_skips n fs :
  process_certificate w paths df f n fs =
    ([Log INFO (processing_msg (employee_of f));
      Log WARNING (no_entries_msg (employee_of f))], fs, inr n).
Proof.
  destruct select_rows_none as (sel & Hsel & Hempty).
  apply process_certificate_returns.
  unfold merge_one. unfold bind at 1. unfold lift. rewrite Hsel, Hempty.
  reflexivity.
Qed.

(** With such a person in the work list, the count stays below the number
    of certificates. *)
Lemma process_all_skips certs : forall n fs,
  f ∈ certs ->
  exists t fs' n',
    process_all w paths df certs n fs = (t, fs', inr n')
    /\ n' < n + length certs
    /\ Log WARNING (no_entries_msg (employee_of f)) ∈ t.
Proof.
  induction certs as [|c certs IH]; intros n fs Hin; [inversion Hin|].
  apply elem_of_cons in Hin.
  destruct (decide (f = c)) as [<-|Hne].
  - destruct (process_all_count w paths df certs n fs)
      as (t & fs' & n' & Hrun & _ & Hn & Hlen & _).
    eexists _, fs', n'. split; [|split].
    + simpl. erewrite bind_inr by apply process_certificate_skips.
      rewrite Hrun. reflexivity.
    + simpl. lia.
    + simpl. apply elem_of_cons. right. apply elem_of_cons. now left.
  - destruct Hin as [Heq|Hin]; [contradiction|].
    destruct (process_certificate_count w paths df c n fs)
      as (t1 & fs1 & n1 & H1 & _ & Hc).
    destruct (IH n1 fs1 Hin) as (t2 & fs2 & n2 & H2 & Hn2 & Hw).
    exists (t1 ++ t2)%list, fs2, n2. split; [|split].
    + simpl. erewrite bind_inr by exact H1. now rewrite H2.
    + simpl. destruct Hc as [[-> _]|[-> _]]; lia.
    + apply elem_of_app. now right.
Qed.

End Skip.

(** C5.  In a run whose mapping loads with the 'Employee Name' label naming
    one column, for a certificate [f] of the work list no row of which
    carries its trimmed name: the turn of [f] logs the 'No challan entries'
    warning and nothing else after its opening record, leaves the file store
    as it was and the count as it was; and the run completes with a summary
    [n out of total] in which [total] counts [f] and [n] stays below
    [total]. *)
Theorem C5_person_without_rows_is_skipped_and_counted_in_total
    (w : World) (paths : Paths) (df0 : DataFrame) (names : list string)
    (f : string) (i : nat) :
  read_excel w (excel_file paths) = inr df0 ->
  validated df0 = true ->
  listdir w (cert_dir paths) = inr names ->
  f ∈ pdf_names names ->
  label_positions (df_columns (strip_columns df0)) employee_col_name = [i] ->
  (forall row, row ∈ df_rows df0 ->
     PyStr.strip (py_str (cell_at row i)) <> PyStr.strip (employee_of f)) ->
  (forall n fs,
     process_certificate w paths (strip_columns df0) f n fs =
       ([Log INFO (processing_msg (employee_of f));
         Log WARNING (no_entries_msg (employee_of f))], fs, inr n))
  /\ (forall fs,
        exists t fs' n,
          merge_pdfs_logic w paths fs = (t, fs', inr tt)
          /\ last t = Some (Log INFO (summary n (length (pdf_names names))))
          /\ n < length (pdf_names names)
          /\ Log WARNING (no_entries_msg (employee_of f)) ∈ t).
Proof.
  intros Hread Hval Hlist Hin Hlabel Hnone. split.
  - intros n fs. now apply process_certificate_skips with (i := i).
  - intros fs.
    destruct (process_all_skips w paths (strip_columns df0) f i Hlabel Hnone
                (pdf_names names) 0 fs Hin)
      as (t & fs' & n & Hall & Hn & Hw).
    eexists _, fs', n.
    split; [eapply merge_pdfs_logic_completed; eassumption|].
    split; [|split; [lia|]].
    + change [Log INFO "--- Process Complete ---";
              Log INFO (summary n (length (pdf_names names)))]
        with ([Log INFO "--- Process Complete ---"]
              ++ [Log INFO (summary n (length (pdf_names names)))])%list.
      rewrite !app_assoc. apply last_snoc.
    + apply elem_of_app. right. apply elem_of_app. right.
      apply elem_of_app. now left.
Qed.

(* ===================================================================== *)
(** ** Loading the mapping (lines 72-90) *)
(* ===================================================================== *)

(** The labels after line 74. *)
Lemma columns_tolist_strip df0 :
  columns_tolist (strip_columns df0)
  = map (fun col => PyStr.strip (py_str col)) (df_columns df0).
Proof.
  unfold columns_tolist, strip_columns. simpl.
  rewrite List.map_map. reflexivity.
Qed.

Lemma has_column_strip df0 label :
  has_column (strip_columns df0) label = true
  <-> label ∈ map (fun col => PyStr.strip (py_str col)) (df_columns df0).
Proof.
  unfold has_column, strip_columns. simpl.
  rewrite bool_decide_eq_true.
  induction (df_columns df0) as [|c cols IH]; simpl.
  - split; intros H; inversion H.
  - rewrite !elem_of_cons, IH.
    split; (intros [H|H]; [left; congruence | right; exact H]).
Qed.

Lemma validated_false df0 :
  (employee_col_name ∉ map (fun col => PyStr.strip (py_str col)) (df_columns df0)
   \/ challan_col_name ∉ map (fun col => PyStr.strip (py_str col)) (df_columns df0)) ->
  validated df0 = false.
Proof.
  unfold validated.
  intros [H|H]; apply andb_false_iff; [left|right];
    apply not_true_is_false; intros Hc; apply H; now apply has_column_strip.
Qed.

(** The run when line 78 finds a required label missing. *)
Lemma merge_pdfs_logic_schema_error w paths df0 fs :
  read_excel w (excel_file paths) = inr df0 ->
  validated df0 = false ->
  merge_pdfs_logic w paths fs =
    (prelude paths
     ++ [Log ERROR missing_columns_msg;
         Log ERROR (found_columns_msg
                      (map (fun col => PyStr.strip (py_str col)) (df_columns df0)))],
     fs, inr tt)%list.
Proof.
  intros Hread Hval. unfold merge_pdfs_logic.
  do 5 (erewrite bind_inr by reflexivity; cbv beta).
  assert (Hload : load_mapping w paths fs =
            ([Log ERROR missing_columns_msg;
              Log ERROR (found_columns_msg (columns_tolist (strip_columns df0)))],
             fs, inr None)).
  { unfold load_mapping. rewrite Hread. cbv zeta.
    unfold validated in Hval. apply andb_false_iff in Hval.
    assert (Hor : negb (has_column (strip_columns df0) employee_col_name)
                  || negb (has_column (strip_columns df0) challan_col_name) = true).
    { apply orb_true_iff. destruct Hval as [->| ->]; auto. }
    rewrite Hor. reflexivity. }
  erewrite bind_inr by exact Hload. cbv beta iota.
  rewrite columns_tolist_strip. reflexivity.
Qed.

(** C6.  When [pd.read_excel] yields a frame in which, after the labels are
    stripped, 'Employee Name' or 'Challan Number' is not a label, the run
    logs the two error records of lines 79-80 after its opening records and
    returns: the first names both required labels, the second lists the
    stripped labels found; nothing is written, the file store is as it was,
    and no certificate is processed, whatever the certificate directory
    holds (it is not even listed). *)
Theorem C6_missing_header_is_a_schema_error_and_nothing_is_processed
    (w : World) (paths : Paths) (df0 : DataFrame) (fs : gmap string File) :
  read_excel w (excel_file paths) = inr df0 ->
  (employee_col_name ∉ map (fun col => PyStr.strip (py_str col)) (df_columns df0)
   \/ challan_col_name ∉ map (fun col => PyStr.strip (py_str col)) (df_columns df0)) ->
  merge_pdfs_logic w paths fs =
    (prelude paths
     ++ [Log ERROR missing_columns_msg;
         Log ERROR (found_columns_msg
                      (map (fun col => PyStr.strip (py_str col)) (df_columns df0)))],
     fs, inr tt)%list
  /\ mentions missing_columns_msg "Employee Name"
  /\ mentions missing_columns_msg "Challan Number"
  /\ written_docs (fst (fst (merge_pdfs_logic w paths fs))) = []
  /\ (forall name lvl,
        Log lvl (processing_msg name) ∉ fst (fst (merge_pdfs_logic w paths fs))).
Proof.
  intros Hread Hmiss.
  pose proof (merge_pdfs_logic_schema_error w paths df0 fs Hread
                (validated_false df0 Hmiss)) as Hrun.
  split; [exact Hrun|]. rewrite Hrun. simpl fst.
  split; [|split; [|split]].
  - exists "Excel file must contain columns named '", "' and 'Challan Number'.".
    reflexivity.
  - exists "Excel file must contain columns named 'Employee Name' and '", "'.".
    reflexivity.
  - reflexivity.
  - intros name lvl Hin. unfold prelude in Hin. simpl in Hin.
    repeat (apply elem_of_cons in Hin as [Hin|Hin];
            [injection Hin as _ Hin; discriminate Hin|]).
    inversion Hin.
Qed.

(* ===================================================================== *)
(** ** Errors and where they stop (lines 72-90, 93, 100, 136-138) *)
(* ===================================================================== *)

Lemma critical_msg_mentions w name e :
  mentions (critical_msg w name e) name
  /\ mentions (critical_msg w name e) (exn_str w e).
Proof.
  unfold mentions, critical_msg. split.
  - exists "A critical error occurred while processing ",
           (". Skipping. Error: " ++ exn_str w e). reflexivity.
  - exists ("A critical error occurred while processing " ++ name
            ++ ". Skipping. Error: "), EmptyString.
    rewrite !append_assoc.
    replace (exn_str w e ++ EmptyString) with (exn_str w e); [reflexivity|].
    induction (exn_str w e) as [|c s IH]; [reflexivity|].
    rewrite append_cons. now rewrite <- IH.
Qed.

(** What a turn does with the outcome of its [try] body. *)
Lemma process_certificate_boundary w paths df f n fs :
  match merge_one w paths df f (employee_of f) n fs with
  | (t, fs1, inl e) =>
      process_certificate w paths df f n fs =
        (Log INFO (processing_msg (employee_of f))
           :: t ++ [Log ERROR (critical_msg w (employee_of f) e)],
         fs1, inr n)
  | (t, fs1, inr n') =>
      process_certificate w paths df f n fs =
        (Log INFO (processing_msg (employee_of f)) :: t, fs1, inr n')
  end.
Proof.
  destruct (merge_one w paths df f (employee_of f) n fs) as [[t fs1] [e|n']] eqn:H.
  - now apply process_certificate_catches.
  - now apply process_certificate_returns.
Qed.

(** The loop reaches every certificate of the work list. *)
Lemma process_all_visits w paths df certs : forall n fs,
  exists t fs' n',
    process_all w paths df certs n fs = (t, fs', inr n')
    /\ Forall (fun c => Log INFO (processing_msg (employee_of c)) ∈ t) certs.
Proof.
  induction certs as [|c certs IH]; intros n fs.
  - exists [], fs, n. split; [reflexivity | constructor].
  - pose proof (process_certificate_boundary w paths df c n fs) as Hb.
    destruct (merge_one w paths df c (employee_of c) n fs) as [[t1 fs1] [e|n1]].
    + destruct (IH n fs1) as (t2 & fs2 & n2 & H2 & Hall).
      eexists _, fs2, n2. split.
      * simpl. erewrite bind_inr by exact Hb. rewrite H2. reflexivity.
      * constructor.
        -- apply elem_of_app. left. apply elem_of_cons. now left.
        -- eapply Forall_impl; [exact Hall|].
           intros c' Hc'. apply elem_of_app. now right.
    + destruct (IH n1 fs1) as (t2 & fs2 & n2 & H2 & Hall).
      eexists _, fs2, n2. split.
      * simpl. erewrite bind_inr by exact Hb. rewrite H2. reflexivity.
      * constructor.
        -- apply elem_of_app. left. apply elem_of_cons. now left.
        -- eapply Forall_impl; [exact Hall|].
           intros c' Hc'. apply elem_of_app. now right.
Qed.

(** The run when listing the certificate directory raises. *)
Lemma merge_pdfs_logic_listdir_raises w paths df0 fs e :
  read_excel w (excel_file paths) = inr df0 ->
  validated df0 = true ->
  listdir w (cert_dir paths) = inl e ->
  merge_pdfs_logic w paths fs = (prelude paths ++ [Log INFO loaded_msg], fs, inl e)%list.
Proof.
  intros Hread Hval Hlist. unfold merge_pdfs_logic.
  do 5 (erewrite bind_inr by reflexivity; cbv beta).
  erewrite bind_inr by (eapply load_mapping_ok; eassumption). cbv beta iota.
  erewrite bind_inl by (unfold lift; rewrite Hlist; reflexivity).
  reflexivity.
Qed.

(** The run when [pd.read_excel] raises. *)
Lemma merge_pdfs_logic_read_raises w paths fs e :
  read_excel w (excel_file paths) = inl e ->
  merge_pdfs_logic w paths fs =
    (prelude paths
     ++ [Log ERROR (if is_FileNotFoundError e then excel_not_found_msg paths
                    else excel_error_msg w e)],
     fs, inr tt)%list.
Proof.
  intros Hread. unfold merge_pdfs_logic.
  do 5 (erewrite bind_inr by reflexivity; cbv beta).
  assert (Hload : load_mapping w paths fs =
            ([Log ERROR (if is_FileNotFoundError e then excel_not_found_msg paths
                         else excel_error_msg w e)], fs, inr None)).
  { unfold load_mapping. rewrite Hread. now destruct (is_FileNotFoundError e). }
  erewrite bind_inr by exact Hload. reflexivity.
Qed.

(** C7 (as amended).  An exception that leaves the [try] body of a
    certificate's turn is caught at line 136: the turn logs one error record
    naming the person and the exception, keeps the count, and returns, so
    the loop goes on to the next certificate and reaches every certificate
    of the work list.  (A challan that fails to append never leaves the body:
    line 122 handles it with a warning.)  As for the run: when
    [pd.read_excel] raises or a required label is missing it logs the error
    and returns; when the certificate directory cannot be listed the
    exception of [os.listdir] leaves [merge_pdfs_logic]; in every other case
    the run completes with its summary. *)
Theorem C7_errors_are_caught_per_person_and_the_run_ends_only_at_load_or_listing
    (w : World) (paths : Paths) :
  (forall df f n fs,
     match merge_one w paths df f (employee_of f) n fs with
     | (t, fs1, inl e) =>
         process_certificate w paths df f n fs =
           (Log INFO (processing_msg (employee_of f))
              :: t ++ [Log ERROR (critical_msg w (employee_of f) e)],
            fs1, inr n)
         /\ mentions (critical_msg w (employee_of f) e) (employee_of f)
         /\ mentions (critical_msg w (employee_of f) e) (exn_str w e)
     | (t, fs1, inr n') =>
         process_certificate w paths df f n fs =
           (Log INFO (processing_msg (employee_of f)) :: t, fs1, inr n')
     end)
  /\ (forall df certs n fs,
        exists t fs' n',
          process_all w paths df certs n fs = (t, fs', inr n')
          /\ Forall (fun c => Log INFO (processing_msg (employee_of c)) ∈ t) certs)
  /\ (forall fs,
        match read_excel w (excel_file paths) with
        | inl e =>
            merge_pdfs_logic w paths fs =
              (prelude paths
               ++ [Log ERROR (if is_FileNotFoundError e
                              then excel_not_found_msg paths
                              else excel_error_msg w e)],
               fs, inr tt)%list
        | inr df0 =>
            if validated df0 then
              match listdir w (cert_dir paths) with
              | inl e =>
                  merge_pdfs_logic w paths fs =
                    (prelude paths ++ [Log INFO loaded_msg], fs, inl e)%list
              | inr names =>
                  exists t fs' n,
                    merge_pdfs_logic w paths fs = (t, fs', inr tt)
                    /\ last t = Some (Log INFO (summary n (length (pdf_names names))))
                    /\ Forall (fun c => Log INFO (processing_msg (employee_of c)) ∈ t)
                              (pdf_names names)
              end
            else
              merge_pdfs_logic w paths fs =
                (prelude paths
                 ++ [Log ERROR missing_columns_msg;
                     Log ERROR (found_columns_msg
                                  (map (fun col => PyStr.strip (py_str col))
                                       (df_columns df0)))],
                 fs, inr tt)%list
        end).
Proof.
  split; [|split].
  - intros df f n fs.
    pose proof (process_certificate_boundary w paths df f n fs) as Hb.
    destruct (merge_one w paths df f (employee_of f) n fs) as [[t fs1] [e|n']].
    + split; [exact Hb | apply critical_msg_mentions].
    + exact Hb.
  - intros df certs n fs. apply process_all_visits.
  - intros fs.
    destruct (read_excel w (excel_file paths)) as [e|df0] eqn:Hread.
    { now apply merge_pdfs_logic_read_raises. }
    destruct (validated df0) eqn:Hval.
    2:{ now apply merge_pdfs_logic_schema_error. }
    destruct (listdir w (cert_dir paths)) as [e|names] eqn:Hlist.
    { now apply merge_pdfs_logic_listdir_raises with (df0 := df0). }
    destruct (process_all_visits w paths (strip_columns df0) (pdf_names names) 0 fs)
      as (t & fs' & n & Hall & Hvisit).
    eexists _, fs', n.
    split; [eapply merge_pdfs_logic_completed; eassumption|].
    split.
    + change [Log INFO "--- Process Complete ---";
              Log INFO (summary n (length (pdf_names names)))]
        with ([Log INFO "--- Process Complete ---"]
              ++ [Log INFO (summary n (length (pdf_names names)))])%list.
      rewrite !app_assoc. apply last_snoc.
    + eapply Forall_impl; [exact Hvisit|].
      intros c Hc. apply elem_of_app. right. apply elem_of_app. right.
      apply elem_of_app. now left.
Qed.

(* ===================================================================== *)
(** ** Running the batch again *)
(* ===================================================================== *)

Lemma replay_lookup t : forall fs p,
  replay t fs !! p =
    match last_store t p with
    | Some f => Some f
    | None => fs !! p
    end.
Proof.
  induction t as [|a t IH]; intros fs p; [reflexivity|].
  destruct a as [l m|q f]; simpl; [apply IH|].
  rewrite IH. destruct (last_store t p) as [f'|]; [reflexivity|].
  destruct (decide (q = p)) as [->|Hne].
  - rewrite bool_decide_eq_true_2 by reflexivity. apply lookup_insert_eq.
  - rewrite bool_decide_eq_false_2 by exact Hne. now apply lookup_insert_ne.
Qed.

(** Replaying a trace over its own result changes nothing. *)
Lemma replay_idempotent t fs : replay t (replay t fs) = replay t fs.
Proof.
  apply map_eq. intros p. rewrite (replay_lookup t (replay t fs)).
  destruct (last_store t p) as [f|] eqn:H; [|reflexivity].
  rewrite replay_lookup, H. reflexivity.
Qed.

Lemma agree_replay P t fs fs' :
  agree P fs fs' -> agree P (replay t fs) (replay t fs').
Proof.
  intros H p Hp. rewrite !replay_lookup.
  destruct (last_store t p); [reflexivity | now apply H].
Qed.

Section ReadsWithin.

Variable P : list string.

Lemma reads_within_ret {A} (a : A) : reads_within P (ret a).
Proof. intros fs fs' _. exists [], (inr a). split; reflexivity. Qed.

Lemma reads_within_lift {A} (r : Exn + A) : reads_within P (lift r).
Proof. intros fs fs' _. exists [], r. split; reflexivity. Qed.

Lemma reads_within_logging lvl msg : reads_within P (logging lvl msg).
Proof. intros fs fs' _. exists [Log lvl msg], (inr tt). split; reflexivity. Qed.

Lemma reads_within_bind {A B} (m : M A) (k : A -> M B) :
  reads_within P m -> (forall a, reads_within P (k a)) ->
  reads_within P (bind m k).
Proof.
  intros Hm Hk fs fs' Hag.
  destruct (Hm fs fs' Hag) as (t1 & r1 & H1 & H1').
  destruct r1 as [e|a].
  - exists t1, (inl e). split; [now apply bind_inl | now apply bind_inl].
  - destruct (Hk a _ _ (agree_replay P t1 fs fs' Hag)) as (t2 & r2 & H2 & H2').
    exists (t1 ++ t2)%list, r2. rewrite !replay_app. split.
    + erewrite bind_inr by exact H1. now rewrite H2.
    + erewrite bind_inr by exact H1'. now rewrite H2'.
Qed.

(** The same, asking of the continuation only the values [m] can yield. *)
Lemma reads_within_bind_val {A B} (m : M A) (k : A -> M B) :
  reads_within P m ->
  (forall a fs t fs', m fs = (t, fs', inr a) -> reads_within P (k a)) ->
  reads_within P (bind m k).
Proof.
  intros Hm Hk fs fs' Hag.
  destruct (Hm fs fs' Hag) as (t1 & r1 & H1 & H1').
  destruct r1 as [e|a].
  - exists t1, (inl e). split; [now apply bind_inl | now apply bind_inl].
  - destruct (Hk a _ _ _ H1 _ _ (agree_replay P t1 fs fs' Hag))
      as (t2 & r2 & H2 & H2').
    exists (t1 ++ t2)%list, r2. rewrite !replay_app. split.
    + erewrite bind_inr by exact H1. now rewrite H2.
    + erewrite bind_inr by exact H1'. now rewrite H2'.
Qed.

Lemma reads_within_bind_lift {A B} (r : Exn + A) (k : A -> M B) :
  (forall a, r = inr a -> reads_within P (k a)) ->
  reads_within P (bind (lift r) k).
Proof.
  intros Hk. apply reads_within_bind_val; [apply reads_within_lift|].
  intros a fs t fs' H. apply Hk. unfold lift in H. congruence.
Qed.

Lemma reads_within_try_except {A} (m : M A) (h : Exn -> M A) :
  reads_within P m -> (forall e, reads_within P (h e)) ->
  reads_within P (try_except m h).
Proof.
  intros Hm Hh fs fs' Hag.
  destruct (Hm fs fs' Hag) as (t1 & r1 & H1 & H1').
  destruct r1 as [e|a].
  - destruct (Hh e _ _ (agree_replay P t1 fs fs' Hag)) as (t2 & r2 & H2 & H2').
    exists (t1 ++ t2)%list, r2. rewrite !replay_app. split.
    + erewrite try_except_inl by exact H1. now rewrite H2.
    + erewrite try_except_inl by exact H1'. now rewrite H2'.
  - exists t1, (inr a).
    split; [now apply try_except_inr | now apply try_except_inr].
Qed.

Lemma reads_within_path_exists p : p ∈ P -> reads_within P (path_exists p).
Proof.
  intros Hp fs fs' Hag. unfold path_exists. rewrite (Hag p Hp).
  eexists [], _. split; reflexivity.
Qed.

Lemma reads_within_pdf_append merger p :
  p ∈ P -> reads_within P (pdf_append merger p).
Proof.
  intros Hp fs fs' Hag. unfold pdf_append. rewrite (Hag p Hp).
  destruct (fs' !! p) as [[pages|]|]; eexists [], _; split; reflexivity.
Qed.

Lemma reads_within_open_truncate w p : reads_within P (open_truncate w p).
Proof.
  intros fs fs' _. unfold open_truncate.
  destruct (open_wb w p) as [e|].
  - exists [], (inl e). split; reflexivity.
  - exists [Store p NotPdf], (inr tt). split; reflexivity.
Qed.

Lemma reads_within_merger_write w p merger :
  reads_within P (merger_write w p merger).
Proof.
  intros fs fs' _. unfold merger_write.
  destruct (pdf_write w p) as [e|].
  - exists [], (inl e). split; reflexivity.
  - exists [Store p (Pdf merger)], (inr tt). split; reflexivity.
Qed.

End ReadsWithin.

Section ReadsOfTheRun.

Variable w : World.
Variable paths : Paths.
Variable P : list string.

Lemma reads_within_append_challan cols row merger :
  (forall p, p ∈ row_challan_paths w paths cols row -> p ∈ P) ->
  reads_within P (append_challan w paths cols row merger).
Proof.
  intros Hrow. unfold append_challan.
  apply reads_within_bind_lift. intros s Hs.
  assert (Hp : OsPath.join (challan_dir paths) (PyStr.strip s ++ ".pdf") ∈ P).
  { apply Hrow. unfold row_challan_paths. rewrite Hs.
    apply elem_of_cons. now left. }
  cbv zeta.
  apply reads_within_bind; [now apply reads_within_path_exists|].
  intros [|].
  - apply reads_within_try_except.
    + apply reads_within_bind; [now apply reads_within_pdf_append|].
      intros merger'.
      apply reads_within_bind; [apply reads_within_logging|].
      intros _. apply reads_within_ret.
    + intros e. apply reads_within_bind; [apply reads_within_logging|].
      intros _. apply reads_within_ret.
  - apply reads_within_bind; [apply reads_within_logging|].
    intros _. apply reads_within_ret.
Qed.

Lemma reads_within_append_challans cols rows : forall merger,
  (forall row p, row ∈ rows -> p ∈ row_challan_paths w paths cols row -> p ∈ P) ->
  reads_within P (append_challans w paths cols rows merger).
Proof.
  induction rows as [|row rows IH]; intros merger Hrows; simpl.
  - apply reads_within_ret.
  - apply reads_within_bind.
    + apply reads_within_append_challan. intros p Hp.
      apply (Hrows row p); [apply elem_of_cons; now left | exact Hp].
    + intros merger'. apply IH. intros row' p Hrow' Hp.
      apply (Hrows row' p); [apply elem_of_cons; now right | exact Hp].
Qed.

(** The rows line 101 selects are rows of the frame, under its labels. *)
Lemma select_rows_sub df label name sel :
  select_rows df label name = inr sel ->
  df_columns sel = df_columns df
  /\ (forall row, row ∈ df_rows sel -> row ∈ df_rows df).
Proof.
  unfold select_rows.
  destruct (label_positions (df_columns df) label) as [|i [|? ?]];
    try discriminate.
  intros H. injection H as <-. simpl. split; [reflexivity|].
  intros row Hrow. apply list_elem_of_In in Hrow.
  apply List.filter_In in Hrow as [Hrow _]. now apply list_elem_of_In.
Qed.

Variable df : DataFrame.
Hypothesis Hchallans :
  forall row p, row ∈ df_rows df ->
    p ∈ row_challan_paths w paths (df_columns df) row -> p ∈ P.

Lemma reads_within_merge_one f name n :
  OsPath.join (cert_dir paths) f ∈ P ->
  reads_within P (merge_one w paths df f name n).
Proof.
  intros Hcert. unfold merge_one.
  apply reads_within_bind_lift. intros sel Hsel.
  destruct (select_rows_sub _ _ _ _ Hsel) as [Hcols Hrows].
  destruct (df_empty sel).
  { apply reads_within_bind; [apply reads_within_logging|].
    intros _. apply reads_within_ret. }
  cbv zeta.
  apply reads_within_bind; [now apply reads_within_pdf_append|]. intros merger.
  apply reads_within_bind; [apply reads_within_logging|]. intros _.
  apply reads_within_bind.
  { apply reads_within_append_challans. rewrite Hcols.
    intros row p Hrow Hp. apply (Hchallans row p); [now apply Hrows | exact Hp]. }
  intros merger'.
  apply reads_within_bind; [apply reads_within_open_truncate|]. intros _.
  apply reads_within_bind; [apply reads_within_merger_write|]. intros _.
  apply reads_within_bind; [apply reads_within_logging|]. intros _.
  apply reads_within_ret.
Qed.

Lemma reads_within_process_certificate f n :
  OsPath.join (cert_dir paths) f ∈ P ->
  reads_within P (process_certificate w paths df f n).
Proof.
  intros Hcert. unfold process_certificate.
  apply reads_within_bind; [apply reads_within_logging|]. intros _.
  apply reads_within_try_except; [now apply reads_within_merge_one|].
  intros e. apply reads_within_bind; [apply reads_within_logging|].
  intros _. apply reads_within_ret.
Qed.

Lemma reads_within_process_all certs : forall n,
  (forall f, f ∈ certs -> OsPath.join (cert_dir paths) f ∈ P) ->
  reads_within P (process_all w paths df certs n).
Proof.
  induction certs as [|f certs IH]; intros n Hcerts; simpl.
  - apply reads_within_ret.
  - apply reads_within_bind.
    + apply reads_within_process_certificate. apply Hcerts.
      apply elem_of_cons. now left.
    + intros n'. apply IH. intros f' Hf'. apply Hcerts.
      apply elem_of_cons. now right.
Qed.

End ReadsOfTheRun.

Lemma reads_within_load_mapping w paths P :
  reads_within P (load_mapping w paths).
Proof.
  unfold load_mapping.
  destruct (read_excel w (excel_file paths)) as [e|df0].
  - destruct (is_FileNotFoundError e);
      (apply reads_within_bind; [apply reads_within_logging|];
       intros _; apply reads_within_ret).
  - cbv zeta.
    destruct (negb (has_column (strip_columns df0) employee_col_name)
              || negb (has_column (strip_columns df0) challan_col_name)).
    + apply reads_within_bind; [apply reads_within_logging|]. intros _.
      apply reads_within_bind; [apply reads_within_logging|]. intros _.
      apply reads_within_ret.
    + apply reads_within_bind; [apply reads_within_logging|]. intros _.
      apply reads_within_ret.
Qed.

(** A frame that comes out of the load is the stripped frame read. *)
Lemma load_mapping_some w paths fs t fs' df :
  load_mapping w paths fs = (t, fs', inr (Some df)) ->
  exists df0, read_excel w (excel_file paths) = inr df0 /\ df = strip_columns df0.
Proof.
  unfold load_mapping.
  destruct (read_excel w (excel_file paths)) as [e|df0].
  - destruct (is_FileNotFoundError e); unfold bind, logging, ret; simpl;
      intros H; discriminate.
  - cbv zeta.
    destruct (negb (has_column (strip_columns df0) employee_col_name)
              || negb (has_column (strip_columns df0) challan_col_name));
      unfold bind, logging, ret; simpl; intros H; [discriminate|].
    exists df0. split; [reflexivity | congruence].
Qed.

(** The run reads documents only at its input paths. *)
Lemma reads_within_merge_pdfs_logic w paths :
  reads_within (input_paths w paths) (merge_pdfs_logic w paths).
Proof.
  unfold merge_pdfs_logic.
  do 5 (apply reads_within_bind; [apply reads_within_logging|]; intros _).
  apply reads_within_bind_val; [apply reads_within_load_mapping|].
  intros [df|] fs t fs' Hload; [|apply reads_within_ret].
  destruct (load_mapping_some _ _ _ _ _ _ Hload) as (df0 & Hread & ->).
  cbv zeta.
  apply reads_within_bind_lift. intros names Hlist.
  apply reads_within_bind; [apply reads_within_logging|]. intros _.
  apply reads_within_bind.
  - unfold input_paths. rewrite Hread, Hlist.
    apply reads_within_process_all.
    + intros row p Hrow Hp. apply elem_of_app. right.
      apply list_elem_of_In, in_flat_map. exists row.
      split; apply list_elem_of_In; assumption.
    + intros f Hf. apply elem_of_app. left.
      apply list_elem_of_In, in_map, list_elem_of_In. exact Hf.
  - intros n.
    apply reads_within_bind; [apply reads_within_logging|]. intros _.
    apply reads_within_bind; [apply reads_within_logging|]. intros _.
    apply reads_within_ret.
Qed.

(* ===================================================================== *)
(** ** Surroundings that answer alike *)
(* ===================================================================== *)

Lemma bind_ext {A B} (m m' : M A) (k k' : A -> M B) fs :
  m fs = m' fs -> (forall a fs1, k a fs1 = k' a fs1) ->
  bind m k fs = bind m' k' fs.
Proof.
  intros Hm Hk. unfold bind. rewrite Hm.
  destruct (m' fs) as [[t1 fs1] [e|a]]; [reflexivity|]. now rewrite Hk.
Qed.

Lemma try_except_ext {A} (m m' : M A) (h h' : Exn -> M A) fs :
  m fs = m' fs -> (forall e fs1, h e fs1 = h' e fs1) ->
  try_except m h fs = try_except m' h' fs.
Proof.
  intros Hm Hh. unfold try_except. rewrite Hm.
  destruct (m' fs) as [[t1 fs1] [e|a]]; [|reflexivity]. now rewrite Hh.
Qed.

Section SameSurroundings.

Variable paths : Paths.
Variables w1 w2 : World.
Hypothesis Hsame : same_surroundings paths w1 w2.

Lemma row_item_str_same cols row label :
  row_item_str w2 cols row label = row_item_str w1 cols row label.
Proof.
  destruct Hsame as (_ & _ & _ & _ & _ & Hseries).
  unfold row_item_str.
  destruct (label_positions cols label) as [|i [|j ps]]; try reflexivity.
  now rewrite Hseries.
Qed.

Lemma challan_record_same fs id :
  challan_record w2 paths fs id = challan_record w1 paths fs id.
Proof.
  destruct Hsame as (_ & _ & _ & _ & Hstr & _).
  unfold challan_record. now rewrite Hstr.
Qed.

Lemma append_challan_same cols row merger fs :
  append_challan w2 paths cols row merger fs
  = append_challan w1 paths cols row merger fs.
Proof.
  destruct (row_item_str w1 cols row challan_col_name) as [e|s] eqn:Hs.
  - rewrite (append_challan_raises w1 paths cols row merger fs e Hs).
    apply append_challan_raises. now rewrite row_item_str_same.
  - rewrite (append_challan_run w1 paths cols row merger fs s Hs).
    rewrite <- challan_record_same.
    apply append_challan_run. now rewrite row_item_str_same.
Qed.

Lemma append_challans_same cols rows : forall merger fs,
  append_challans w2 paths cols rows merger fs
  = append_challans w1 paths cols rows merger fs.
Proof.
  induction rows as [|row rows IH]; intros merger fs; [reflexivity|].
  simpl. apply bind_ext; [apply append_challan_same|].
  intros merger' fs1. apply IH.
Qed.

Lemma open_truncate_same p fs : open_truncate w2 p fs = open_truncate w1 p fs.
Proof.
  destruct Hsame as (_ & _ & Hopen & _).
  unfold open_truncate. now rewrite Hopen.
Qed.

Lemma merger_write_same p merger fs :
  merger_write w2 p merger fs = merger_write w1 p merger fs.
Proof.
  destruct Hsame as (_ & _ & _ & Hwrite & _).
  unfold merger_write. now rewrite Hwrite.
Qed.

Lemma merge_one_same df f name n fs :
  merge_one w2 paths df f name n fs = merge_one w1 paths df f name n fs.
Proof.
  unfold merge_one.
  apply bind_ext; [reflexivity|]. intros sel fs1.
  destruct (df_empty sel); [reflexivity|]. cbv zeta.
  apply bind_ext; [reflexivity|]. intros merger fs2.
  apply bind_ext; [reflexivity|]. intros _ fs3.
  apply bind_ext; [apply append_challans_same|]. intros merger' fs4.
  apply bind_ext; [apply open_truncate_same|]. intros _ fs5.
  apply bind_ext; [apply merger_write_same|]. intros _ fs6.
  reflexivity.
Qed.

Lemma process_certificate_same df f n fs :
  process_certificate w2 paths df f n fs = process_certificate w1 paths df f n fs.
Proof.
  destruct Hsame as (_ & _ & _ & _ & Hstr & _).
  unfold process_certificate.
  apply bind_ext; [reflexivity|]. intros _ fs1.
  apply try_except_ext; [apply merge_one_same|]. intros e fs2.
  now rewrite Hstr.
Qed.

Lemma process_all_same df certs : forall n fs,
  process_all w2 paths df certs n fs = process_all w1 paths df certs n fs.
Proof.
  induction certs as [|f certs IH]; intros n fs; [reflexivity|].
  simpl. apply bind_ext; [apply process_certificate_same|].
  intros n' fs1. apply IH.
Qed.

Lemma load_mapping_same fs : load_mapping w2 paths fs = load_mapping w1 paths fs.
Proof.
  destruct Hsame as (Hread & _ & _ & _ & Hstr & _).
  unfold load_mapping. rewrite Hread.
  destruct (read_excel w1 (excel_file paths)) as [e|df0]; [|reflexivity].
  now rewrite Hstr.
Qed.

(** Under surroundings that answer alike, the run is the same function of
    the store. *)
Lemma merge_pdfs_logic_same fs :
  merge_pdfs_logic w2 paths fs = merge_pdfs_logic w1 paths fs.
Proof.
  pose proof Hsame as (_ & Hlist & _).
  unfold merge_pdfs_logic.
  do 5 (apply bind_ext; [reflexivity|]; clear fs; intros _ fs).
  apply bind_ext; [apply load_mapping_same|]. clear fs.
  intros [df|] fs; [|reflexivity].
  cbv zeta. rewrite Hlist.
  apply bind_ext; [reflexivity|]. clear fs. intros names fs.
  apply bind_ext; [reflexivity|]. clear fs. intros _ fs.
  apply bind_ext; [apply process_all_same|]. reflexivity.
Qed.

End SameSurroundings.

(** C8.  Take a run in the surroundings [w1] from the store [fs], leaving
    the trace [t1], the store [fs1] and the outcome [r1], and let the inputs
    of a second run be unchanged: its surroundings [w2] answer as [w1] did
    (the same mapping is read, the certificate directory lists the same
    names, opening, writing and [str] behave alike), and at every path the
    run reads documents from, [fs1] holds what [fs] held.  Then the run in
    [w2] from [fs1] leaves the same trace (the same records, the same
    summary with the same count, the same documents written at the same
    paths), the same outcome, and the store [fs1] again. *)
Theorem C8_second_run_with_unchanged_inputs_repeats_the_first
    (w1 w2 : World) (paths : Paths) (fs fs1 : gmap string File)
    (t1 : list Action) (r1 : Exn + unit) :
  merge_pdfs_logic w1 paths fs = (t1, fs1, r1) ->
  same_surroundings paths w1 w2 ->
  Forall (fun p => fs1 !! p = fs !! p) (input_paths w1 paths) ->
  merge_pdfs_logic w2 paths fs1 = (t1, fs1, r1).
Proof.
  intros Hrun Hw Hsame.
  rewrite (merge_pdfs_logic_same paths w1 w2 Hw fs1).
  assert (Hag : agree (input_paths w1 paths) fs fs1).
  { intros p Hp. symmetry. revert p Hp. now apply Forall_forall. }
  destruct (reads_within_merge_pdfs_logic w1 paths fs fs1 Hag)
    as (t & r & H1 & H2).
  rewrite Hrun in H1. injection H1 as -> -> ->.
  rewrite H2. now rewrite replay_idempotent.
Qed.

(* ===================================================================== *)
(** ** Blank challan numbers (lines 114-125) *)
(* ===================================================================== *)

(** C9.  For a row whose 'Challan Number' cell (column [j], the one column
    of that label) holds a text that is empty or only whitespace, the turn
    of the challan loop builds the file name [.pdf]; for a cell without a
    value, which reaches the code as NaN, [str] gives [nan] and the file
    name is [nan.pdf].  In both cases the name is looked up under the
    challan directory and the turn does not raise: a document found there
    is appended to the merger; a file found there that cannot be read, or
    no file, leaves the merger as it was, with a warning. *)
Theorem C9_blank_text_looks_up_dot_pdf_and_empty_cell_nan_pdf
    (w : World) (paths : Paths) (cols : list Cell) (row : list Cell)
    (j : nat) (merger : list Page) (fs : gmap string File) :
  label_positions cols challan_col_name = [j] ->
  cell_at row j = CNaN
  \/ (exists s, cell_at row j = CStr s /\ PyStr.strip s = EmptyString) ->
  let challan_filename :=
    match cell_at row j with CNaN => "nan.pdf" | _ => ".pdf" end in
  let path := OsPath.join (challan_dir paths) challan_filename in
  append_challan w paths cols row merger fs =
    match fs !! path with
    | Some (Pdf pages) =>
        ([Log INFO ("  + Added challan: " ++ challan_filename)], fs,
         inr (merger ++ pages)%list)
    | Some NotPdf =>
        ([Log WARNING
            ("  - Could not merge challan file " ++ path
             ++ ". Skipping. Error: " ++ exn_str w (PdfReadError path))],
         fs, inr merger)
    | None =>
        ([Log WARNING
            ("  - Challan file not found: " ++ path ++ ". Skipping.")],
         fs, inr merger)
    end.
Proof.
  intros Hj Hcell challan_filename path.
  assert (Hs : exists s, row_item_str w cols row challan_col_name = inr s
                         /\ PyStr.strip s ++ ".pdf" = challan_filename).
  { unfold row_item_str, challan_filename. rewrite Hj.
    destruct Hcell as [->|(s & -> & Hblank)].
    - exists "nan". split; reflexivity.
    - exists s. split; [reflexivity | now rewrite Hblank]. }
  destruct Hs as (s & Hs & Hname).
  rewrite (append_challan_run w paths cols row merger fs s Hs).
  unfold challan_record, pages_at, challan_path. rewrite Hname.
  fold path.
  destruct (fs !! path) as [[pages|]|];
    [reflexivity | | ]; now rewrite app_nil_r.
Qed.

(* ===================================================================== *)
(** ** Two certificates with one base name (lines 93-97, 127-134) *)
(* ===================================================================== *)



(* ===================================================================== *)
(** ** The worked batch, claim by claim *)
(* ===================================================================== *)

Module ScenarioFacts.
Import Scenario.

(** The whole run of the scenario: two of three certificates merged. *)
Example scenario_run :
  first_run =
    (prelude paths
     ++ [Log INFO loaded_msg;
         Log INFO (found_msg 3);
         Log INFO (processing_msg "Alice");
         Log INFO (added_cert_msg "Alice.pdf");
         Log INFO "  + Added challan: 101.pdf";
         Log WARNING (not_found_msg paths "102");
         Store "/out/Alice_combined.pdf" NotPdf;
         Store "/out/Alice_combined.pdf" (Pdf ["Alice p1"; "challan 101"]);
         Log INFO (created_msg "/out/Alice_combined.pdf");
         Log INFO (processing_msg "Bob");
         Log INFO (added_cert_msg "Bob.pdf");
         Log INFO "  + Added challan: 201.pdf";
         Store "/out/Bob_combined.pdf" NotPdf;
         Store "/out/Bob_combined.pdf" (Pdf ["Bob p1"; "Bob p2"; "challan 201"]);
         Log INFO (created_msg "/out/Bob_combined.pdf");
         Log INFO (processing_msg "Carol");
         Log WARNING (no_entries_msg "Carol");
         Log INFO "--- Process Complete ---";
         Log INFO (summary 2 3)],
     <["/out/Bob_combined.pdf" := Pdf ["Bob p1"; "Bob p2"; "challan 201"]]>
       (<["/out/Alice_combined.pdf" := Pdf ["Alice p1"; "challan 101"]]> store),
     inr tt)%list.
Proof. vm_compute. reflexivity. Qed.

(** The comparison of names is exact: another case finds no row. *)
Example lookup_is_case_sensitive :
  lookup_challans world (strip_columns frame) "alice" = inr [].
Proof. reflexivity. Qed.

(** A cell without a value reads as [nan]: the file looked up is
    [nan.pdf]. *)
Example nan_cell_looks_up_nan_pdf :
  append_challan world paths (df_columns (strip_columns frame))
                 [CStr "Eve"; CNaN; CInt 1] [] store
  = ([Log WARNING (not_found_msg paths "nan")], store, inr []).
Proof. vm_compute. reflexivity. Qed.

End ScenarioFacts.

Lemma C1_witness :
  label_positions (df_columns (strip_columns Scenario.frame)) employee_col_name = [0]
  /\ label_positions (df_columns (strip_columns Scenario.frame)) challan_col_name = [1]
  /\ length (List.filter
               (fun r => String.eqb (Spec.person_name r) (PyStr.strip " Alice"))
               (Spec.mapping_rows 0 1 (df_rows (strip_columns Scenario.frame)))) = 2
  /\ exists ids,
       lookup_challans Scenario.world (strip_columns Scenario.frame) " Alice" = inr ids
       /\ ids = Spec.receiptsFor
                  (Spec.load (Spec.mapping_rows 0 1 (df_rows (strip_columns Scenario.frame))))
                  (PyStr.strip " Alice")
       /\ ids = map Spec.receipt_id
                    (List.filter
                       (fun r => String.eqb (Spec.person_name r) (PyStr.strip " Alice"))
                       (Spec.mapping_rows 0 1 (df_rows (strip_columns Scenario.frame))))
       /\ length ids = 2
       /\ (2 = 0 -> ids = []).
Proof.
  split; [reflexivity|]. split; [reflexivity|]. split; [reflexivity|].
  apply (C1_lookup_returns_matching_ids_in_row_order
           Scenario.world (strip_columns Scenario.frame) " Alice" 0 1 2);
    reflexivity.
Defined.

Lemma C2_witness :
  lookup_challans Scenario.world (strip_columns Scenario.frame)
                  (employee_of "Alice.pdf") = inr ["101"; "102"]
  /\ ["101"; "102"] <> @nil string
  /\ exists t fs' n',
       process_certificate Scenario.world Scenario.paths
         (strip_columns Scenario.frame) "Alice.pdf" 0 Scenario.store = (t, fs', inr n')
       /\ (forall p doc,
             Store p (Pdf doc) ∈ t ->
             p = OsPath.join (output_dir Scenario.paths)
                             (employee_of "Alice.pdf" ++ "_combined.pdf")
             /\ (exists cert,
                   Scenario.store !! OsPath.join (cert_dir Scenario.paths) "Alice.pdf"
                   = Some (Pdf cert)
                   /\ doc = (cert ++ concat
                               (map (fun id => pages_at Scenario.store
                                                 (challan_path Scenario.paths id))
                                    (found_ids Scenario.paths Scenario.store
                                               ["101"; "102"])))%list)
             /\ fs' !! p = Some (Pdf doc))
       /\ (forall cert,
             Scenario.store !! OsPath.join (cert_dir Scenario.paths) "Alice.pdf"
             = Some (Pdf cert) ->
             open_wb Scenario.world
               (OsPath.join (output_dir Scenario.paths)
                            (employee_of "Alice.pdf" ++ "_combined.pdf")) = None ->
             pdf_write Scenario.world
               (OsPath.join (output_dir Scenario.paths)
                            (employee_of "Alice.pdf" ++ "_combined.pdf")) = None ->
             Store (OsPath.join (output_dir Scenario.paths)
                                (employee_of "Alice.pdf" ++ "_combined.pdf"))
                   (Pdf (cert ++ concat
                           (map (fun id => pages_at Scenario.store
                                             (challan_path Scenario.paths id))
                                (found_ids Scenario.paths Scenario.store
                                           ["101"; "102"])))%list) ∈ t
             /\ n' = 0 + 1).
Proof.
  split; [reflexivity|]. split; [discriminate|].
  apply (C2_combined_document_is_certificate_then_found_receipts
           Scenario.world Scenario.paths (strip_columns Scenario.frame)
           "Alice.pdf" 0 Scenario.store ["101"; "102"]);
    [reflexivity | discriminate].
Defined.

Lemma C3_witness :
  lookup_challans Scenario.world (strip_columns Scenario.frame)
                  (employee_of "Alice.pdf") = inr ["101"; "102"]
  /\ ["101"; "102"] <> @nil string
  /\ Forall (fun id => Scenario.store_without_challans
                         !! challan_path Scenario.paths id = None)
            ["101"; "102"]
  /\ exists t fs',
       process_certificate Scenario.world Scenario.paths
         (strip_columns Scenario.frame) "Alice.pdf" 0
         Scenario.store_without_challans = (t, fs', inr (0 + 1))
       /\ written_docs t = [(output_path_of Scenario.paths "Alice.pdf", ["Alice p1"])]
       /\ fs' !! output_path_of Scenario.paths "Alice.pdf" = Some (Pdf ["Alice p1"])
       /\ messages_at WARNING t = map (not_found_msg Scenario.paths) ["101"; "102"]
       /\ (forall id, id ∈ ["101"; "102"] ->
             mentions (not_found_msg Scenario.paths id) (id ++ ".pdf"))
       /\ messages_at ERROR t = [].
Proof.
  assert (Hmissing : Forall (fun id => Scenario.store_without_challans
                                         !! challan_path Scenario.paths id = None)
                            ["101"; "102"]).
  { repeat constructor. }
  split; [reflexivity|]. split; [discriminate|]. split; [exact Hmissing|].
  apply (C3_all_receipts_missing_still_merges_certificate
           Scenario.world Scenario.paths (strip_columns Scenario.frame)
           "Alice.pdf" 0 Scenario.store_without_challans ["101"; "102"] ["Alice p1"]);
    [reflexivity | discriminate | | reflexivity | reflexivity | reflexivity].
  intros id Hid. revert id Hid. apply Forall_forall. exact Hmissing.
Defined.



Lemma C5_witness :
  read_excel Scenario.world (excel_file Scenario.paths) = inr Scenario.frame
  /\ validated Scenario.frame = true
  /\ listdir Scenario.world (cert_dir Scenario.paths)
     = inr ["Alice.pdf"; "Bob.pdf"; "Carol.pdf"; "notes.txt"]
  /\ "Carol.pdf" ∈ pdf_names ["Alice.pdf"; "Bob.pdf"; "Carol.pdf"; "notes.txt"]
  /\ label_positions (df_columns (strip_columns Scenario.frame)) employee_col_name = [0]
  /\ Forall (fun row => PyStr.strip (py_str (cell_at row 0))
                        <> PyStr.strip (employee_of "Carol.pdf"))
            (df_rows Scenario.frame)
  /\ (forall n fs,
        process_certificate Scenario.world Scenario.paths
          (strip_columns Scenario.frame) "Carol.pdf" n fs =
          ([Log INFO (processing_msg (employee_of "Carol.pdf"));
            Log WARNING (no_entries_msg (employee_of "Carol.pdf"))], fs, inr n))
  /\ (forall fs,
        exists t fs' n,
          merge_pdfs_logic Scenario.world Scenario.paths fs = (t, fs', inr tt)
          /\ last t = Some (Log INFO
                              (summary n (length (pdf_names ["Alice.pdf"; "Bob.pdf";
                                                             "Carol.pdf"; "notes.txt"]))))
          /\ n < length (pdf_names ["Alice.pdf"; "Bob.pdf"; "Carol.pdf"; "notes.txt"])
          /\ Log WARNING (no_entries_msg (employee_of "Carol.pdf")) ∈ t).
Proof.
  assert (Hin : "Carol.pdf" ∈ pdf_names ["Alice.pdf"; "Bob.pdf"; "Carol.pdf"; "notes.txt"]).
  { apply list_elem_of_In. vm_compute. right. right. left. reflexivity. }
  assert (Hnone : Forall (fun row => PyStr.strip (py_str (cell_at row 0))
                                     <> PyStr.strip (employee_of "Carol.pdf"))
                         (df_rows Scenario.frame)).
  { repeat constructor; vm_compute; discriminate. }
  split; [reflexivity|]. split; [reflexivity|]. split; [reflexivity|].
  split; [exact Hin|]. split; [reflexivity|]. split; [exact Hnone|].
  apply (C5_person_without_rows_is_skipped_and_counted_in_total
           Scenario.world Scenario.paths Scenario.frame
           ["Alice.pdf"; "Bob.pdf"; "Carol.pdf"; "notes.txt"] "Carol.pdf" 0);
    [reflexivity | reflexivity | reflexivity | exact Hin | reflexivity |].
  intros row Hrow. revert row Hrow. apply Forall_forall. exact Hnone.
Defined.

Lemma C6_witness :
  read_excel Scenario.world_without_challan (excel_file Scenario.paths)
  = inr Scenario.frame_without_challan
  /\ (challan_col_name ∉ map (fun col => PyStr.strip (py_str col))
                             (df_columns Scenario.frame_without_challan))
  /\ merge_pdfs_logic Scenario.world_without_challan Scenario.paths Scenario.store =
       (prelude Scenario.paths
        ++ [Log ERROR missing_columns_msg;
            Log ERROR (found_columns_msg
                         (map (fun col => PyStr.strip (py_str col))
                              (df_columns Scenario.frame_without_challan)))],
        Scenario.store, inr tt)%list
  /\ mentions missing_columns_msg "Employee Name"
  /\ mentions missing_columns_msg "Challan Number"
  /\ written_docs (fst (fst (merge_pdfs_logic Scenario.world_without_challan
                               Scenario.paths Scenario.store))) = []
  /\ (forall name lvl,
        Log lvl (processing_msg name)
        ∉ fst (fst (merge_pdfs_logic Scenario.world_without_challan
                      Scenario.paths Scenario.store))).
Proof.
  assert (Hmiss : challan_col_name
                  ∉ map (fun col => PyStr.strip (py_str col))
                        (df_columns Scenario.frame_without_challan)).
  { vm_compute. intros H.
    repeat (apply elem_of_cons in H as [H|H]; [discriminate H|]).
    inversion H. }
  split; [reflexivity|]. split; [exact Hmiss|].
  apply (C6_missing_header_is_a_schema_error_and_nothing_is_processed
           Scenario.world_without_challan Scenario.paths
           Scenario.frame_without_challan Scenario.store);
    [reflexivity | right; exact Hmiss].
Defined.

(** C7, as first stated, fails: here the spreadsheet loads and is validated,
    yet the run ends before any certificate is processed, because listing
    the certificate directory raises; the exception leaves
    [merge_pdfs_logic].  And an error raised while concatenating, a challan
    that cannot be read, is not reported by an error record naming the
    person: line 123 logs a warning naming the file, and the turn goes on. *)
Lemma C7_counterexample :
  (read_excel Scenario.world_unlistable (excel_file Scenario.paths)
   = inr Scenario.frame
   /\ validated Scenario.frame = true
   /\ merge_pdfs_logic Scenario.world_unlistable Scenario.paths Scenario.store
      = (prelude Scenario.paths ++ [Log INFO loaded_msg], Scenario.store,
         inl (FileNotFoundError "/certs"))%list)
  /\ (process_certificate Scenario.world Scenario.paths
        (strip_columns Scenario.frame) "Alice.pdf" 0 Scenario.store_damaged_challan
      = ([Log INFO (processing_msg "Alice");
          Log INFO (added_cert_msg "Alice.pdf");
          Log WARNING ("  - Could not merge challan file /challans/101.pdf."
                       ++ " Skipping. Error: Cannot read /challans/101.pdf");
          Log WARNING (not_found_msg Scenario.paths "102");
          Store "/out/Alice_combined.pdf" NotPdf;
          Store "/out/Alice_combined.pdf" (Pdf ["Alice p1"]);
          Log INFO (created_msg "/out/Alice_combined.pdf")],
         <["/out/Alice_combined.pdf" := Pdf ["Alice p1"]]>
           Scenario.store_damaged_challan,
         inr 1)).
Proof.
  split; [split; [reflexivity | split; [reflexivity|]]|].
  - vm_compute. reflexivity.
  - vm_compute. reflexivity.
Qed.

Lemma C8_witness :
  merge_pdfs_logic Scenario.world Scenario.paths Scenario.store
  = (fst (fst Scenario.first_run), snd (fst Scenario.first_run), snd Scenario.first_run)
  /\ same_surroundings Scenario.paths Scenario.world Scenario.world_later
  /\ Forall (fun p => snd (fst Scenario.first_run) !! p = Scenario.store !! p)
            (input_paths Scenario.world Scenario.paths)
  /\ merge_pdfs_logic Scenario.world_later Scenario.paths (snd (fst Scenario.first_run))
     = (fst (fst Scenario.first_run), snd (fst Scenario.first_run), snd Scenario.first_run).
Proof.
  assert (Hrun : merge_pdfs_logic Scenario.world Scenario.paths Scenario.store
                 = (fst (fst Scenario.first_run), snd (fst Scenario.first_run),
                    snd Scenario.first_run)).
  { unfold Scenario.first_run.
    now destruct (merge_pdfs_logic Scenario.world Scenario.paths Scenario.store)
      as [[? ?] ?]. }
  assert (Hw : same_surroundings Scenario.paths Scenario.world Scenario.world_later).
  { repeat split; reflexivity. }
  assert (Hsame : Forall (fun p => snd (fst Scenario.first_run) !! p
                                   = Scenario.store !! p)
                         (input_paths Scenario.world Scenario.paths)).
  { vm_compute. repeat constructor. }
  split; [exact Hrun|]. split; [exact Hw|]. split; [exact Hsame|].
  exact (C8_second_run_with_unchanged_inputs_repeats_the_first
           Scenario.world Scenario.world_later Scenario.paths Scenario.store
           (snd (fst Scenario.first_run)) (fst (fst Scenario.first_run))
           (snd Scenario.first_run) Hrun Hw Hsame).
Defined.

(** C9, as first stated, fails for a cell without a value: the cell
    reaches the code as NaN, the file looked up is [nan.pdf], and the
    document named [.pdf] that the challan directory holds is not appended. *)
Lemma C9_counterexample :
  label_positions (df_columns (strip_columns Scenario.frame)) challan_col_name = [1]
  /\ cell_at [CStr "Eve"; CNaN; CInt 1] 1 = CNaN
  /\ Scenario.store_with_dot_pdf !! OsPath.join (challan_dir Scenario.paths) ".pdf"
     = Some (Pdf ["stray page"])
  /\ append_challan Scenario.world Scenario.paths
       (df_columns (strip_columns Scenario.frame))
       [CStr "Eve"; CNaN; CInt 1] ["Eve p1"] Scenario.store_with_dot_pdf
     = ([Log WARNING "  - Challan file not found: /challans/nan.pdf. Skipping."],
        Scenario.store_with_dot_pdf, inr ["Eve p1"])
  /\ append_challan Scenario.world Scenario.paths
       (df_columns (strip_columns Scenario.frame))
       [CStr "Eve"; CNaN; CInt 1] ["Eve p1"] Scenario.store_with_dot_pdf
     <> ([Log INFO "  + Added challan: .pdf"], Scenario.store_with_dot_pdf,
         inr ["Eve p1"; "stray page"]).
Proof.
  assert (Hrun : append_challan Scenario.world Scenario.paths
                   (df_columns (strip_columns Scenario.frame))
                   [CStr "Eve"; CNaN; CInt 1] ["Eve p1"] Scenario.store_with_dot_pdf
                 = ([Log WARNING "  - Challan file not found: /challans/nan.pdf. Skipping."],
                    Scenario.store_with_dot_pdf, inr ["Eve p1"])).
  { vm_compute. reflexivity. }
  split; [reflexivity|]. split; [reflexivity|]. split; [reflexivity|].
  split; [exact Hrun|]. rewrite Hrun. intros H. discriminate H.
Qed.

Lemma C9_witness :
  label_positions (df_columns (strip_columns Scenario.frame)) challan_col_name = [1]
  /\ (cell_at [CStr "Dan"; CStr "   "; CInt 10] 1 = CNaN
      \/ (exists s, cell_at [CStr "Dan"; CStr "   "; CInt 10] 1 = CStr s
                    /\ PyStr.strip s = EmptyString))
  /\ append_challan Scenario.world Scenario.paths
       (df_columns (strip_columns Scenario.frame))
       [CStr "Dan"; CStr "   "; CInt 10] ["Dan p1"] Scenario.store_with_dot_pdf
     = ([Log INFO "  + Added challan: .pdf"], Scenario.store_with_dot_pdf,
        inr ["Dan p1"; "stray page"]).
Proof.
  assert (Hcell : cell_at [CStr "Dan"; CStr "   "; CInt 10] 1 = CNaN
                  \/ (exists s, cell_at [CStr "Dan"; CStr "   "; CInt 10] 1 = CStr s
                                /\ PyStr.strip s = EmptyString)).
  { right. exists "   ". split; reflexivity. }
  split; [reflexivity|]. split; [exact Hcell|].
  exact (C9_blank_text_looks_up_dot_pdf_and_empty_cell_nan_pdf
           Scenario.world Scenario.paths
           (df_columns (strip_columns Scenario.frame))
           [CStr "Dan"; CStr "   "; CInt 10] 1 ["Dan p1"]
           Scenario.store_with_dot_pdf eq_refl Hcell).
Defined.


Module MoreScenarioFacts.
Import Scenario.

(** Both spellings of the extension are in the work list, and the run
    reports two successes for one output file. *)
Example two_cases_run :
  pdf_names ["Alice.pdf"; "Alice.PDF"] = ["Alice.pdf"; "Alice.PDF"]
  /\ last (fst (fst (merge_pdfs_logic world_two_cases paths store)))
     = Some (Log INFO (summary 2 2))
  /\ written_docs (fst (fst (merge_pdfs_logic world_two_cases paths store)))
     = [("/out/Alice_combined.pdf", ["Alice p1"; "challan 101"]);
        ("/out/Alice_combined.pdf", ["Alice (scan) p1"; "challan 101"])]
  /\ snd (fst (merge_pdfs_logic world_two_cases paths store))
     = <["/out/Alice_combined.pdf" := Pdf ["Alice (scan) p1"; "challan 101"]]> store.
Proof. repeat split; vm_compute; reflexivity. Qed.

End MoreScenarioFacts.

Module FeedbackFacts.
Import Feedback.

(** When a run writes at a path it also reads, its inputs are not unchanged
    and the second run need not repeat the first: here the first run finds
    no challan for Alice, and the second appends Bob's combined document,
    which the first run left in the challan directory. *)
Example second_run_differs_when_an_output_is_an_input :
  written_docs (fst (fst (merge_pdfs_logic world paths store)))
  = [("/out/Alice_combined.pdf", ["Alice p1"]);
     ("/out/Bob_combined.pdf", ["Bob p1"; "challan 201"])]
  /\ written_docs
       (fst (fst (merge_pdfs_logic world paths
                    (snd (fst (merge_pdfs_logic world paths store))))))
     = [("/out/Alice_combined.pdf", ["Alice p1"; "Bob p1"; "challan 201"]);
        ("/out/Bob_combined.pdf", ["Bob p1"; "challan 201"])]
  /\ ~ Forall (fun p => snd (fst (merge_pdfs_logic world paths store)) !! p
                        = store !! p)
              (input_paths world paths).
Proof.
  split; [vm_compute; reflexivity|]. split; [vm_compute; reflexivity|].
  intros H. rewrite Forall_forall in H.
  specialize (H "/out/Bob_combined.pdf").
  assert (Hin : "/out/Bob_combined.pdf" ∈ input_paths world paths).
  { apply list_elem_of_In. vm_compute. right. right. left. reflexivity. }
  specialize (H Hin). vm_compute in H. discriminate H.
Qed.

End FeedbackFacts.

Module SharedDirFacts.
Import SharedDir.

(** When the output directory is the certificate directory, the first run
    leaves its combined document among the certificates.  The documents the
    run reads are unchanged, but the listing is not: the second run takes
    the combined document for a certificate, finds no row for it, and
    reports one success out of two. *)
Example second_run_lists_the_output_of_the_first :
  last (fst (fst (merge_pdfs_logic world paths store)))
  = Some (Log INFO (summary 1 1))
  /\ Forall (fun p => snd (fst (merge_pdfs_logic world paths store)) !! p
                      = store !! p)
            (input_paths world paths)
  /\ listdir world_later (cert_dir paths) <> listdir world (cert_dir paths)
  /\ ~ same_surroundings paths world world_later
  /\ last (fst (fst (merge_pdfs_logic world_later paths
                       (snd (fst (merge_pdfs_logic world paths store))))))
     = Some (Log INFO (summary 1 2))
  /\ written_docs
       (fst (fst (merge_pdfs_logic world_later paths
                    (snd (fst (merge_pdfs_logic world paths store))))))
     = written_docs (fst (fst (merge_pdfs_logic world paths store))).
Proof.
  split; [vm_compute; reflexivity|]. split; [vm_compute; repeat constructor|].
  split; [discriminate|]. split; [intros (_ & H & _); discriminate H|].
  split; vm_compute; reflexivity.
Qed.

End SharedDirFacts.

Module PyStrExamples.
Import PyStr OsPath.

Example strip_both :
  strip ("  Alice Smith " ++ String (ascii_of_nat 9) EmptyString) = "Alice Smith".
Proof. reflexivity. Qed.

Example strip_blank : strip "   " = EmptyString.
Proof. reflexivity. Qed.

Example lower_ext : lower "Alice.PDF" = "alice.pdf".
Proof. reflexivity. Qed.

Example endswith_pdf : endswith (lower "Alice.Pdf") ".pdf" = true.
Proof. reflexivity. Qed.

Example endswith_short : endswith "pdf" ".pdf" = false.
Proof. reflexivity. Qed.

Example splitext_plain : splitext "Alice.pdf" = ("Alice", ".pdf").
Proof. reflexivity. Qed.

Example splitext_two_dots : splitext "A.B.pdf" = ("A.B", ".pdf").
Proof. reflexivity. Qed.

Example splitext_leading_dot : splitext ".pdf" = (".pdf", EmptyString).
Proof. reflexivity. Qed.

Example splitext_dir : splitext "a.b/c" = ("a.b/c", EmptyString).
Proof. reflexivity. Qed.

Example join_plain : join "/out" "Alice_combined.pdf" = "/out/Alice_combined.pdf".
Proof. reflexivity. Qed.

Example join_trailing_sep : join "/out/" "x.pdf" = "/out/x.pdf".
Proof. reflexivity. Qed.

Example join_absolute : join "/challans" "/etc/x.pdf" = "/etc/x.pdf".
Proof. reflexivity. Qed.

Example str_of_nat_12 : str_of_nat 12 = "12".
Proof. reflexivity. Qed.

Example str_of_Z_neg : str_of_Z (-101) = "-101".
Proof. reflexivity. Qed.

Example str_of_Z_zero : str_of_Z 0 = "0".
Proof. reflexivity. Qed.

Example repr_list_cols :
  repr_list ["Employee Name"; "Unnamed: 1"] = "['Employee Name', 'Unnamed: 1']".
Proof. reflexivity. Qed.

End PyStrExamples.

(* ===================================================================== *)
(** ** What a run leaves alone *)
(* ===================================================================== *)

Lemma stored_paths_app t1 t2 :
  stored_paths (t1 ++ t2) = (stored_paths t1 ++ stored_paths t2)%list.
Proof.
  induction t1 as [|a t1 IH]; [reflexivity|].
  destruct a; simpl; now rewrite ?IH.
Qed.

Lemma stored_paths_logs t : Forall is_log t -> stored_paths t = [].
Proof.
  induction 1 as [|a t Ha _ IH]; [reflexivity|].
  destruct a; simpl in *; [exact IH | contradiction].
Qed.

(** A path no action stores at keeps its file. *)
Lemma replay_untouched t fs p :
  p ∉ stored_paths t -> replay t fs !! p = fs !! p.
Proof.
  revert fs. induction t as [|a t IH]; intros fs Hp; [reflexivity|].
  destruct a as [l m|q f]; simpl in *; [now apply IH|].
  apply not_elem_of_cons in Hp as [Hne Hp].
  rewrite IH by exact Hp. now apply lookup_insert_ne.
Qed.

(** A turn stores at the output path of its certificate and nowhere else. *)
Lemma process_certificate_stores w paths df f n fs :
  Forall (fun p => p = output_path_of paths f)
         (stored_paths (fst (fst (process_certificate w paths df f n fs)))).
Proof.
  pose proof (process_certificate_boundary w paths df f n fs) as Hb.
  pose proof (merge_one_inv w paths df f (employee_of f) n fs) as Hinv.
  destruct (merge_one w paths df f (employee_of f) n fs) as [[t fs1] r] eqn:Hrun.
  assert (Ht : Forall (fun p => p = output_path_of paths f) (stored_paths t)).
  { inversion Hinv; subst; simpl;
      rewrite ?stored_paths_app, ?stored_paths_logs
        by (first [assumption | apply challan_records_log]);
      simpl; repeat constructor. }
  destruct r as [e|n']; rewrite Hb; simpl.
  - rewrite stored_paths_app. simpl. now rewrite app_nil_r.
  - exact Ht.
Qed.

Lemma process_all_stores w paths df certs : forall n fs,
  Forall (fun p => exists f, f ∈ certs /\ p = output_path_of paths f)
         (stored_paths (fst (fst (process_all w paths df certs n fs)))).
Proof.
  induction certs as [|c certs IH]; intros n fs; [constructor|].
  pose proof (process_certificate_stores w paths df c n fs) as Hc.
  destruct (process_certificate_count w paths df c n fs)
    as (t1 & fs1 & n1 & H1 & _ & _).
  rewrite H1 in Hc. simpl in Hc.
  specialize (IH n1 fs1).
  simpl. erewrite bind_inr by exact H1.
  destruct (process_all w paths df certs n1 fs1) as [[t2 fs2] r2].
  simpl in *. rewrite stored_paths_app. apply Forall_app. split.
  - eapply Forall_impl; [exact Hc|]. intros p ->. exists c.
    split; [apply elem_of_cons; now left | reflexivity].
  - eapply Forall_impl; [exact IH|]. intros p (f & Hf & ->). exists f.
    split; [apply elem_of_cons; now right | reflexivity].
Qed.

(** X1.  Among the documents of the store (the certificates, the challans,
    the combined documents), a path whose document differs after a run is
    the output path of a certificate of the work list: the run leaves every
    other document as it was, the certificates and challans it reads among
    them unless an output path coincides with theirs.  The records the run
    logs are the [Log] actions of its trace; the text file the handlers of
    [setup_logging] write them to is not a document of the store, and the
    statement does not bear on it. *)
Theorem X1_run_changes_documents_only_at_output_paths_of_the_work_list
    (w : World) (paths : Paths) (fs fs' : gmap string File)
    (t : list Action) (r : Exn + unit) (p : string) :
  merge_pdfs_logic w paths fs = (t, fs', r) ->
  fs' !! p <> fs !! p ->
  exists names f,
    listdir w (cert_dir paths) = inr names
    /\ f ∈ pdf_names names
    /\ p = output_path_of paths f.
Proof.
  intros Hrun Hdiff.
  destruct (read_excel w (excel_file paths)) as [e|df0] eqn:Hread.
  { rewrite (merge_pdfs_logic_read_raises w paths fs e Hread) in Hrun.
    injection Hrun as _ <- _. contradiction. }
  destruct (validated df0) eqn:Hval.
  2:{ rewrite (merge_pdfs_logic_schema_error w paths df0 fs Hread Hval) in Hrun.
      injection Hrun as _ <- _. contradiction. }
  destruct (listdir w (cert_dir paths)) as [e|names] eqn:Hlist.
  { rewrite (merge_pdfs_logic_listdir_raises w paths df0 fs e Hread Hval Hlist) in Hrun.
    injection Hrun as _ <- _. contradiction. }
  exists names.
  pose proof (process_all_stores w paths (strip_columns df0) (pdf_names names) 0 fs)
    as Hst.
  destruct (process_all_count w paths (strip_columns df0) (pdf_names names) 0 fs)
    as (t0 & fs0 & n0 & Hall & Hfs0 & _).
  rewrite Hall in Hst. simpl in Hst.
  rewrite (merge_pdfs_logic_completed w paths df0 names fs t0 fs0 n0
             Hread Hval Hlist Hall) in Hrun.
  injection Hrun as _ <- _.
  destruct (decide (p ∈ stored_paths t0)) as [Hin|Hout].
  - rewrite Forall_forall in Hst. destruct (Hst p Hin) as (f & Hf & ->).
    exists f. auto.
  - exfalso. apply Hdiff. rewrite Hfs0. now apply replay_untouched.
Qed.

Lemma X1_witness :
  merge_pdfs_logic Scenario.world Scenario.paths Scenario.store
  = (fst (fst Scenario.first_run), snd (fst Scenario.first_run), snd Scenario.first_run)
  /\ snd (fst Scenario.first_run) !! "/out/Bob_combined.pdf"
     <> Scenario.store !! "/out/Bob_combined.pdf"
  /\ exists names f,
       listdir Scenario.world (cert_dir Scenario.paths) = inr names
       /\ f ∈ pdf_names names
       /\ "/out/Bob_combined.pdf" = output_path_of Scenario.paths f.
Proof.
  assert (Hrun : merge_pdfs_logic Scenario.world Scenario.paths Scenario.store
                 = (fst (fst Scenario.first_run), snd (fst Scenario.first_run),
                    snd Scenario.first_run)).
  { unfold Scenario.first_run.
    now destruct (merge_pdfs_logic Scenario.world Scenario.paths Scenario.store)
      as [[? ?] ?]. }
  assert (Hdiff : snd (fst Scenario.first_run) !! "/out/Bob_combined.pdf"
                  <> Scenario.store !! "/out/Bob_combined.pdf").
  { vm_compute. discriminate. }
  split; [exact Hrun|]. split; [exact Hdiff|].
  exact (X1_run_changes_documents_only_at_output_paths_of_the_work_list
           Scenario.world Scenario.paths Scenario.store
           (snd (fst Scenario.first_run)) (fst (fst Scenario.first_run))
           (snd Scenario.first_run) "/out/Bob_combined.pdf" Hrun Hdiff).
Defined.

(* ===================================================================== *)
(** ** The ways a turn fails (lines 101, 110, 130-131, 136-138) *)
(* ===================================================================== *)

(** Line 101 when the label names several columns. *)
Lemma select_rows_repeated df label name i j rest :
  label_positions (df_columns df) label = i :: j :: rest ->
  select_rows df label name = inl no_str_accessor.
Proof. intros H. unfold select_rows. now rewrite H. Qed.

Lemma process_certificate_repeated_label w paths df f n fs i j rest :
  label_positions (df_columns df) employee_col_name = i :: j :: rest ->
  process_certificate w paths df f n fs =
    ([Log INFO (processing_msg (employee_of f));
      Log ERROR (critical_msg w (employee_of f) no_str_accessor)], fs, inr n).
Proof.
  intros H.
  assert (Hm : merge_one w paths df f (employee_of f) n fs
               = ([], fs, inl no_str_accessor)).
  { unfold merge_one. apply bind_inl. unfold lift.
    now rewrite (select_rows_repeated df _ _ i j rest H). }
  now rewrite (process_certificate_catches w paths df f n fs _ _ _ Hm).
Qed.

(** X2.  When the stripped labels name 'Employee Name' more than once, the
    validation of line 78 passes, yet no certificate can be matched: for
    every certificate of the work list the run logs one error record naming
    the person, it writes nothing, and it ends with the summary
    [0 out of total]. *)
Theorem X2_repeated_employee_label_fails_every_certificate
    (w : World) (paths : Paths) (df0 : DataFrame) (names : list string)
    (fs : gmap string File) (i j : nat) (rest : list nat) :
  read_excel w (excel_file paths) = inr df0 ->
  validated df0 = true ->
  listdir w (cert_dir paths) = inr names ->
  label_positions (df_columns (strip_columns df0)) employee_col_name
  = i :: j :: rest ->
  merge_pdfs_logic w paths fs =
    (prelude paths
     ++ [Log INFO loaded_msg; Log INFO (found_msg (length (pdf_names names)))]
     ++ flat_map (fun f => [Log INFO (processing_msg (employee_of f));
                            Log ERROR (critical_msg w (employee_of f) no_str_accessor)])
                 (pdf_names names)
     ++ [Log INFO "--- Process Complete ---";
         Log INFO (summary 0 (length (pdf_names names)))],
     fs, inr tt)%list.
Proof.
  intros Hread Hval Hlist Hrep.
  apply (merge_pdfs_logic_completed w paths df0 names fs _ fs 0 Hread Hval Hlist).
  generalize 0 as n. induction (pdf_names names) as [|f certs IH]; intros n.
  - reflexivity.
  - simpl.
    erewrite bind_inr
      by (apply process_certificate_repeated_label with (i := i) (j := j) (rest := rest);
          exact Hrep).
    now rewrite IH.
Qed.

Section FailingTurn.

Variable w : World.
Variable paths : Paths.
Variable df : DataFrame.
Variable f : string.
Variable n : nat.
Variable fs : gmap string File.
Variable ids : list string.
Hypothesis Hlookup : lookup_challans w df (employee_of f) = inr ids.
Hypothesis Hrows : ids <> [].

(** The certificate is not a readable document. *)
Lemma merge_one_cert_error :
  (forall pages, fs !! cert_path_of paths f <> Some (Pdf pages)) ->
  merge_one w paths df f (employee_of f) n fs
  = ([], fs, inl (cert_error paths fs f)).
Proof.
  intros Hcert.
  destruct (lookup_challans_rows w df _ ids Hlookup Hrows)
    as (sel & Hsel & Hempty & Hids).
  pose proof (merge_one_inv w paths df f (employee_of f) n fs) as Hinv.
  unfold cert_error.
  destruct (merge_one w paths df f (employee_of f) n fs) as [[t fs1] r].
  destruct (fs !! cert_path_of paths f) as [[pages|]|] eqn:Hfs.
  - exfalso. now apply (Hcert pages).
  - inversion Hinv; subst; try congruence.
  - inversion Hinv; subst; try congruence.
Qed.

(** The certificate is readable and the output file cannot be opened. *)
Lemma merge_one_open_refused cert e :
  fs !! cert_path_of paths f = Some (Pdf cert) ->
  open_wb w (output_path_of paths f) = Some e ->
  merge_one w paths df f (employee_of f) n fs
  = (Log INFO (added_cert_msg f) :: map (challan_record w paths fs) ids,
     fs, inl e).
Proof.
  intros Hcert Hopen.
  destruct (lookup_challans_rows w df _ ids Hlookup Hrows)
    as (sel & Hsel & Hempty & Hids).
  pose proof (merge_one_inv w paths df f (employee_of f) n fs) as Hinv.
  unfold output_path_of in Hopen.
  fold (combined_path paths (employee_of f)) in Hopen.
  destruct (merge_one w paths df f (employee_of f) n fs) as [[t fs1] r].
  inversion Hinv; subst; congruence.
Qed.

(** The output file opens and the write fails. *)
Lemma merge_one_write_fails cert e :
  fs !! cert_path_of paths f = Some (Pdf cert) ->
  open_wb w (output_path_of paths f) = None ->
  pdf_write w (output_path_of paths f) = Some e ->
  merge_one w paths df f (employee_of f) n fs
  = (Log INFO (added_cert_msg f) :: map (challan_record w paths fs) ids
       ++ [Store (output_path_of paths f) NotPdf],
     <[output_path_of paths f := NotPdf]> fs, inl e).
Proof.
  intros Hcert Hopen Hwrite.
  destruct (lookup_challans_rows w df _ ids Hlookup Hrows)
    as (sel & Hsel & Hempty & Hids).
  pose proof (merge_one_inv w paths df f (employee_of f) n fs) as Hinv.
  unfold output_path_of in Hopen, Hwrite.
  fold (combined_path paths (employee_of f)) in Hopen, Hwrite.
  destruct (merge_one w paths df f (employee_of f) n fs) as [[t fs1] r].
  inversion Hinv; subst; try congruence.
  assert (sel0 = sel) by congruence. subst.
  assert (ids0 = ids) by congruence.
  assert (e0 = e) by congruence. subst. reflexivity.
Qed.

End FailingTurn.

(** X3.  For a person with mapping rows whose certificate file holds no
    readable document (it is gone, or it is damaged), the turn logs one
    error record naming the person and the exception of [merger.append],
    reads no challan, writes nothing and leaves the count as it was. *)
Theorem X3_unreadable_certificate_is_an_error_and_nothing_is_written
    (w : World) (paths : Paths) (df : DataFrame) (f : string) (n : nat)
    (fs : gmap string File) (ids : list string) :
  lookup_challans w df (employee_of f) = inr ids ->
  ids <> [] ->
  (forall pages, fs !! OsPath.join (cert_dir paths) f <> Some (Pdf pages)) ->
  process_certificate w paths df f n fs =
    ([Log INFO (processing_msg (employee_of f));
      Log ERROR (critical_msg w (employee_of f) (cert_error paths fs f))],
     fs, inr n)
  /\ (cert_error paths fs f = FileNotFoundError (OsPath.join (cert_dir paths) f)
      \/ cert_error paths fs f = PdfReadError (OsPath.join (cert_dir paths) f)).
Proof.
  intros Hlook Hne Hcert. split.
  - now rewrite (process_certificate_catches w paths df f n fs _ _ _
                   (merge_one_cert_error w paths df f n fs ids Hlook Hne Hcert)).
  - unfold cert_error, cert_path_of.
    destruct (fs !! OsPath.join (cert_dir paths) f) as [[?|]|]; auto.
Qed.

(** X4.  When the output file cannot be opened (line 130), the turn has
    read the certificate and gone through the challans, and then logs one
    error record naming the person and the exception; no file is created or
    changed and the count stays. *)
Theorem X4_output_that_cannot_be_opened_changes_nothing
    (w : World) (paths : Paths) (df : DataFrame) (f : string) (n : nat)
    (fs : gmap string File) (ids : list string) (cert : list Page) (e : Exn) :
  lookup_challans w df (employee_of f) = inr ids ->
  ids <> [] ->
  fs !! OsPath.join (cert_dir paths) f = Some (Pdf cert) ->
  open_wb w (output_path_of paths f) = Some e ->
  process_certificate w paths df f n fs =
    (Log INFO (processing_msg (employee_of f))
       :: Log INFO (added_cert_msg f)
       :: map (challan_record w paths fs) ids
       ++ [Log ERROR (critical_msg w (employee_of f) e)],
     fs, inr n)
  /\ stored_paths (fst (fst (process_certificate w paths df f n fs))) = [].
Proof.
  intros Hlook Hne Hcert Hopen.
  assert (Hrun : process_certificate w paths df f n fs =
    (Log INFO (processing_msg (employee_of f))
       :: Log INFO (added_cert_msg f)
       :: map (challan_record w paths fs) ids
       ++ [Log ERROR (critical_msg w (employee_of f) e)],
     fs, inr n)).
  { now rewrite (process_certificate_catches w paths df f n fs _ _ _
                   (merge_one_open_refused w paths df f n fs ids Hlook Hne
                      cert e Hcert Hopen)). }
  split; [exact Hrun|]. rewrite Hrun. simpl.
  rewrite stored_paths_app, (stored_paths_logs _ (challan_records_log w paths fs ids)).
  reflexivity.
Qed.

(** X5.  When the output file opens and [merger.write] fails (line 131),
    the file is left truncated: the output path holds no readable document
    afterwards, whatever it held before; no document is written, the count
    stays, and one error record names the person and the exception. *)
Theorem X5_failed_write_leaves_a_truncated_output
    (w : World) (paths : Paths) (df : DataFrame) (f : string) (n : nat)
    (fs : gmap string File) (ids : list string) (cert : list Page) (e : Exn) :
  lookup_challans w df (employee_of f) = inr ids ->
  ids <> [] ->
  fs !! OsPath.join (cert_dir paths) f = Some (Pdf cert) ->
  open_wb w (output_path_of paths f) = None ->
  pdf_write w (output_path_of paths f) = Some e ->
  exists t fs',
    process_certificate w paths df f n fs = (t, fs', inr n)
    /\ fs' = <[output_path_of paths f := NotPdf]> fs
    /\ fs' !! output_path_of paths f = Some NotPdf
    /\ written_docs t = []
    /\ stored_paths t = [output_path_of paths f]
    /\ messages_at ERROR t = [critical_msg w (employee_of f) e].
Proof.
  intros Hlook Hne Hcert Hopen Hwrite.
  eexists _, _. split.
  { apply process_certificate_catches.
    apply (merge_one_write_fails w paths df f n fs ids Hlook Hne cert e
             Hcert Hopen Hwrite). }
  pose proof (challan_records_log w paths fs ids) as Hlog.
  split; [reflexivity|]. split; [apply lookup_insert_eq|].
  split; [|split].
  - simpl. rewrite !written_docs_app, (written_docs_logs _ Hlog).
    reflexivity.
  - simpl. rewrite !stored_paths_app, (stored_paths_logs _ Hlog).
    reflexivity.
  - rewrite messages_at_log_other by discriminate.
    change ((Log INFO (added_cert_msg f)
               :: map (challan_record w paths fs) ids
               ++ [Store (output_path_of paths f) NotPdf])
            ++ [Log ERROR (critical_msg w (employee_of f) e)])%list
      with (Log INFO (added_cert_msg f)
              :: (map (challan_record w paths fs) ids
                  ++ [Store (output_path_of paths f) NotPdf])
              ++ [Log ERROR (critical_msg w (employee_of f) e)])%list.
    rewrite messages_at_log_other by discriminate.
    rewrite !messages_at_app.
    assert (Hnone : messages_at ERROR (map (challan_record w paths fs) ids) = []).
    { clear. induction ids as [|id l IH]; [reflexivity|].
      simpl. unfold challan_record at 1.
      destruct (fs !! challan_path paths id) as [[?|]|];
        rewrite messages_at_log_other by discriminate; exact IH. }
    rewrite Hnone. reflexivity.
Qed.

Lemma X2_witness :
  read_excel EdgeCases.world_repeated_label (excel_file Scenario.paths)
  = inr EdgeCases.frame_repeated_label
  /\ validated EdgeCases.frame_repeated_label = true
  /\ listdir EdgeCases.world_repeated_label (cert_dir Scenario.paths)
     = inr ["Alice.pdf"; "Bob.pdf"; "Carol.pdf"; "notes.txt"]
  /\ label_positions (df_columns (strip_columns EdgeCases.frame_repeated_label))
                     employee_col_name = [0; 1]
  /\ merge_pdfs_logic EdgeCases.world_repeated_label Scenario.paths Scenario.store =
       (prelude Scenario.paths
        ++ [Log INFO loaded_msg;
            Log INFO (found_msg (length (pdf_names ["Alice.pdf"; "Bob.pdf";
                                                    "Carol.pdf"; "notes.txt"])))]
        ++ flat_map
             (fun f => [Log INFO (processing_msg (employee_of f));
                        Log ERROR (critical_msg EdgeCases.world_repeated_label
                                                (employee_of f) no_str_accessor)])
             (pdf_names ["Alice.pdf"; "Bob.pdf"; "Carol.pdf"; "notes.txt"])
        ++ [Log INFO "--- Process Complete ---";
            Log INFO (summary 0 (length (pdf_names ["Alice.pdf"; "Bob.pdf";
                                                    "Carol.pdf"; "notes.txt"])))],
        Scenario.store, inr tt)%list.
Proof.
  split; [reflexivity|]. split; [reflexivity|]. split; [reflexivity|].
  split; [reflexivity|].
  apply (X2_repeated_employee_label_fails_every_certificate
           EdgeCases.world_repeated_label Scenario.paths
           EdgeCases.frame_repeated_label
           ["Alice.pdf"; "Bob.pdf"; "Carol.pdf"; "notes.txt"] Scenario.store 0 1 []);
    reflexivity.
Defined.

Lemma X3_witness :
  lookup_challans Scenario.world (strip_columns Scenario.frame)
                  (employee_of "Alice.pdf") = inr ["101"; "102"]
  /\ ["101"; "102"] <> @nil string
  /\ EdgeCases.store_damaged_cert
       !! OsPath.join (cert_dir Scenario.paths) "Alice.pdf" = Some NotPdf
  /\ process_certificate Scenario.world Scenario.paths
       (strip_columns Scenario.frame) "Alice.pdf" 0 EdgeCases.store_damaged_cert =
       ([Log INFO (processing_msg (employee_of "Alice.pdf"));
         Log ERROR (critical_msg Scenario.world (employee_of "Alice.pdf")
                      (cert_error Scenario.paths EdgeCases.store_damaged_cert
                                  "Alice.pdf"))],
        EdgeCases.store_damaged_cert, inr 0)
  /\ (cert_error Scenario.paths EdgeCases.store_damaged_cert "Alice.pdf"
      = FileNotFoundError (OsPath.join (cert_dir Scenario.paths) "Alice.pdf")
      \/ cert_error Scenario.paths EdgeCases.store_damaged_cert "Alice.pdf"
         = PdfReadError (OsPath.join (cert_dir Scenario.paths) "Alice.pdf")).
Proof.
  assert (Hcert : EdgeCases.store_damaged_cert
                    !! OsPath.join (cert_dir Scenario.paths) "Alice.pdf"
                  = Some NotPdf) by reflexivity.
  split; [reflexivity|]. split; [discriminate|]. split; [exact Hcert|].
  apply (X3_unreadable_certificate_is_an_error_and_nothing_is_written
           Scenario.world Scenario.paths (strip_columns Scenario.frame)
           "Alice.pdf" 0 EdgeCases.store_damaged_cert ["101"; "102"]);
    [reflexivity | discriminate |].
  intros pages. rewrite Hcert. discriminate.
Defined.

Lemma X4_witness :
  lookup_challans EdgeCases.world_refusing_open (strip_columns Scenario.frame)
                  (employee_of "Bob.pdf") = inr ["201"]
  /\ ["201"] <> @nil string
  /\ Scenario.store !! OsPath.join (cert_dir Scenario.paths) "Bob.pdf"
     = Some (Pdf ["Bob p1"; "Bob p2"])
  /\ open_wb EdgeCases.world_refusing_open (output_path_of Scenario.paths "Bob.pdf")
     = Some (OSError "/out/Bob_combined.pdf")
  /\ process_certificate EdgeCases.world_refusing_open Scenario.paths
       (strip_columns Scenario.frame) "Bob.pdf" 1 Scenario.store =
       (Log INFO (processing_msg (employee_of "Bob.pdf"))
          :: Log INFO (added_cert_msg "Bob.pdf")
          :: map (challan_record EdgeCases.world_refusing_open Scenario.paths
                                 Scenario.store) ["201"]
          ++ [Log ERROR (critical_msg EdgeCases.world_refusing_open
                           (employee_of "Bob.pdf") (OSError "/out/Bob_combined.pdf"))],
        Scenario.store, inr 1)
  /\ stored_paths
       (fst (fst (process_certificate EdgeCases.world_refusing_open Scenario.paths
                    (strip_columns Scenario.frame) "Bob.pdf" 1 Scenario.store))) = [].
Proof.
  split; [reflexivity|]. split; [discriminate|]. split; [reflexivity|].
  split; [reflexivity|].
  apply (X4_output_that_cannot_be_opened_changes_nothing
           EdgeCases.world_refusing_open Scenario.paths (strip_columns Scenario.frame)
           "Bob.pdf" 1 Scenario.store ["201"] ["Bob p1"; "Bob p2"]
           (OSError "/out/Bob_combined.pdf"));
    [reflexivity | discriminate | reflexivity | reflexivity].
Defined.

Lemma X5_witness :
  lookup_challans EdgeCases.world_failing_write (strip_columns Scenario.frame)
                  (employee_of "Alice.pdf") = inr ["101"; "102"]
  /\ ["101"; "102"] <> @nil string
  /\ EdgeCases.store_with_old_output
       !! OsPath.join (cert_dir Scenario.paths) "Alice.pdf" = Some (Pdf ["Alice p1"])
  /\ open_wb EdgeCases.world_failing_write (output_path_of Scenario.paths "Alice.pdf")
     = None
  /\ pdf_write EdgeCases.world_failing_write (output_path_of Scenario.paths "Alice.pdf")
     = Some (OSError "/out/Alice_combined.pdf")
  /\ EdgeCases.store_with_old_output !! output_path_of Scenario.paths "Alice.pdf"
     = Some (Pdf ["old page"])
  /\ exists t fs',
       process_certificate EdgeCases.world_failing_write Scenario.paths
         (strip_columns Scenario.frame) "Alice.pdf" 0 EdgeCases.store_with_old_output
       = (t, fs', inr 0)
       /\ fs' = <[output_path_of Scenario.paths "Alice.pdf" := NotPdf]>
                  EdgeCases.store_with_old_output
       /\ fs' !! output_path_of Scenario.paths "Alice.pdf" = Some NotPdf
       /\ written_docs t = []
       /\ stored_paths t = [output_path_of Scenario.paths "Alice.pdf"]
       /\ messages_at ERROR t
          = [critical_msg EdgeCases.world_failing_write (employee_of "Alice.pdf")
               (OSError "/out/Alice_combined.pdf")].
Proof.
  split; [reflexivity|]. split; [discriminate|]. split; [reflexivity|].
  split; [reflexivity|]. split; [reflexivity|]. split; [reflexivity|].
  apply (X5_failed_write_leaves_a_truncated_output
           EdgeCases.world_failing_write Scenario.paths (strip_columns Scenario.frame)
           "Alice.pdf" 0 EdgeCases.store_with_old_output ["101"; "102"] ["Alice p1"]
           (OSError "/out/Alice_combined.pdf"));
    [reflexivity | discriminate | reflexivity | reflexivity | reflexivity].
Defined.

(* ===================================================================== *)
(** ** The records of the challan loop (lines 118-125) *)
(* ===================================================================== *)

Section ChallanRecords.

Variable w : World.
Variable paths : Paths.
Variable fs : gmap string File.

Lemma challan_records_warnings ids :
  messages_at WARNING (map (challan_record w paths fs) ids)
  = flat_map (challan_warning w paths fs) ids.
Proof.
  induction ids as [|id ids IH]; [reflexivity|].
  simpl. unfold challan_record at 1, challan_warning at 1, could_not_merge_msg,
           not_found_msg.
  destruct (fs !! challan_path paths id) as [[?|]|].
  - rewrite messages_at_log_other by discriminate. exact IH.
  - unfold messages_at in *. simpl. now rewrite IH.
  - unfold messages_at in *. simpl. now rewrite IH.
Qed.

Lemma challan_records_errors ids :
  messages_at ERROR (map (challan_record w paths fs) ids) = [].
Proof.
  induction ids as [|id ids IH]; [reflexivity|].
  simpl. unfold challan_record at 1.
  destruct (fs !! challan_path paths id) as [[?|]|];
    rewrite messages_at_log_other by discriminate; exact IH.
Qed.

Lemma challan_records_infos ids :
  messages_at INFO (map (challan_record w paths fs) ids)
  = map added_challan_msg
        (List.filter (fun id => has_document fs (challan_path paths id)) ids).
Proof.
  induction ids as [|id ids IH]; [reflexivity|].
  simpl. unfold challan_record at 1, has_document at 1.
  destruct (fs !! challan_path paths id) as [[pages|]|].
  - unfold messages_at in *. simpl. now rewrite IH.
  - rewrite messages_at_log_other by discriminate. exact IH.
  - rewrite messages_at_log_other by discriminate. exact IH.
Qed.

End ChallanRecords.

(** X6.  In a turn that merges, every challan id of the person yields
    exactly one record, in order: 'Added challan' when its file is a
    readable document, a warning when the file is missing or cannot be
    read, never an error.  The combined document holds, after the
    certificate, the pages of exactly the challans reported as added. *)
Theorem X6_merging_turn_logs_one_record_per_challan
    (w : World) (paths : Paths) (df : DataFrame) (f : string) (n : nat)
    (fs : gmap string File) (ids : list string) (cert : list Page) :
  lookup_challans w df (employee_of f) = inr ids ->
  ids <> [] ->
  fs !! OsPath.join (cert_dir paths) f = Some (Pdf cert) ->
  open_wb w (output_path_of paths f) = None ->
  pdf_write w (output_path_of paths f) = None ->
  exists t fs',
    process_certificate w paths df f n fs = (t, fs', inr (n + 1))
    /\ messages_at WARNING t = flat_map (challan_warning w paths fs) ids
    /\ messages_at ERROR t = []
    /\ messages_at INFO t =
         ([processing_msg (employee_of f); added_cert_msg f]
          ++ map added_challan_msg
                 (List.filter (fun id => has_document fs (challan_path paths id)) ids)
          ++ [created_msg (output_path_of paths f)])%list
    /\ written_docs t =
         [(output_path_of paths f,
           (cert ++ concat
              (map (fun id => pages_at fs (challan_path paths id))
                   (List.filter (fun id => has_document fs (challan_path paths id))
                                ids)))%list)].
Proof.
  intros Hlook Hne Hcert Hopen Hwrite.
  destruct (lookup_challans_rows w df _ ids Hlook Hne)
    as (sel & Hsel & Hempty & Hids).
  assert (Hm : turn_merges w paths df f fs cert ids).
  { exists sel. repeat split; assumption. }
  eexists _, _. split; [apply process_certificate_merged; exact Hm|].
  rewrite written_docs_merged_trace. unfold merged_trace.
  split; [|split; [|split; [|]]].
  - rewrite !messages_at_log_other by discriminate.
    rewrite messages_at_app, challan_records_warnings.
    unfold messages_at. simpl. apply app_nil_r.
  - rewrite !messages_at_log_other by discriminate.
    rewrite messages_at_app, challan_records_errors. reflexivity.
  - change (messages_at INFO
              ([Log INFO (processing_msg (employee_of f));
                Log INFO (added_cert_msg f)]
               ++ map (challan_record w paths fs) ids
               ++ [Store (output_path_of paths f) NotPdf;
                   Store (output_path_of paths f)
                         (Pdf (combined_doc paths fs cert ids));
                   Log INFO (created_msg (output_path_of paths f))])%list
            = ([processing_msg (employee_of f); added_cert_msg f]
               ++ map added_challan_msg
                      (List.filter (fun id => has_document fs (challan_path paths id))
                                   ids)
               ++ [created_msg (output_path_of paths f)])%list).
    rewrite !messages_at_app, challan_records_infos. reflexivity.
  - do 2 f_equal. unfold combined_doc. f_equal.
    clear. induction ids as [|id ids IH]; [reflexivity|].
    simpl. unfold has_document at 1, pages_at at 1.
    destruct (fs !! challan_path paths id) as [[pages|]|] eqn:Hid; simpl.
    + unfold pages_at at 2. rewrite Hid. now rewrite IH.
    + exact IH.
    + exact IH.
Qed.

Lemma X6_witness :
  lookup_challans Scenario.world (strip_columns Scenario.frame)
                  (employee_of "Alice.pdf") = inr ["101"; "102"]
  /\ ["101"; "102"] <> @nil string
  /\ Scenario.store_damaged_challan
       !! OsPath.join (cert_dir Scenario.paths) "Alice.pdf" = Some (Pdf ["Alice p1"])
  /\ open_wb Scenario.world (output_path_of Scenario.paths "Alice.pdf") = None
  /\ pdf_write Scenario.world (output_path_of Scenario.paths "Alice.pdf") = None
  /\ exists t fs',
       process_certificate Scenario.world Scenario.paths
         (strip_columns Scenario.frame) "Alice.pdf" 0 Scenario.store_damaged_challan
       = (t, fs', inr (0 + 1))
       /\ messages_at WARNING t
          = flat_map (challan_warning Scenario.world Scenario.paths
                                      Scenario.store_damaged_challan) ["101"; "102"]
       /\ messages_at ERROR t = []
       /\ messages_at INFO t =
            ([processing_msg (employee_of "Alice.pdf"); added_cert_msg "Alice.pdf"]
             ++ map added_challan_msg
                    (List.filter
                       (fun id => has_document Scenario.store_damaged_challan
                                               (challan_path Scenario.paths id))
                       ["101"; "102"])
             ++ [created_msg (output_path_of Scenario.paths "Alice.pdf")])%list
       /\ written_docs t =
            [(output_path_of Scenario.paths "Alice.pdf",
              (["Alice p1"]
               ++ concat
                    (map (fun id => pages_at Scenario.store_damaged_challan
                                             (challan_path Scenario.paths id))
                         (List.filter
                            (fun id => has_document Scenario.store_damaged_challan
                                                    (challan_path Scenario.paths id))
                            ["101"; "102"])))%list)].
Proof.
  split; [reflexivity|]. split; [discriminate|]. split; [reflexivity|].
  split; [reflexivity|]. split; [reflexivity|].
  apply (X6_merging_turn_logs_one_record_per_challan
           Scenario.world Scenario.paths (strip_columns Scenario.frame)
           "Alice.pdf" 0 Scenario.store_damaged_challan ["101"; "102"] ["Alice p1"]);
    [reflexivity | discriminate | reflexivity | reflexivity | reflexivity].
Defined.

(* ===================================================================== *)
(** ** An empty work list (lines 93-96, 140-141) *)
(* ===================================================================== *)

(** X7.  When the certificate directory lists no name ending in [.pdf]
    (whatever the case of the extension), the run processes nothing: after
    the opening records it logs 'Found 0 PDF files', 'Process Complete' and
    the summary [0 out of 0], and the file store is untouched. *)
Theorem X7_no_certificate_gives_an_empty_run
    (w : World) (paths : Paths) (df0 : DataFrame) (names : list string)
    (fs : gmap string File) :
  read_excel w (excel_file paths) = inr df0 ->
  validated df0 = true ->
  listdir w (cert_dir paths) = inr names ->
  pdf_names names = [] ->
  merge_pdfs_logic w paths fs =
    (prelude paths
     ++ [Log INFO loaded_msg;
         Log INFO (found_msg 0);
         Log INFO "--- Process Complete ---";
         Log INFO (summary 0 0)],
     fs, inr tt)%list.
Proof.
  intros Hread Hval Hlist Hnone.
  rewrite (merge_pdfs_logic_completed w paths df0 names fs [] fs 0
             Hread Hval Hlist) by (now rewrite Hnone).
  now rewrite Hnone.
Qed.

Lemma X7_witness :
  read_excel EdgeCases.world_no_documents (excel_file Scenario.paths)
  = inr Scenario.frame
  /\ validated Scenario.frame = true
  /\ listdir EdgeCases.world_no_documents (cert_dir Scenario.paths)
     = inr ["notes.txt"; "pdf"]
  /\ pdf_names ["notes.txt"; "pdf"] = []
  /\ merge_pdfs_logic EdgeCases.world_no_documents Scenario.paths Scenario.store =
       (prelude Scenario.paths
        ++ [Log INFO loaded_msg;
            Log INFO (found_msg 0);
            Log INFO "--- Process Complete ---";
            Log INFO (summary 0 0)],
        Scenario.store, inr tt)%list.
Proof.
  split; [reflexivity|]. split; [reflexivity|]. split; [reflexivity|].
  split; [reflexivity|].
  apply (X7_no_certificate_gives_an_empty_run
           EdgeCases.world_no_documents Scenario.paths Scenario.frame
           ["notes.txt"; "pdf"] Scenario.store);
    reflexivity.
Defined.

(* ===================================================================== *)
(** ** A challan number that is an absolute path (lines 115-120) *)
(* ===================================================================== *)

Lemma startswith_slash_app (x y : string) :
  PyStr.startswith x "/" = true -> PyStr.startswith (x ++ y) "/" = true.
Proof.
  unfold PyStr.startswith. destruct x as [|c x]; [discriminate|].
  rewrite append_cons. intros H. cbn [String.prefix] in *.
  destruct (ascii_dec "/" c); [|discriminate H].
  now destruct (x ++ y).
Qed.

(** X8.  When the trimmed challan number of a row begins with [/],
    [os.path.join] drops the challan directory: the file looked up, and
    appended when it is a readable document, is the one at
    [challan_num.pdf] itself, wherever the challan directory is. *)
Theorem X8_absolute_challan_number_leaves_the_challan_directory
    (w : World) (paths : Paths) (cols : list Cell) (row : list Cell)
    (j : nat) (s : string) (merger : list Page) (fs : gmap string File) :
  label_positions cols challan_col_name = [j] ->
  py_str (cell_at row j) = s ->
  PyStr.startswith (PyStr.strip s) "/" = true ->
  challan_path paths (PyStr.strip s) = PyStr.strip s ++ ".pdf"
  /\ append_challan w paths cols row merger fs =
       ([challan_record w paths fs (PyStr.strip s)], fs,
        inr (merger ++ pages_at fs (PyStr.strip s ++ ".pdf"))%list).
Proof.
  intros Hj Hcell Habs.
  assert (Hpath : challan_path paths (PyStr.strip s) = PyStr.strip s ++ ".pdf").
  { unfold challan_path, OsPath.join.
    now rewrite (startswith_slash_app _ ".pdf" Habs). }
  split; [exact Hpath|].
  assert (Hs : row_item_str w cols row challan_col_name = inr s).
  { unfold row_item_str. rewrite Hj, Hcell. reflexivity. }
  rewrite (append_challan_run w paths cols row merger fs s Hs).
  now rewrite Hpath.
Qed.

Lemma X8_witness :
  label_positions (df_columns (strip_columns Scenario.frame)) challan_col_name = [1]
  /\ py_str (cell_at [CStr "Eve"; CStr " /etc/secret"; CInt 1] 1) = " /etc/secret"
  /\ PyStr.startswith (PyStr.strip " /etc/secret") "/" = true
  /\ challan_path Scenario.paths (PyStr.strip " /etc/secret")
     = PyStr.strip " /etc/secret" ++ ".pdf"
  /\ append_challan Scenario.world Scenario.paths
       (df_columns (strip_columns Scenario.frame))
       [CStr "Eve"; CStr " /etc/secret"; CInt 1] ["Eve p1"]
       EdgeCases.store_with_outside_file =
       ([challan_record Scenario.world Scenario.paths
           EdgeCases.store_with_outside_file (PyStr.strip " /etc/secret")],
        EdgeCases.store_with_outside_file,
        inr (["Eve p1"]
             ++ pages_at EdgeCases.store_with_outside_file
                         (PyStr.strip " /etc/secret" ++ ".pdf"))%list).
Proof.
  split; [reflexivity|]. split; [reflexivity|]. split; [reflexivity|].
  apply (X8_absolute_challan_number_leaves_the_challan_directory
           Scenario.world Scenario.paths (df_columns (strip_columns Scenario.frame))
           [CStr "Eve"; CStr " /etc/secret"; CInt 1] 1 " /etc/secret" ["Eve p1"]
           EdgeCases.store_with_outside_file);
    reflexivity.
Defined.

Module EdgeCaseFacts.
Import Scenario EdgeCases.

(** The page from outside the challan directory ends up in the merger. *)
Example outside_file_is_appended :
  append_challan world paths (df_columns (strip_columns frame))
                 [CStr "Eve"; CStr " /etc/secret"; CInt 1] ["Eve p1"]
                 store_with_outside_file
  = ([Log INFO "  + Added challan: /etc/secret.pdf"], store_with_outside_file,
     inr ["Eve p1"; "secret page"]).
Proof. vm_compute. reflexivity. Qed.

End EdgeCaseFacts.

(* ===================================================================== *)
(** ** From a file name to a person (lines 93 and 97) *)
(* ===================================================================== *)

Lemma length_append (a b : string) :
  String.length (a ++ b) = String.length a + String.length b.
Proof.
  induction a as [|c a IH]; [reflexivity|].
  rewrite append_cons. simpl. now rewrite IH.
Qed.

Lemma substring_zero_zero (s : string) : substring 0 0 s = EmptyString.
Proof. now destruct s. Qed.

Lemma substring_full (s : string) : substring 0 (String.length s) s = s.
Proof. induction s as [|c s IH]; [reflexivity|]. simpl. now rewrite IH. Qed.

Lemma substring_app_prefix (a b : string) :
  substring 0 (String.length a) (a ++ b) = a.
Proof.
  induction a as [|c a IH]; [apply substring_zero_zero|].
  rewrite append_cons. simpl. now rewrite IH.
Qed.

Lemma substring_app_skip (a b : string) n m :
  substring (String.length a + n) m (a ++ b) = substring n m b.
Proof.
  induction a as [|c a IH]; [reflexivity|].
  rewrite append_cons. simpl. exact IH.
Qed.

Lemma substring_split (s : string) : forall n,
  n <= String.length s ->
  s = substring 0 n s ++ substring n (String.length s - n) s.
Proof.
  induction s as [|c s IH]; intros n Hn.
  - simpl in Hn. assert (n = 0) by lia. subst. reflexivity.
  - destruct n as [|n].
    + rewrite substring_zero_zero. simpl. now rewrite substring_full.
    + simpl in Hn. simpl. rewrite append_cons. f_equal. apply IH. lia.
Qed.

(** [s.endswith(p)] holds of the strings that end with [p]. *)
Lemma endswith_suffix (s p : string) :
  PyStr.endswith s p = true -> exists stem, s = stem ++ p.
Proof.
  unfold PyStr.endswith. intros H. apply andb_true_iff in H as [Hlen Heq].
  apply Nat.leb_le in Hlen. apply String.eqb_eq in Heq.
  exists (substring 0 (String.length s - String.length p) s).
  pose proof (substring_split s (String.length s - String.length p)) as Hsplit.
  replace (String.length s - (String.length s - String.length p))
    with (String.length p) in Hsplit by lia.
  rewrite Heq in Hsplit. apply Hsplit. lia.
Qed.

Lemma length_lower (s : string) : String.length (PyStr.lower s) = String.length s.
Proof. induction s as [|c s IH]; [reflexivity|]. simpl. now rewrite IH. Qed.

Lemma lower_app_inv (a b : string) : forall f,
  PyStr.lower f = a ++ b ->
  exists x y, f = x ++ y /\ PyStr.lower x = a /\ PyStr.lower y = b.
Proof.
  induction a as [|c a IH]; intros f H.
  - exists EmptyString, f. auto.
  - rewrite append_cons in H. destruct f as [|d f]; [discriminate|].
    simpl in H. injection H as Hc Hf.
    destruct (IH f Hf) as (x & y & -> & Hx & Hy).
    exists (String d x), y. rewrite append_cons. simpl. now rewrite Hc, Hx.
Qed.

(** Only the dot lowers to the dot, and neither the dot nor the slash
    lowers to a letter. *)
Lemma lower_char_dot c : PyStr.lower_char c = "."%char -> c = "."%char.
Proof.
  destruct c as [[] [] [] [] [] [] [] []]; vm_compute; intros H;
    first [reflexivity | discriminate H].
Qed.

Lemma lower_char_not_mark c l :
  PyStr.lower_char c = l -> l <> "."%char -> l <> "/"%char ->
  c <> "."%char /\ c <> "/"%char.
Proof.
  intros H Hdot Hslash. split; intros ->; vm_compute in H; congruence.
Qed.

(** The last index of a character, over a concatenation and in its
    absence. *)
Lemma rfind_from_app c (a b : string) : forall i last,
  PyStr.rfind_from c (a ++ b) i last
  = PyStr.rfind_from c b (i + Z.of_nat (String.length a))%Z
                     (PyStr.rfind_from c a i last).
Proof.
  induction a as [|d a IH]; intros i last.
  - simpl. now rewrite Z.add_0_r.
  - rewrite append_cons. simpl PyStr.rfind_from at 1. rewrite IH.
    simpl String.length. simpl PyStr.rfind_from at 3.
    f_equal. lia.
Qed.

Lemma rfind_from_absent c (s : string) : forall i last,
  PyStr.contains_char c s = false -> PyStr.rfind_from c s i last = last.
Proof.
  induction s as [|d s IH]; intros i last H; [reflexivity|].
  simpl in H. apply orb_false_iff in H as [Hd Hs].
  simpl. rewrite Hd. now apply IH.
Qed.

Lemma contains_char_app c (a b : string) :
  PyStr.contains_char c (a ++ b)
  = PyStr.contains_char c a || PyStr.contains_char c b.
Proof.
  induction a as [|d a IH]; [reflexivity|].
  rewrite append_cons. simpl. rewrite IH. now rewrite orb_assoc.
Qed.

(** The loop of [_splitext] over the characters before the last dot. *)
Lemma splitext_scan_app (s : string) : forall pre rest,
  OsPath.splitext_scan (pre ++ s ++ rest) (String.length pre) (String.length s)
  = has_non_dot s.
Proof.
  induction s as [|c s IH]; intros pre rest; [reflexivity|].
  simpl String.length. simpl OsPath.splitext_scan.
  replace (String.length pre) with (String.length pre + 0) at 1 by lia.
  rewrite substring_app_skip, append_cons. simpl substring.
  rewrite substring_zero_zero.
  change (String c EmptyString =? ".")%string
    with (Ascii.eqb c "." && (EmptyString =? EmptyString)%string).
  rewrite String.eqb_refl, andb_true_r. simpl has_non_dot.
  destruct (Ascii.eqb c "."); simpl; [|reflexivity].
  specialize (IH (pre ++ String c EmptyString) rest).
  rewrite length_append in IH. simpl in IH.
  replace (String.length pre + 1) with (S (String.length pre)) in IH by lia.
  rewrite append_assoc in IH. exact IH.
Qed.

(** [splitext] on a name without a slash that ends in a four-character
    extension whose last three characters are neither dots nor slashes. *)
Lemma splitext_extension (stem : string) (c2 c3 c4 : ascii) :
  PyStr.contains_char "/" stem = false ->
  c2 <> "."%char -> c3 <> "."%char -> c4 <> "."%char ->
  c2 <> "/"%char -> c3 <> "/"%char -> c4 <> "/"%char ->
  let ext := String "." (String c2 (String c3 (String c4 EmptyString))) in
  fst (OsPath.splitext (stem ++ ext))
  = if has_non_dot stem then stem else stem ++ ext.
Proof.
  intros Hstem H2 H3 H4 S2 S3 S4 ext.
  assert (E2 : Ascii.eqb "." c2 = false) by (apply Ascii.eqb_neq; congruence).
  assert (E3 : Ascii.eqb "." c3 = false) by (apply Ascii.eqb_neq; congruence).
  assert (E4 : Ascii.eqb "." c4 = false) by (apply Ascii.eqb_neq; congruence).
  assert (F2 : Ascii.eqb "/" c2 = false) by (apply Ascii.eqb_neq; congruence).
  assert (F3 : Ascii.eqb "/" c3 = false) by (apply Ascii.eqb_neq; congruence).
  assert (F4 : Ascii.eqb "/" c4 = false) by (apply Ascii.eqb_neq; congruence).
  assert (Hsep : PyStr.rfind "/" (stem ++ ext) = (-1)%Z).
  { unfold PyStr.rfind. apply rfind_from_absent.
    rewrite contains_char_app, Hstem. unfold ext.
    cbn [PyStr.contains_char]. rewrite F2, F3, F4. reflexivity. }
  assert (Hdot : PyStr.rfind "." (stem ++ ext) = Z.of_nat (String.length stem)).
  { unfold PyStr.rfind. rewrite rfind_from_app. unfold ext.
    cbn [PyStr.rfind_from]. rewrite E2, E3, E4, Ascii.eqb_refl. lia. }
  unfold OsPath.splitext. rewrite Hsep, Hdot.
  replace (-1 <? Z.of_nat (String.length stem))%Z with true
    by (symmetry; apply Z.ltb_lt; lia).
  replace (Z.to_nat (-1 + 1)) with (String.length EmptyString) by reflexivity.
  replace (Z.to_nat (Z.of_nat (String.length stem) - (-1 + 1)))
    with (String.length stem) by lia.
  change (stem ++ ext) with (EmptyString ++ stem ++ ext) at 1.
  rewrite splitext_scan_app. rewrite Nat2Z.id.
  destruct (has_non_dot stem); simpl; [apply substring_app_prefix | reflexivity].
Qed.

(** X9.  A name of the work list that holds no slash splits into a stem
    and a four-character extension that lowers to [.pdf]; the person's
    name is the stem, unless the stem is empty or made of dots only, in
    which case [splitext] finds no extension and the person's name is the
    whole file name. *)
Theorem X9_person_name_is_the_file_name_without_its_extension
    (names : list string) (f : string) :
  f ∈ pdf_names names ->
  PyStr.contains_char "/" f = false ->
  exists stem ext,
    f = stem ++ ext
    /\ String.length ext = 4
    /\ PyStr.lower ext = ".pdf"
    /\ employee_of f = if has_non_dot stem then stem else f.
Proof.
  intros Hin Hslash.
  apply list_elem_of_In in Hin. apply List.filter_In in Hin as [_ Hend].
  destruct (endswith_suffix _ _ Hend) as (lstem & Hl).
  destruct (lower_app_inv _ _ _ Hl) as (stem & ext & -> & _ & Hext).
  exists stem, ext. split; [reflexivity|].
  split; [rewrite <- length_lower, Hext; reflexivity|].
  split; [exact Hext|].
  destruct ext as [|c1 [|c2 [|c3 [|c4 [|c5 ext]]]]]; try discriminate Hext.
  simpl in Hext. injection Hext as Hc1 Hc2 Hc3 Hc4.
  apply lower_char_dot in Hc1. subst c1.
  destruct (lower_char_not_mark _ _ Hc2) as [D2 S2]; [discriminate..|].
  destruct (lower_char_not_mark _ _ Hc3) as [D3 S3]; [discriminate..|].
  destruct (lower_char_not_mark _ _ Hc4) as [D4 S4]; [discriminate..|].
  rewrite contains_char_app in Hslash. apply orb_false_iff in Hslash as [Hstem _].
  unfold employee_of.
  apply (splitext_extension stem c2 c3 c4); assumption.
Qed.

Lemma X9_witness :
  "Alice.PDF" ∈ pdf_names ["notes.txt"; "Alice.PDF"]
  /\ PyStr.contains_char "/" "Alice.PDF" = false
  /\ exists stem ext,
       "Alice.PDF" = stem ++ ext
       /\ String.length ext = 4
       /\ PyStr.lower ext = ".pdf"
       /\ employee_of "Alice.PDF" = if has_non_dot stem then stem else "Alice.PDF".
Proof.
  assert (Hin : "Alice.PDF" ∈ pdf_names ["notes.txt"; "Alice.PDF"]).
  { apply list_elem_of_In. vm_compute. left. reflexivity. }
  split; [exact Hin|]. split; [reflexivity|].
  exact (X9_person_name_is_the_file_name_without_its_extension
           ["notes.txt"; "Alice.PDF"] "Alice.PDF" Hin eq_refl).
Defined.

Module FileNameFacts.

(** A file named [.pdf] is in the work list, and the person is [.pdf]. *)
Example dot_pdf_keeps_its_whole_name :
  pdf_names [".pdf"; "..PDF"] = [".pdf"; "..PDF"]
  /\ employee_of ".pdf" = ".pdf"
  /\ employee_of "..PDF" = "..PDF".
Proof. repeat split; reflexivity. Qed.

End FileNameFacts.

(* ===================================================================== *)
(** ** Whitespace around a name (line 101) *)
(* ===================================================================== *)

Lemma lstrip_pad (ws s : string) :
  all_space ws = true -> PyStr.lstrip (ws ++ s) = PyStr.lstrip s.
Proof.
  induction ws as [|c ws IH]; intros H; [reflexivity|].
  simpl in H. apply andb_true_iff in H as [Hc Hws].
  rewrite append_cons. simpl. rewrite Hc. now apply IH.
Qed.

Lemma lstrip_all_space (ws : string) :
  all_space ws = true -> PyStr.lstrip ws = EmptyString.
Proof.
  induction ws as [|c ws IH]; intros H; [reflexivity|].
  simpl in H. apply andb_true_iff in H as [Hc Hws].
  simpl. rewrite Hc. now apply IH.
Qed.

Lemma rstrip_all_space (ws : string) :
  all_space ws = true -> PyStr.rstrip ws = EmptyString.
Proof.
  induction ws as [|c ws IH]; intros H; [reflexivity|].
  simpl in H. apply andb_true_iff in H as [Hc Hws].
  simpl. rewrite (IH Hws), Hc. reflexivity.
Qed.

Lemma rstrip_pad (s ws : string) :
  all_space ws = true -> PyStr.rstrip (s ++ ws) = PyStr.rstrip s.
Proof.
  intros H. induction s as [|c s IH]; [now apply rstrip_all_space|].
  rewrite append_cons. simpl. now rewrite IH.
Qed.

Lemma strip_pad_right (s ws : string) :
  all_space ws = true -> PyStr.strip (s ++ ws) = PyStr.strip s.
Proof.
  intros H. unfold PyStr.strip. induction s as [|c s IH].
  - simpl. change (EmptyString ++ ws) with ws.
    now rewrite (lstrip_all_space ws H).
  - rewrite append_cons. simpl. destruct (PyStr.isspace c); [exact IH|].
    rewrite <- append_cons. now apply rstrip_pad.
Qed.

(** Whitespace on either side does not change what [strip] gives. *)
Lemma strip_pad (pre s post : string) :
  all_space pre = true -> all_space post = true ->
  PyStr.strip (pre ++ s ++ post) = PyStr.strip s.
Proof.
  intros Hpre Hpost. unfold PyStr.strip at 1.
  rewrite (lstrip_pad pre _ Hpre).
  now apply (strip_pad_right s post).
Qed.

(** X10.  The rows of a person are found whatever whitespace surrounds the
    base name of the certificate file: a padded name selects the same rows
    and yields the same challan numbers as the name itself. *)
Theorem X10_lookup_ignores_whitespace_around_the_name
    (w : World) (df : DataFrame) (name pre post : string) :
  all_space pre = true ->
  all_space post = true ->
  select_rows df employee_col_name (pre ++ name ++ post)
  = select_rows df employee_col_name name
  /\ lookup_challans w df (pre ++ name ++ post) = lookup_challans w df name.
Proof.
  intros Hpre Hpost.
  assert (Hsel : select_rows df employee_col_name (pre ++ name ++ post)
                 = select_rows df employee_col_name name).
  { unfold select_rows. now rewrite (strip_pad pre name post Hpre Hpost). }
  split; [exact Hsel|]. unfold lookup_challans. now rewrite Hsel.
Qed.

Lemma X10_witness :
  all_space "  " = true
  /\ all_space " " = true
  /\ select_rows (strip_columns Scenario.frame) employee_col_name
                 ("  " ++ "Alice" ++ " ")
     = select_rows (strip_columns Scenario.frame) employee_col_name "Alice"
  /\ lookup_challans Scenario.world (strip_columns Scenario.frame)
                     ("  " ++ "Alice" ++ " ")
     = lookup_challans Scenario.world (strip_columns Scenario.frame) "Alice".
Proof.
  split; [reflexivity|]. split; [reflexivity|].
  apply (X10_lookup_ignores_whitespace_around_the_name
           Scenario.world (strip_columns Scenario.frame) "Alice" "  " " ");
    reflexivity.
Defined.

Module WhitespaceFacts.
Import Scenario.

(** The output keeps the name as the file has it: a certificate [ Alice .pdf]
    is matched with the rows of Alice and written as [ Alice _combined.pdf]. *)
Example padded_certificate_name :
  written_docs
    (fst (fst (process_certificate world paths (strip_columns frame) " Alice .pdf" 0
                 (<["/certs/ Alice .pdf" := Pdf ["Alice p1"]]> store))))
  = [("/out/ Alice _combined.pdf", ["Alice p1"; "challan 101"])].
Proof. vm_compute. reflexivity. Qed.

End WhitespaceFacts.

(* ===================================================================== *)
(** ** LogRedirector.write (lines 54-56) *)
(* ===================================================================== *)

(** [rstrip] removes a run of whitespace at the end, and nothing else. *)
Lemma rstrip_decompose (s : string) :
  exists ws, s = PyStr.rstrip s ++ ws /\ all_space ws = true.
Proof.
  induction s as [|c s (ws & Hs & Hws)].
  - exists EmptyString. split; reflexivity.
  - simpl. destruct (PyStr.rstrip s) as [|d r] eqn:Hr.
    + destruct (PyStr.isspace c) eqn:Hc.
      * exists (String c s). split; [reflexivity|].
        simpl. rewrite Hc. simpl. change (EmptyString ++ ws) with ws in Hs.
        now rewrite Hs.
      * exists ws. rewrite append_cons. split; [now rewrite <- Hs | exact Hws].
    + exists ws. rewrite append_cons. split; [now rewrite <- Hs | exact Hws].
Qed.

Lemma append_eq_empty (a b : string) :
  a ++ b = EmptyString -> a = EmptyString /\ b = EmptyString.
Proof.
  destruct a as [|c a]; [|rewrite append_cons; discriminate].
  intros H. change (EmptyString ++ b) with b in H. auto.
Qed.

(** What [rstrip] leaves does not end with whitespace. *)
Lemma rstrip_last (s : string) : forall b c,
  PyStr.rstrip s = b ++ String c EmptyString -> PyStr.isspace c = false.
Proof.
  induction s as [|d s IH]; intros b c H.
  - destruct b; discriminate.
  - simpl in H. destruct (PyStr.rstrip s) as [|e r] eqn:Hr.
    + destruct (PyStr.isspace d) eqn:Hd.
      * destruct b; discriminate.
      * destruct b as [|x b].
        -- change (EmptyString ++ String c EmptyString) with (String c EmptyString) in H.
           congruence.
        -- rewrite append_cons in H. injection H as _ H.
           symmetry in H. apply append_eq_empty in H as [_ H]. discriminate.
    + destruct b as [|x b].
      * change (EmptyString ++ String c EmptyString) with (String c EmptyString) in H.
        discriminate.
      * rewrite append_cons in H. injection H as _ H. now apply (IH b c).
Qed.

(** X11.  [write] logs at most one record, at the level of the redirector:
    the message without the whitespace at its end, leading whitespace kept.
    When nothing but whitespace was written it logs nothing.  The text
    logged is never empty and never ends with whitespace. *)
Theorem X11_write_logs_the_message_without_trailing_whitespace
    (self : Redirect.LogRedirector) (message : string) (fs : gmap string File) :
  exists body ws,
    message = body ++ ws
    /\ all_space ws = true
    /\ (forall b c, body = b ++ String c EmptyString -> PyStr.isspace c = false)
    /\ Redirect.write self message fs =
         (match body with
          | EmptyString => []
          | _ => [Log (Redirect.level self) body]
          end, fs, inr tt).
Proof.
  destruct (rstrip_decompose message) as (ws & Hdec & Hws).
  exists (PyStr.rstrip message), ws.
  split; [exact Hdec|]. split; [exact Hws|].
  split; [apply rstrip_last|].
  unfold Redirect.write.
  destruct (PyStr.rstrip message) as [|c r]; reflexivity.
Qed.

(** X12.  Whitespace written after a text changes nothing: [write] of the
    text followed by whitespace is [write] of the text, and a [print] of
    the text, which writes the text and then the line end, leaves the
    records of one [write] of the text. *)
Theorem X12_trailing_whitespace_and_line_ends_add_no_record
    (self : Redirect.LogRedirector) (text ws : string) (fs : gmap string File) :
  all_space ws = true ->
  Redirect.write self (text ++ ws) fs = Redirect.write self text fs
  /\ Redirect.write self ws fs = ([], fs, inr tt)
  /\ Redirect.print_to self text fs = Redirect.write self text fs.
Proof.
  intros Hws. split; [|split].
  - unfold Redirect.write. now rewrite (rstrip_pad text ws Hws).
  - unfold Redirect.write. now rewrite (rstrip_all_space ws Hws).
  - unfold Redirect.print_to, Redirect.write at 1 3.
    destruct (negb (PyStr.rstrip text =? EmptyString)%string); reflexivity.
Qed.

Lemma X12_witness :
  all_space "  " = true
  /\ Redirect.write {| Redirect.level := ERROR |} ("Traceback" ++ "  ") Scenario.store
     = Redirect.write {| Redirect.level := ERROR |} "Traceback" Scenario.store
  /\ Redirect.write {| Redirect.level := ERROR |} "  " Scenario.store
     = ([], Scenario.store, inr tt)
  /\ Redirect.print_to {| Redirect.level := ERROR |} "Traceback" Scenario.store
     = Redirect.write {| Redirect.level := ERROR |} "Traceback" Scenario.store.
Proof.
  split; [reflexivity|].
  apply (X12_trailing_whitespace_and_line_ends_add_no_record
           {| Redirect.level := ERROR |} "Traceback" "  " Scenario.store).
  reflexivity.
Defined.

(* ===================================================================== *)
(** ** setup_logging (lines 23-47) *)
(* ===================================================================== *)

Section Setup.
Import LoggingSetup.

Variable open_w : string -> option Exn.

Lemma setup_logging_ok log_queue p :
  open_w log_filename = None ->
  setup_logging open_w log_queue p =
    ({| root_level := INFO;
        root_handlers := [FileHandler log_filename "w" (Some log_format);
                          QueueHandler log_queue (Some log_format)];
        sys_stdout := Redirected {| Redirect.level := INFO |};
        sys_stderr := Redirected {| Redirect.level := ERROR |};
        text_files := <[log_filename := EmptyString]> (text_files p) |},
     inr tt).
Proof.
  intros Hopen. unfold setup_logging. rewrite Hopen.
  unfold hasHandlers. simpl. now destruct (root_handlers p).
Qed.

End Setup.

(** X13.  When the log file opens, [setup_logging] leaves the root logger
    at level INFO with exactly two handlers, the file handler first and the
    queue handler of the given queue second, both with the log format,
    whatever handlers were installed before; the log file is emptied and
    the two standard streams are redirected, [stdout] at INFO and [stderr]
    at ERROR.  Calling it again, with the same or another queue, gives what
    a single call with the last queue gives: handlers do not pile up. *)
Theorem X13_setup_logging_installs_exactly_two_handlers
    (open_w : string -> option Exn) (q1 q2 : nat) (p : LoggingSetup.Process) :
  open_w LoggingSetup.log_filename = None ->
  LoggingSetup.root_handlers (fst (LoggingSetup.setup_logging open_w q1 p))
  = [LoggingSetup.FileHandler LoggingSetup.log_filename "w"
       (Some LoggingSetup.log_format);
     LoggingSetup.QueueHandler q1 (Some LoggingSetup.log_format)]
  /\ LoggingSetup.root_level (fst (LoggingSetup.setup_logging open_w q1 p)) = INFO
  /\ LoggingSetup.sys_stdout (fst (LoggingSetup.setup_logging open_w q1 p))
     = LoggingSetup.Redirected {| Redirect.level := INFO |}
  /\ LoggingSetup.sys_stderr (fst (LoggingSetup.setup_logging open_w q1 p))
     = LoggingSetup.Redirected {| Redirect.level := ERROR |}
  /\ LoggingSetup.text_files (fst (LoggingSetup.setup_logging open_w q1 p))
       !! LoggingSetup.log_filename = Some EmptyString
  /\ LoggingSetup.setup_logging open_w q2
       (fst (LoggingSetup.setup_logging open_w q1 p))
     = LoggingSetup.setup_logging open_w q2 p.
Proof.
  intros Hopen.
  rewrite (setup_logging_ok open_w q1 p Hopen). simpl.
  repeat (split; [first [reflexivity | apply lookup_insert_eq]|]).
  rewrite !(setup_logging_ok open_w q2 _ Hopen). simpl.
  now rewrite insert_insert_eq.
Qed.

Lemma X13_witness :
  GuiCases.always_opens LoggingSetup.log_filename = None
  /\ LoggingSetup.root_handlers
       (fst (LoggingSetup.setup_logging GuiCases.always_opens 1
               GuiCases.configured_process))
     = [LoggingSetup.FileHandler LoggingSetup.log_filename "w"
          (Some LoggingSetup.log_format);
        LoggingSetup.QueueHandler 1 (Some LoggingSetup.log_format)]
  /\ LoggingSetup.root_level
       (fst (LoggingSetup.setup_logging GuiCases.always_opens 1
               GuiCases.configured_process)) = INFO
  /\ LoggingSetup.sys_stdout
       (fst (LoggingSetup.setup_logging GuiCases.always_opens 1
               GuiCases.configured_process))
     = LoggingSetup.Redirected {| Redirect.level := INFO |}
  /\ LoggingSetup.sys_stderr
       (fst (LoggingSetup.setup_logging GuiCases.always_opens 1
               GuiCases.configured_process))
     = LoggingSetup.Redirected {| Redirect.level := ERROR |}
  /\ LoggingSetup.text_files
       (fst (LoggingSetup.setup_logging GuiCases.always_opens 1
               GuiCases.configured_process))
       !! LoggingSetup.log_filename = Some EmptyString
  /\ LoggingSetup.setup_logging GuiCases.always_opens 2
       (fst (LoggingSetup.setup_logging GuiCases.always_opens 1
               GuiCases.configured_process))
     = LoggingSetup.setup_logging GuiCases.always_opens 2 GuiCases.configured_process.
Proof.
  split; [reflexivity|].
  apply (X13_setup_logging_installs_exactly_two_handlers
           GuiCases.always_opens 1 2 GuiCases.configured_process).
  reflexivity.
Defined.

(** X14.  When the log file cannot be opened, [setup_logging] raises the
    exception of [FileHandler] after it has set the level and dropped the
    handlers: the root logger is left at level INFO without any handler,
    the standard streams are not redirected and no file is touched. *)
Theorem X14_setup_logging_that_cannot_open_its_file_leaves_no_handler
    (open_w : string -> option Exn) (q : nat) (p : LoggingSetup.Process) (e : Exn) :
  open_w LoggingSetup.log_filename = Some e ->
  LoggingSetup.setup_logging open_w q p =
    ({| LoggingSetup.root_level := INFO;
        LoggingSetup.root_handlers := [];
        LoggingSetup.sys_stdout := LoggingSetup.sys_stdout p;
        LoggingSetup.sys_stderr := LoggingSetup.sys_stderr p;
        LoggingSetup.text_files := LoggingSetup.text_files p |},
     inl e).
Proof.
  intros Hopen. unfold LoggingSetup.setup_logging. rewrite Hopen.
  unfold LoggingSetup.hasHandlers. simpl.
  now destruct (LoggingSetup.root_handlers p).
Qed.

Lemma X14_witness :
  GuiCases.never_opens LoggingSetup.log_filename = Some (OSError "pdf_merger.log")
  /\ LoggingSetup.setup_logging GuiCases.never_opens 1 GuiCases.configured_process =
       ({| LoggingSetup.root_level := INFO;
           LoggingSetup.root_handlers := [];
           LoggingSetup.sys_stdout :=
             LoggingSetup.sys_stdout GuiCases.configured_process;
           LoggingSetup.sys_stderr :=
             LoggingSetup.sys_stderr GuiCases.configured_process;
           LoggingSetup.text_files :=
             LoggingSetup.text_files GuiCases.configured_process |},
        inl (OSError "pdf_merger.log")).
Proof.
  split; [reflexivity|].
  apply (X14_setup_logging_that_cannot_open_its_file_leaves_no_handler
           GuiCases.never_opens 1 GuiCases.configured_process
           (OSError "pdf_merger.log")).
  reflexivity.
Defined.

(* ===================================================================== *)
(** ** process_log_queue (lines 222-231) *)
(* ===================================================================== *)

Section Drain.
Import LoggingSetup Gui.

Context {LogRecord : Type}.
Variable format : string -> LogRecord -> string.

Lemma append_empty_r (s : string) : s ++ EmptyString = s.
Proof.
  induction s as [|c s IH]; [reflexivity|]. rewrite append_cons. now rewrite IH.
Qed.

(** With a formatter at [handlers[1]] the loop empties the queue. *)
Lemma drain_queue_formats handlers h fmt (queue : list LogRecord) : forall wd,
  nth_error handlers 1 = Some h ->
  formatter_of h = Some fmt ->
  drain_queue format handlers queue wd =
    ([],
     {| text_state := match queue with [] => text_state wd | _ => disabled end;
        text_content := text_content wd ++ display_lines format fmt queue |},
     inr tt).
Proof.
  induction queue as [|record queue IH]; intros wd Hh Hfmt.
  - simpl. rewrite append_empty_r. now destruct wd.
  - cbn [drain_queue]. rewrite Hh, Hfmt. cbv zeta. rewrite (IH _ Hh Hfmt).
    unfold text_config, text_insert_end. cbn [text_state text_content display_lines].
    rewrite append_assoc. now destruct queue.
Qed.

(** With fewer than two handlers the first record is lost. *)
Lemma drain_queue_index_error handlers (record : LogRecord) queue wd :
  length handlers < 2 ->
  drain_queue format handlers (record :: queue) wd = (queue, wd, inl IndexError).
Proof.
  intros Hlen. cbn [drain_queue].
  destruct handlers as [|h1 [|h2 hs]]; simpl in *; [reflexivity | reflexivity | lia].
Qed.

End Drain.

(** X15.  After [setup_logging] has run (from any state of the process),
    [process_log_queue] does not raise: it empties the queue into the log
    text area, one line per record in the order of the queue, each
    formatted with the log format and followed by a line feed, after the
    text that was there; it leaves the text area disabled when it showed
    anything, and asks to be called again after 100 ms. *)
Theorem X15_process_log_queue_shows_every_record_in_order
    {LogRecord : Type} (format : string -> LogRecord -> string)
    (open_w : string -> option Exn) (q : nat) (p : LoggingSetup.Process)
    (v : Gui.LogView) :
  open_w LoggingSetup.log_filename = None ->
  Gui.process_log_queue format
    (LoggingSetup.root_handlers (fst (LoggingSetup.setup_logging open_w q p))) v =
    ({| Gui.log_queue := [];
        Gui.log_text :=
          {| Gui.text_state :=
               match Gui.log_queue v with
               | [] => Gui.text_state (Gui.log_text v)
               | _ => Gui.disabled
               end;
             Gui.text_content :=
               Gui.text_content (Gui.log_text v)
               ++ display_lines format LoggingSetup.log_format (Gui.log_queue v) |};
        Gui.pending_after := (Gui.pending_after v ++ [100])%list |},
     inr tt).
Proof.
  intros Hopen. rewrite (setup_logging_ok open_w q p Hopen).
  cbn [fst LoggingSetup.root_handlers].
  unfold Gui.process_log_queue.
  now rewrite (drain_queue_formats format
                 [LoggingSetup.FileHandler LoggingSetup.log_filename "w"
                    (Some LoggingSetup.log_format);
                  LoggingSetup.QueueHandler q (Some LoggingSetup.log_format)]
                 (LoggingSetup.QueueHandler q (Some LoggingSetup.log_format))
                 LoggingSetup.log_format (Gui.log_queue v) (Gui.log_text v)
                 eq_refl eq_refl).
Qed.

Lemma X15_witness :
  GuiCases.always_opens LoggingSetup.log_filename = None
  /\ Gui.process_log_queue GuiCases.show
       (LoggingSetup.root_handlers
          (fst (LoggingSetup.setup_logging GuiCases.always_opens 1
                  GuiCases.configured_process))) GuiCases.view =
       ({| Gui.log_queue := [];
           Gui.log_text :=
             {| Gui.text_state :=
                  match Gui.log_queue GuiCases.view with
                  | [] => Gui.text_state (Gui.log_text GuiCases.view)
                  | _ => Gui.disabled
                  end;
                Gui.text_content :=
                  Gui.text_content (Gui.log_text GuiCases.view)
                  ++ display_lines GuiCases.show LoggingSetup.log_format
                                   (Gui.log_queue GuiCases.view) |};
           Gui.pending_after := (Gui.pending_after GuiCases.view ++ [100])%list |},
        inr tt).
Proof.
  split; [reflexivity|].
  apply (X15_process_log_queue_shows_every_record_in_order
           GuiCases.show GuiCases.always_opens 1 GuiCases.configured_process
           GuiCases.view).
  reflexivity.
Defined.

(** X16.  With fewer than two handlers on the root logger (for one, after a
    [setup_logging] that could not open its file), [process_log_queue] on a
    queue that is not empty raises [IndexError]: the first record has left
    the queue and is not shown, the text area is as it was, and the next
    call is not scheduled.  On an empty queue it raises nothing and is
    scheduled again. *)
Theorem X16_process_log_queue_without_queue_handler_loses_a_record
    {LogRecord : Type} (format : string -> LogRecord -> string)
    (handlers : list LoggingSetup.Handler) (v : Gui.LogView) :
  length handlers < 2 ->
  Gui.process_log_queue format handlers v =
    match Gui.log_queue v with
    | [] =>
        ({| Gui.log_queue := [];
            Gui.log_text := Gui.log_text v;
            Gui.pending_after := (Gui.pending_after v ++ [100])%list |}, inr tt)
    | _ :: queue =>
        ({| Gui.log_queue := queue;
            Gui.log_text := Gui.log_text v;
            Gui.pending_after := Gui.pending_after v |}, inl Gui.IndexError)
    end.
Proof.
  intros Hlen. unfold Gui.process_log_queue.
  destruct (Gui.log_queue v) as [|record queue]; [reflexivity|].
  now rewrite (drain_queue_index_error format handlers record queue _ Hlen).
Qed.

Lemma X16_witness :
  length (LoggingSetup.root_handlers
            (fst (LoggingSetup.setup_logging GuiCases.never_opens 1
                    GuiCases.configured_process))) < 2
  /\ Gui.process_log_queue GuiCases.show
       (LoggingSetup.root_handlers
          (fst (LoggingSetup.setup_logging GuiCases.never_opens 1
                  GuiCases.configured_process))) GuiCases.view =
       match Gui.log_queue GuiCases.view with
       | [] =>
           ({| Gui.log_queue := [];
               Gui.log_text := Gui.log_text GuiCases.view;
               Gui.pending_after := (Gui.pending_after GuiCases.view ++ [100])%list |},
            inr tt)
       | _ :: queue =>
           ({| Gui.log_queue := queue;
               Gui.log_text := Gui.log_text GuiCases.view;
               Gui.pending_after := Gui.pending_after GuiCases.view |},
            inl Gui.IndexError)
       end.
Proof.
  assert (Hlen : length (LoggingSetup.root_handlers
                           (fst (LoggingSetup.setup_logging GuiCases.never_opens 1
                                   GuiCases.configured_process))) < 2).
  { vm_compute. lia. }
  split; [exact Hlen|].
  exact (X16_process_log_queue_without_queue_handler_loses_a_record
           GuiCases.show _ GuiCases.view Hlen).
Defined.

(* ===================================================================== *)
(** ** The start button and the worker thread (lines 200-220) *)
(* ===================================================================== *)

Lemma critical_not_core msg t : Gui.LogCritical msg ∉ map Gui.Core t.
Proof.
  induction t as [|a t IH]; simpl; [apply not_elem_of_nil|].
  apply not_elem_of_cons. split; [discriminate | exact IH].
Qed.

(** When an exception leaves the pipeline. *)
Lemma merge_pdfs_logic_raises_iff w paths fs :
  (exists e, snd (merge_pdfs_logic w paths fs) = inl e)
  <-> (exists df0 e, read_excel w (excel_file paths) = inr df0
                     /\ validated df0 = true
                     /\ listdir w (cert_dir paths) = inl e).
Proof.
  destruct (read_excel w (excel_file paths)) as [e|df0] eqn:Hread.
  { rewrite (merge_pdfs_logic_read_raises w paths fs e Hread). simpl.
    split; [intros [? H]; discriminate | intros (? & ? & H & _); discriminate]. }
  destruct (validated df0) eqn:Hval.
  2:{ rewrite (merge_pdfs_logic_schema_error w paths df0 fs Hread Hval). simpl.
      split; [intros [? H]; discriminate|].
      intros (df1 & ? & H & Hv & _). congruence. }
  destruct (listdir w (cert_dir paths)) as [e|names] eqn:Hlist.
  { rewrite (merge_pdfs_logic_listdir_raises w paths df0 fs e Hread Hval Hlist).
    simpl. split; [|eauto]. intros _. exists df0, e. auto. }
  destruct (process_all_count w paths (strip_columns df0) (pdf_names names) 0 fs)
    as (t0 & fs0 & n0 & Hall & _).
  rewrite (merge_pdfs_logic_completed w paths df0 names fs t0 fs0 n0
             Hread Hval Hlist Hall). simpl.
  split; [intros [? H]; discriminate | intros (? & ? & _ & _ & H); discriminate].
Qed.

(** X17.  [run_merger_thread] never lets an exception through and always
    puts the start button back to [normal] with the text 'Start Merging'.
    Its records are those of the pipeline, its effect on the files is the
    pipeline's, and it logs the critical record of line 217 exactly when
    the mapping loaded and was validated and the certificate directory
    could not be listed. *)
Theorem X17_worker_thread_always_reenables_the_start_button
    (w : World) (paths : Paths) (app : Gui.App) (fs : gmap string File) :
  exists t,
    Gui.run_merger_thread w paths app fs =
      (t, snd (fst (merge_pdfs_logic w paths fs)),
       {| Gui.app_paths := Gui.app_paths app;
          Gui.start_button := {| Gui.button_state := Gui.normal;
                                 Gui.button_text := "Start Merging" |} |})
    /\ (forall a, Gui.Core a ∈ t <-> a ∈ fst (fst (merge_pdfs_logic w paths fs)))
    /\ ((exists msg, Gui.LogCritical msg ∈ t)
        <-> (exists df0 e, read_excel w (excel_file paths) = inr df0
                           /\ validated df0 = true
                           /\ listdir w (cert_dir paths) = inl e)).
Proof.
  pose proof (merge_pdfs_logic_raises_iff w paths fs) as Hiff.
  unfold Gui.run_merger_thread.
  destruct (merge_pdfs_logic w paths fs) as [[t0 fs'] [e|[]]]; simpl in *.
  - eexists. split; [reflexivity|]. split.
    + intros a. rewrite elem_of_app, list_elem_of_singleton.
      split.
      * intros [H|H]; [|discriminate].
        apply list_elem_of_fmap in H as (b & Hb & Hin). congruence.
      * intros H. left. apply list_elem_of_fmap. eauto.
    + rewrite <- Hiff. split; [eauto|]. intros _.
      exists (Gui.unhandled_msg w e).
      apply elem_of_app. right. apply list_elem_of_singleton. reflexivity.
  - eexists. split; [reflexivity|]. split.
    + intros a. split.
      * intros H. apply list_elem_of_fmap in H as (b & Hb & Hin). congruence.
      * intros H. apply list_elem_of_fmap. eauto.
    + rewrite <- Hiff. split.
      * intros [msg H]. exfalso. now apply (critical_not_core msg t0).
      * intros [? H]. discriminate.
Qed.

(** X18.  [start_processing] starts the worker only when each of the four
    locations is chosen.  With one of them empty it logs one error record,
    starts nothing and leaves the button as it was.  Otherwise it logs
    nothing, disables the button with the text 'Processing...', and hands
    the worker the four locations in the roles [merge_pdfs_logic] gives
    them, none of them empty; when that worker is done the button is back
    to [normal]. *)
Theorem X18_start_processing_runs_the_pipeline_only_with_four_locations
    (app : Gui.App) :
  match Gui.start_processing app with
  | (t, app', None) =>
      (Gui.var_cert (Gui.app_paths app) = EmptyString
       \/ Gui.var_challan (Gui.app_paths app) = EmptyString
       \/ Gui.var_output (Gui.app_paths app) = EmptyString
       \/ Gui.var_excel (Gui.app_paths app) = EmptyString)
      /\ t = [Gui.Core (Log ERROR "All paths must be selected before starting.")]
      /\ app' = app
  | (t, app', Some paths) =>
      t = []
      /\ cert_dir paths = Gui.var_cert (Gui.app_paths app)
      /\ challan_dir paths = Gui.var_challan (Gui.app_paths app)
      /\ output_dir paths = Gui.var_output (Gui.app_paths app)
      /\ excel_file paths = Gui.var_excel (Gui.app_paths app)
      /\ cert_dir paths <> EmptyString
      /\ challan_dir paths <> EmptyString
      /\ output_dir paths <> EmptyString
      /\ excel_file paths <> EmptyString
      /\ Gui.start_button app'
         = {| Gui.button_state := Gui.disabled; Gui.button_text := "Processing..." |}
      /\ (forall w fs,
            Gui.start_button (snd (Gui.run_merger_thread w paths app' fs))
            = {| Gui.button_state := Gui.normal; Gui.button_text := "Start Merging" |})
  end.
Proof.
  unfold Gui.start_processing, Gui.all_selected.
  destruct (String.eqb_spec (Gui.var_cert (Gui.app_paths app)) EmptyString) as [H1|H1];
    [simpl; auto|].
  destruct (String.eqb_spec (Gui.var_challan (Gui.app_paths app)) EmptyString) as [H2|H2];
    [simpl; auto|].
  destruct (String.eqb_spec (Gui.var_output (Gui.app_paths app)) EmptyString) as [H3|H3];
    [simpl; auto 6|].
  destruct (String.eqb_spec (Gui.var_excel (Gui.app_paths app)) EmptyString) as [H4|H4];
    [simpl; auto 6|].
  simpl. repeat (split; [first [reflexivity | assumption]|]).
  intros w fs. unfold Gui.run_merger_thread.
  now destruct (merge_pdfs_logic w _ fs) as [[? ?] [?|?]].
Qed.

Module GuiFacts.
Import GuiCases.

(** With the excel location missing nothing is started; with the four
    locations chosen the scenario runs and the button comes back. *)
Example click_without_excel :
  Gui.start_processing app_without_excel
  = ([Gui.Core (Log ERROR "All paths must be selected before starting.")],
     app_without_excel, None).
Proof. reflexivity. Qed.

Example click_then_worker :
  snd (fst (Gui.start_processing app)) <> app
  /\ snd (Gui.start_processing app) = Some Scenario.paths
  /\ snd (Gui.run_merger_thread Scenario.world Scenario.paths
            (snd (fst (Gui.start_processing app))) Scenario.store) = app.
Proof.
  split; [intros H; vm_compute in H; discriminate H|].
  split; reflexivity.
Qed.

(** The worker when the certificate directory cannot be listed. *)
Example worker_logs_the_unhandled_exception :
  last (fst (fst (Gui.run_merger_thread Scenario.world_unlistable Scenario.paths
                    app Scenario.store)))
  = Some (Gui.LogCritical
            ("An unhandled exception occurred in the processing thread: "
             ++ "No such file or directory: '/certs'")).
Proof. vm_compute. reflexivity. Qed.

End GuiFacts.

Lemma X11_witness :
  exists body ws,
    "  disk almost full  " = body ++ ws
    /\ all_space ws = true
    /\ (forall b c, body = b ++ String c EmptyString -> PyStr.isspace c = false)
    /\ Redirect.write {| Redirect.level := INFO |} "  disk almost full  " Scenario.store =
         (match body with
          | EmptyString => []
          | _ => [Log (Redirect.level {| Redirect.level := INFO |}) body]
          end, Scenario.store, inr tt).
Proof.
  exact (X11_write_logs_the_message_without_trailing_whitespace
           {| Redirect.level := INFO |} "  disk almost full  " Scenario.store).
Defined.

Lemma X17_witness :
  exists t,
    Gui.run_merger_thread Scenario.world_unlistable Scenario.paths GuiCases.app
      Scenario.store =
      (t, snd (fst (merge_pdfs_logic Scenario.world_unlistable Scenario.paths
                      Scenario.store)),
       {| Gui.app_paths := Gui.app_paths GuiCases.app;
          Gui.start_button := {| Gui.button_state := Gui.normal;
                                 Gui.button_text := "Start Merging" |} |})
    /\ (forall a, Gui.Core a ∈ t
                  <-> a ∈ fst (fst (merge_pdfs_logic Scenario.world_unlistable
                                      Scenario.paths Scenario.store)))
    /\ ((exists msg, Gui.LogCritical msg ∈ t)
        <-> (exists df0 e,
               read_excel Scenario.world_unlistable (excel_file Scenario.paths)
               = inr df0
               /\ validated df0 = true
               /\ listdir Scenario.world_unlistable (cert_dir Scenario.paths) = inl e)).
Proof.
  exact (X17_worker_thread_always_reenables_the_start_button
           Scenario.world_unlistable Scenario.paths GuiCases.app Scenario.store).
Defined.

(* ===================================================================== *)
(** ** What the validation of line 78 rules out *)
(* ===================================================================== *)

Lemma label_positions_from_nil cols label : forall i,
  label_positions_from cols label i = [] -> CStr label ∉ cols.
Proof.
  induction cols as [|c cols IH]; intros i H; [apply not_elem_of_nil|].
  simpl in H. destruct (decide (c = CStr label)) as [->|Hne].
  - rewrite bool_decide_eq_true_2 in H by reflexivity. discriminate.
  - rewrite bool_decide_eq_false_2 in H by exact Hne.
    apply not_elem_of_cons. split; [congruence | now apply (IH (S i))].
Qed.

Lemma has_column_positions df label :
  has_column df label = true -> label_positions (df_columns df) label <> [].
Proof.
  unfold has_column. rewrite bool_decide_eq_true. intros Hin Hnil.
  now apply (label_positions_from_nil _ _ 0 Hnil).
Qed.

Lemma challan_nums_total w cols rows :
  label_positions cols challan_col_name <> [] ->
  exists ids, challan_nums w cols rows = inr ids /\ length ids = length rows.
Proof.
  intros Hne. induction rows as [|row rows (ids & Hids & Hlen)].
  - exists []. split; reflexivity.
  - simpl. unfold row_item_str.
    destruct (label_positions cols challan_col_name) as [|j [|j' js]] eqn:Hj;
      [contradiction | |]; rewrite Hids; eexists; (split; [reflexivity|]);
      simpl; now rewrite Hlen.
Qed.

(** X19.  On a mapping that passed the validation of line 78, looking a
    person up never meets a missing column: it yields one challan number
    per selected row, or, when the stripped labels name 'Employee Name'
    more than once, the exception of line 101; a [KeyError] is impossible. *)
Theorem X19_validated_mapping_never_raises_key_error
    (w : World) (df0 : DataFrame) (name : string) :
  validated df0 = true ->
  match lookup_challans w (strip_columns df0) name with
  | inr ids =>
      exists sel,
        select_rows (strip_columns df0) employee_col_name name = inr sel
        /\ length ids = length (df_rows sel)
  | inl e =>
      e = no_str_accessor
      /\ exists i j rest,
           label_positions (df_columns (strip_columns df0)) employee_col_name
           = i :: j :: rest
  end.
Proof.
  intros Hval. unfold validated in Hval. apply andb_true_iff in Hval as [He Hc].
  apply has_column_positions in He. apply has_column_positions in Hc.
  unfold lookup_challans, select_rows.
  destruct (label_positions (df_columns (strip_columns df0)) employee_col_name)
    as [|i [|j rest]] eqn:Hi; [contradiction | |].
  - cbn [df_columns df_rows].
    destruct (challan_nums_total w (df_columns (strip_columns df0))
                (List.filter
                   (fun row => String.eqb (PyStr.strip (py_str (cell_at row i)))
                                          (PyStr.strip name))
                   (df_rows (strip_columns df0))) Hc) as (ids & Hids & Hlen).
    rewrite Hids. eexists. split; [reflexivity | exact Hlen].
  - split; [reflexivity|]. eauto.
Qed.

Lemma X19_witness :
  validated Scenario.frame = true
  /\ match lookup_challans Scenario.world (strip_columns Scenario.frame) "Alice" with
     | inr ids =>
         exists sel,
           select_rows (strip_columns Scenario.frame) employee_col_name "Alice"
           = inr sel
           /\ length ids = length (df_rows sel)
     | inl e =>
         e = no_str_accessor
         /\ exists i j rest,
              label_positions (df_columns (strip_columns Scenario.frame))
                              employee_col_name
              = i :: j :: rest
     end.
Proof.
  split; [reflexivity|].
  apply (X19_validated_mapping_never_raises_key_error
           Scenario.world Scenario.frame "Alice").
  reflexivity.
Defined.
